(** * terraform-provider-ravendb: the provisioning and reconciliation engine

    A shallow embedding of [ravendb/rvn_server.go] and of the resource file
    that accompanies it (archive extraction, fleet read-back, key hashing),
    together with the properties of the specification that concern them.

    Conventions.
    - A Go [string] is a [string]; a [[]byte] is a [list byte] (a nil and an
      empty slice are identified: nothing below tells them apart).
    - A Go [error] is an [option GoError]: [None] is [nil].
    - A Go map is a [gmap]; a map that may be nil is an [option (gmap _ _)].
    - The remote world (the RavenDB cluster behind the document store, the
      SSH daemon of a host) is an oracle [Env]: it answers a request from the
      history of everything that was sent or slept before it.  Code that
      talks to it lives in the monad [M], which records the events a
      computation emits and can stop in a Go [panic]. *)

From Stdlib Require Import ZArith List Lia Ascii DecimalString.
From stdpp Require Import base gmap strings list.

Open Scope Z_scope.

(** ** Go library functions on strings *)

Module GoStrings.

(** [strings.Contains s substr]. *)
Fixpoint Contains (s substr : string) : bool :=
  String.prefix substr s ||
  match s with
  | EmptyString => false
  | String _ s' => Contains s' substr
  end.

(** [strings.Join elems sep]. *)
Definition Join (elems : list string) (sep : string) : string :=
  String.concat sep elems.

(** [strings.IndexByte s c >= 0]. *)
Fixpoint HasByte (c : ascii) (s : string) : bool :=
  match s with
  | EmptyString => false
  | String d s' => if Ascii.eqb c d then true else HasByte c s'
  end.

(** [strconv.Itoa] / [fmt.Sprint] of an [int]. *)
Definition Itoa (n : Z) : string := NilZero.string_of_int (Z.to_int n).

(** [net.JoinHostPort host port]: a host with a colon is taken for an IPv6
    literal and bracketed. *)
Definition JoinHostPort (host port : string) : string :=
  if HasByte ":"%char host then "[" +:+ host +:+ "]:" +:+ port
  else host +:+ ":" +:+ port.

(** [strings.Split] at the slashes: the pieces between them (never an empty list). *)
Fixpoint SplitSlash (s : string) : list string :=
  match s with
  | EmptyString => [EmptyString]
  | String c s' =>
      if Ascii.eqb c "/"%char then EmptyString :: SplitSlash s'
      else match SplitSlash s' with
           | [] => [String c EmptyString]
           | p :: ps => String c p :: ps
           end
  end.

(** [filepath.Ext path]: the suffix that starts at the last dot of the last
    slash-separated element; empty when that element has no dot.  The
    accumulator is the extension found so far in the current element. *)
Fixpoint Ext_from (path : string) (found : option string) : string :=
  match path with
  | EmptyString => default EmptyString found
  | String c rest =>
      if Ascii.eqb c "/"%char then Ext_from rest None
      else if Ascii.eqb c "."%char then Ext_from rest (Some path)
      else Ext_from rest found
  end.
Definition Ext (path : string) : string := Ext_from path None.

(** [strings.ToUpper] and [strings.TrimSpace] on ASCII text.  The code is
    embedded over arbitrary such functions (they are parameters of the
    reconciler below); these are the instances used to run it. *)
Definition upper_ascii (c : ascii) : ascii :=
  let n := nat_of_ascii c in
  if ((97 <=? n)%nat && (n <=? 122)%nat)%bool then ascii_of_nat (n - 32) else c.
Fixpoint ToUpper (s : string) : string :=
  match s with
  | EmptyString => EmptyString
  | String c s' => String (upper_ascii c) (ToUpper s')
  end.

Definition is_space (c : ascii) : bool :=
  let n := nat_of_ascii c in
  ((n =? 32)%nat || ((9 <=? n)%nat && (n <=? 13)%nat))%bool.
Fixpoint TrimLeft (s : string) : string :=
  match s with
  | EmptyString => EmptyString
  | String c s' => if is_space c then TrimLeft s' else s
  end.
Definition TrimSpace (s : string) : string :=
  String.rev (TrimLeft (String.rev (TrimLeft s))).

End GoStrings.

(** ** Errors, panics and the world *)

(** The dynamic types of the errors the code tells apart. *)
Inductive ErrType :=
  | NoLeaderError
  | AllTopologyNodesDownError
  | DatabaseDoesNotExistError
  | ConcurrencyError
  | DeployErrorType
  | PlainError.

#[global] Instance ErrType_eq_dec : EqDecision ErrType.
Proof. solve_decision. Defined.

(** A Go error value: its dynamic type, the types of the errors it wraps
    (what [Unwrap] reaches), and the text of [Error()]. *)
Record GoError := mkError {
  err_type : ErrType;
  err_chain : list ErrType;
  err_msg : string
}.

(** [errors.New msg]. *)
Definition errors_New (msg : string) : GoError := mkError PlainError [] msg.

(** [errors.As(err, &target)] for a target of type [T]: false on nil. *)
Definition errors_As (err : option GoError) (T : ErrType) : bool :=
  match err with
  | None => false
  | Some e => bool_decide (err_type e = T) || existsb (fun U => bool_decide (U = T)) (err_chain e)
  end.

(** Outcome of a Go call: it returns a value or panics. *)
Inductive Res (A : Type) :=
  | Val (a : A)
  | Panic (msg : string).
Arguments Val {A} a.
Arguments Panic {A} msg.

(** ** Data model ([rvn_server.go], lines 40-123) *)

(** A value of type [interface{}] in a settings map. *)
Inductive Any :=
  | AnyString (s : string)
  | AnyBool (b : bool)
  | AnyNumber (z : Z).

Record CertificateHolder := mkCertificateHolder {
  Pfx : list Byte.byte;
  Cert : list Byte.byte;
  Key : list Byte.byte;
  SettingsJson : list Byte.byte;
  License : list Byte.byte
}.

Record Index := mkIndex {
  IndexName : string;
  Maps : list string;
  Reduce : string;
  Configuration : gmap string string
}.

Record Database := mkDatabase {
  Name : string;
  Settings : gmap string string;
  ReplicationNodes : list string;
  DbKey : string;                      (* field [Key] *)
  Indexes : list Index
}.

Record DatabaseToDelete := mkDatabaseToDelete {
  DelName : string;                    (* field [Name] *)
  HardDelete : bool
}.

Record IndexesToDelete := mkIndexesToDelete {
  DatabaseName : string;
  IndexesNames : list string
}.

Record Url := mkUrl {
  UrlList : list string;               (* field [List] *)
  HttpPort : Z;
  TcpPort : Z
}.

Record Package := mkPackage {
  Version : string;
  Arch : string
}.

Record SSH := mkSSH {
  User : string;
  Pem : list Byte.byte;
  Port : Z
}.

Record ServerConfig := mkServerConfig {
  ScPackage : Package;                 (* field [Package] *)
  Hosts : list string;
  ScSettings : gmap string Any;        (* field [Settings] *)
  ClusterSetupZip : gmap string CertificateHolder;
  ScUrl : Url;                         (* field [Url] *)
  Assets : gmap string (list Byte.byte);
  Unsecured : bool;
  ScSSH : SSH;                         (* field [SSH] *)
  HealthcheckDatabase : string;
  Databases : list Database;
  DatabasesToDelete : list DatabaseToDelete;
  IndexesToDelete_ : list IndexesToDelete   (* field [IndexesToDelete] *)
}.

Record NodeState := mkNodeState {
  NsHost : string;                     (* field [Host] *)
  NsSettings : gmap string Any;        (* field [Settings] *)
  NsClusterSetupZip : gmap string CertificateHolder;   (* field [ClusterSetupZip] *)
  NsAssets : gmap string (list Byte.byte);             (* field [Assets] *)
  NsUnsecured : bool;                  (* field [Unsecured] *)
  NsVersion : string;                  (* field [Version] *)
  Failed : bool;
  NsDatabases : list Database;         (* field [Databases] *)
  NsDatabasesToDelete : list DatabaseToDelete;         (* field [DatabasesToDelete] *)
  NsIndexesToDelete : list IndexesToDelete;            (* field [IndexesToDelete] *)
  Licence : list Byte.byte
}.

(** The zero value of [NodeState] ([var ns NodeState], a fresh slot of
    [make([]NodeState, n)]). *)
Definition zeroNodeState : NodeState := mkNodeState "" ∅ ∅ ∅ false "" false [] [] [] [].

Definition NUMBER_OF_RETRIES : nat := 5.
Definition CREDENTIALS_FOR_SECURE_STORE_FIELD_NAME : string := "store".

(** [func (s *SSH) getPort() int] *)
Definition getPort (s : SSH) : Z := if negb (Port s =? 0) then Port s else 22.

(** ** The client library's values, as far as the code builds or reads them *)

Record DatabaseTopology := mkDatabaseTopology {
  Members : list string;
  ReplicationFactor : Z;
  DynamicNodesDistribution : bool
}.

Record DatabaseRecord := mkDatabaseRecord {
  RecDatabaseName : string;            (* field [DatabaseName] *)
  RecSettings : gmap string string;    (* field [Settings] *)
  Encrypted : bool;
  RecTopology : option DatabaseTopology  (* field [DatabaseTopology], nil when absent *)
}.

Record IndexDefinition := mkIndexDefinition {
  DefName : string;
  DefMaps : list string;
  DefReduce : option string;           (* [*string], nil in a fresh definition *)
  DefConfiguration : gmap string string
}.

Record ServerNode := mkServerNode {
  ClusterTag : string;
  NodeURL : string
}.

(** An open connection to the remote shell of a host. *)
Record SshClient := mkSshClient { remoteAddr : string }.

(** Operations and commands handed to the document store. *)
Inductive Op :=
  | OperationGetBuildNumber
  | OperationGetClusterTopology
  | CreateDatabaseOperation (rec : DatabaseRecord) (replicationFactor : Z)
  | DeleteDatabasesOperation (names : list string) (hardDelete : bool) (fromNodes : list string)
  | OperationAddDatabaseNode (name node : string)
  | OperationDistributeSecretKey (name : string) (nodes : list string) (key : string)
  | OperationDatabaseHealthCheck
  | PutIndexesOperation (def : IndexDefinition)
  | DeleteIndexOperation (indexName : string)
  | GetDatabaseTopologyCommand.

(** What the code asks of the world. *)
Inductive Request :=
  | GetStore (holder : CertificateHolder)    (* [getStore]: build and initialise the store *)
  | ServerSend (op : Op)                     (* [store.Maintenance().Server().Send(op)] *)
  | MaintenanceSend (op : Op)                (* [store.Maintenance().Send(op)] *)
  | ForDatabaseSend (db : string) (op : Op)  (* [store.Maintenance().ForDatabase(db).Send(op)] *)
  | ExecuteCommand (db : string) (cmd : Op)  (* [store.GetRequestExecutor(db).ExecuteCommand(cmd, nil)] *)
  | ParsePrivateKey (pem : list Byte.byte)   (* [ssh.ParsePrivateKey(pem)] *)
  | SshDial (hostAndPort : string)           (* [ssh.Dial(tcp, hostAndPort, authConfig)] *)
  | SshNewSession (conn : SshClient)         (* [conn.NewSession()] *)
  | SshRun (conn : SshClient) (cmd : string). (* [session.Run(cmd)] *)

Inductive Event :=
  | Call (r : Request)
  | Sleep (seconds : Z).

(** The answer to a request: the error (nil on success) and the fields the
    operation object was filled with. *)
Record Reply := mkReply {
  reply_err : option GoError;
  reply_members : list string;               (* [Topology.Members] of a cluster topology *)
  reply_topologyID : string;                 (* [Topology.TopologyID] *)
  reply_nodes : option (list ServerNode);    (* [command.Result], nil when absent; its [Nodes] *)
  reply_output : string                      (* what a remote command wrote to stdout and stderr *)
}.

Definition okReply : Reply := mkReply None [] "" None "".
Definition errReply (e : GoError) : Reply := mkReply (Some e) [] "" None "".

(** The world: the answer depends on everything that happened before. *)
Definition Env := list Event -> Request -> Reply.

(** ** The monad of effectful code *)

(** A computation reads the history so far and yields its outcome and the
    events it emitted itself, oldest first. *)
Definition M (A : Type) : Type := list Event -> Res A * list Event.

Definition ret {A} (a : A) : M A := fun _ => (Val a, []).

Definition bind {A B} (m : M A) (f : A -> M B) : M B :=
  fun h =>
    match m h with
    | (Val a, t1) => let '(r, t2) := f a (h ++ t1) in (r, t1 ++ t2)
    | (Panic msg, t1) => (Panic msg, t1)
    end.

Definition panic {A} (msg : string) : M A := fun _ => (Panic msg, []).

Definition call (env : Env) (r : Request) : M Reply :=
  fun h => (Val (env h r), [Call r]).

(** [time.Sleep(time.Second * n)] *)
Definition sleep (seconds : Z) : M unit := fun _ => (Val tt, [Sleep seconds]).

Declare Scope go_scope.
Delimit Scope go_scope with go.
Notation "x <- m ;; k" := (bind m (fun x => k))
  (at level 100, m at next level, right associativity) : go_scope.
Notation "m ;;; k" := (bind m (fun _ => k))
  (at level 100, right associativity) : go_scope.
Open Scope go_scope.

Definition result {A} (m : M A) (h : list Event) : Res A := fst (m h).
Definition trace {A} (m : M A) (h : list Event) : list Event := snd (m h).

(** Every event a computation emits satisfies [P], whatever the history. *)
Definition emits {A} (P : Event -> Prop) (m : M A) : Prop :=
  forall h, Forall P (trace m h).


(** ** The cluster topology reconciler ([rvn_server.go], lines 802-1346) *)

Section Reconciler.

(** The world, and Go's [strings.ToUpper] and [strings.TrimSpace]. *)
Variable env : Env.
Variable ToUpper : string -> string.
Variable TrimSpace : string -> string.

(** [func contains(s []string, str string) (bool, int)]: the first index
    whose element equals [str] up to case; [(false, -1)] when none does. *)
Fixpoint contains_from (i : nat) (s : list string) (str : string) : bool * Z :=
  match s with
  | [] => (false, -1)
  | v :: s' =>
      if String.eqb (ToUpper v) (ToUpper str) then (true, Z.of_nat i)
      else contains_from (S i) s' str
  end.
Definition contains (s : list string) (str : string) : bool * Z :=
  contains_from 0 s str.

(** [func executeWithRetries(store, operation) error].  The loop counts the
    iterations that remain; [last] is the variable [err] together with what
    the operation object holds.  The source tests [errors.As(err,
    &errNoLeader)] twice. *)
Fixpoint executeWithRetries_loop (n : nat) (op : Op) (last : Reply) : M Reply :=
  match n with
  | O => ret last
  | S n' =>
      r <- call env (ServerSend op) ;;
      match reply_err r with
      | None => ret r
      | Some _ =>
          if negb (errors_As (reply_err r) NoLeaderError)
             && negb (errors_As (reply_err r) NoLeaderError)
          then ret r
          else sleep 5 ;;; executeWithRetries_loop n' op r
      end
  end.
Definition executeWithRetries (op : Op) : M Reply :=
  executeWithRetries_loop NUMBER_OF_RETRIES op okReply.

(** [func executeWithRetriesMaintenanceOperations(store, operation) error] *)
Fixpoint executeWithRetriesMaintenanceOperations_loop
    (n : nat) (op : Op) (err : option GoError) : M (option GoError) :=
  match n with
  | O => ret err
  | S n' =>
      r <- call env (MaintenanceSend op) ;;
      match reply_err r with
      | None => ret None
      | Some e => sleep 5 ;;; executeWithRetriesMaintenanceOperations_loop n' op (Some e)
      end
  end.
Definition executeWithRetriesMaintenanceOperations (op : Op) : M (option GoError) :=
  executeWithRetriesMaintenanceOperations_loop NUMBER_OF_RETRIES op None.

(** [func (sc *ServerConfig) getDatabaseHealthCheck(store) error] *)
Definition getDatabaseHealthCheck : M (option GoError) :=
  executeWithRetriesMaintenanceOperations OperationDatabaseHealthCheck.

(** [func (sc *ServerConfig) getClusterTopology(store)]: the empty
    operation object comes back with the error. *)
Definition getClusterTopology : M Reply :=
  r <- executeWithRetries OperationGetClusterTopology ;;
  match reply_err r with
  | Some e => ret (errReply e)
  | None => ret r
  end.

(** The waiting loop of [createDatabase]: [Some err] when the topology
    query fails. *)
Fixpoint createDatabase_wait (sc : ServerConfig) (n : nat) : M (option GoError) :=
  match n with
  | O => ret None
  | S n' =>
      topology <- getClusterTopology ;;
      match reply_err topology with
      | Some e => ret (Some e)
      | None =>
          if negb (length (reply_members topology) =? length (UrlList (ScUrl sc)))%nat
          then sleep 5 ;;; createDatabase_wait sc n'
          else ret None
      end
  end.

(** [func (sc *ServerConfig) createDatabase(store, dbRecord, repFactor) error] *)
Definition createDatabase (sc : ServerConfig) (dbRecord : DatabaseRecord) (repFactor : Z)
    : M (option GoError) :=
  w <- createDatabase_wait sc NUMBER_OF_RETRIES ;;
  match w with
  | Some e => ret (Some e)
  | None =>
      r <- executeWithRetries (CreateDatabaseOperation dbRecord repFactor) ;;
      match reply_err r with
      | Some e =>
          if GoStrings.Contains (err_msg e) "already exists!" then ret (Some e)
          else if negb (bool_decide (err_type e = ConcurrencyError)) then ret (Some e)
          else ret None
      | None => ret None
      end
  end.

(** [func (sc *ServerConfig) addDatabaseNode(store, databaseName, nodes) error] *)
Fixpoint addDatabaseNode (databaseName : string) (nodes : list string) : M (option GoError) :=
  match nodes with
  | [] => ret None
  | node :: rest =>
      r <- executeWithRetries (OperationAddDatabaseNode databaseName node) ;;
      match reply_err r with
      | Some e => ret (Some e)
      | None => addDatabaseNode databaseName rest
      end
  end.

(** The loop of [modifyDatabase] over the live nodes: a live tag found
    among [members] is cut out of that slice, one that is not found goes to
    [rmDbInTags]. *)
Fixpoint modifyDatabase_loop (nodes : list ServerNode) (rmDbInTags members : list string)
    : list string * list string :=
  match nodes with
  | [] => (rmDbInTags, members)
  | serverNode :: rest =>
      let tag := ClusterTag serverNode in
      let '(found, index) := contains members tag in
      if negb found then modifyDatabase_loop rest (rmDbInTags ++ [tag]) members
      else modifyDatabase_loop rest rmDbInTags
             (take (Z.to_nat index) members ++ drop (Z.to_nat index + 1) members)
  end.

(** [func (sc *ServerConfig) modifyDatabase(store, dbRecord) error].  The
    error of the topology command is dropped; only its result is looked at.
    [rmDbInTags != nil] holds exactly when something was appended. *)
Definition modifyDatabase (dbRecord : DatabaseRecord) : M (option GoError) :=
  r <- call env (ExecuteCommand (RecDatabaseName dbRecord) GetDatabaseTopologyCommand) ;;
  match reply_nodes r with
  | Some nodes =>
      match RecTopology dbRecord with
      | None => panic "invalid memory address or nil pointer dereference"
      | Some topology =>
          let '(rmDbInTags, members) := modifyDatabase_loop nodes [] (Members topology) in
          err <- (match rmDbInTags with
                  | [] => ret None
                  | _ :: _ =>
                      d <- executeWithRetries
                             (DeleteDatabasesOperation [RecDatabaseName dbRecord] true rmDbInTags) ;;
                      ret (reply_err d)
                  end) ;;
          match err with
          | Some e => ret (Some e)
          | None => addDatabaseNode (RecDatabaseName dbRecord) members
          end
      end
  | None =>
      ret (Some (errors_New ("Unable to retrieve topology for database: "
                             +:+ RecDatabaseName dbRecord)))
  end.

(** [func (sc *ServerConfig) distributeSecretKey(store, database) error] *)
Definition distributeSecretKey (database : Database) : M (option GoError) :=
  r <- executeWithRetries
         (OperationDistributeSecretKey (Name database) (ReplicationNodes database) (DbKey database)) ;;
  ret (reply_err r).

(** [func deleteDatabase(store, database DatabaseToDelete) error] *)
Definition deleteDatabase (database : DatabaseToDelete) : M (option GoError) :=
  r <- call env (ServerSend (DeleteDatabasesOperation [DelName database] (HardDelete database) [])) ;;
  ret (reply_err r).

(** [func (sc *ServerConfig) deleteDatabases(store) error] *)
Fixpoint deleteDatabases_loop (dbs : list DatabaseToDelete) : M (option GoError) :=
  match dbs with
  | [] => ret None
  | db :: rest =>
      err <- deleteDatabase db ;;
      match err with
      | Some e => ret (Some e)
      | None => deleteDatabases_loop rest
      end
  end.
Definition deleteDatabases (sc : ServerConfig) : M (option GoError) :=
  deleteDatabases_loop (DatabasesToDelete sc).

(** [func (sc *ServerConfig) deleteIndexes(store) error] *)
Fixpoint deleteIndexes_names (db : string) (names : list string) : M (option GoError) :=
  match names with
  | [] => ret None
  | indexName :: rest =>
      r <- call env (ForDatabaseSend db (DeleteIndexOperation indexName)) ;;
      match reply_err r with
      | Some e => ret (Some e)
      | None => deleteIndexes_names db rest
      end
  end.
Fixpoint deleteIndexes_loop (l : list IndexesToDelete) : M (option GoError) :=
  match l with
  | [] => ret None
  | indexStruct :: rest =>
      err <- deleteIndexes_names (DatabaseName indexStruct) (IndexesNames indexStruct) ;;
      match err with
      | Some e => ret (Some e)
      | None => deleteIndexes_loop rest
      end
  end.
Definition deleteIndexes (sc : ServerConfig) : M (option GoError) :=
  deleteIndexes_loop (IndexesToDelete_ sc).

(** [func (sc *ServerConfig) createIndexes(store) error].  One index
    definition object serves every index of every database: its [Maps] are
    only ever appended to. *)
Definition NewIndexDefinition : IndexDefinition := mkIndexDefinition "" [] None ∅.

Fixpoint createIndexes_indexes (db : string) (idxs : list Index) (indexDefinition : IndexDefinition)
    : M (option GoError * IndexDefinition) :=
  match idxs with
  | [] => ret (None, indexDefinition)
  | idx :: rest =>
      let indexDefinition :=
        mkIndexDefinition (IndexName idx) (DefMaps indexDefinition ++ Maps idx)
                          (Some (Reduce idx)) (Configuration idx) in
      r <- call env (ForDatabaseSend db (PutIndexesOperation indexDefinition)) ;;
      match reply_err r with
      | Some e => ret (Some e, indexDefinition)
      | None => createIndexes_indexes db rest indexDefinition
      end
  end.
Fixpoint createIndexes_loop (dbs : list Database) (indexDefinition : IndexDefinition)
    : M (option GoError) :=
  match dbs with
  | [] => ret None
  | database :: rest =>
      p <- createIndexes_indexes (Name database) (Indexes database) indexDefinition ;;
      let '(err, indexDefinition) := p in
      match err with
      | Some e => ret (Some e)
      | None => createIndexes_loop rest indexDefinition
      end
  end.
Definition createIndexes (sc : ServerConfig) : M (option GoError) :=
  createIndexes_loop (Databases sc) NewIndexDefinition.

(** [func (sc *ServerConfig) createDatabases(store) error].  First loop:
    the record of a database. *)
Definition databaseRecordOf (database : Database) : DatabaseRecord :=
  mkDatabaseRecord (Name database) (Settings database) true
    (Some (mkDatabaseTopology (ReplicationNodes database)
                              (Z.of_nat (length (ReplicationNodes database))) false)).

Definition hasKey (database : Database) : bool :=
  (0 <? String.length (TrimSpace (DbKey database)))%nat.

(** Second loop: the keys go out before any database is created. *)
Fixpoint createDatabases_distribute (dbs : list Database) : M (option GoError) :=
  match dbs with
  | [] => ret None
  | database :: rest =>
      if hasKey database then
        err <- distributeSecretKey database ;;
        match err with
        | Some e => ret (Some e)
        | None => createDatabases_distribute rest
        end
      else createDatabases_distribute rest
  end.

(** Third loop.  [databaseRecords[index]] is the record of the [index]-th
    database.  In both branches the [else] of the already-exists test also
    takes the case of a creation that succeeded: with a key it calls
    [err.Error()] on a nil error, without one it returns that nil. *)
Fixpoint createDatabases_create (sc : ServerConfig) (dbs : list Database) : M (option GoError) :=
  match dbs with
  | [] => ret None
  | database :: rest =>
      let databaseRecord := databaseRecordOf database in
      if hasKey database then
        err <- createDatabase sc databaseRecord 0 ;;
        match err with
        | Some e =>
            if GoStrings.Contains (err_msg e) "already exists!" then
              err <- modifyDatabase databaseRecord ;;
              match err with
              | Some e' => ret (Some e')
              | None => createDatabases_create sc rest
              end
            else ret (Some e)
        | None => panic "invalid memory address or nil pointer dereference"
        end
      else
        let databaseRecord :=
          mkDatabaseRecord (RecDatabaseName databaseRecord) (RecSettings databaseRecord)
                           false (RecTopology databaseRecord) in
        err <- createDatabase sc databaseRecord 0 ;;
        match err with
        | Some e =>
            if GoStrings.Contains (err_msg e) "already exists!" then
              err <- modifyDatabase databaseRecord ;;
              match err with
              | Some e' => ret (Some e')
              | None => createDatabases_create sc rest
              end
            else ret (Some e)
        | None => ret None
        end
  end.

Definition createDatabases (sc : ServerConfig) : M (option GoError) :=
  err <- createDatabases_distribute (Databases sc) ;;
  match err with
  | Some e => ret (Some e)
  | None => createDatabases_create sc (Databases sc)
  end.

(** The healthcheck step of [Deploy] (lines 821-832): the probe, and the
    creation of the healthcheck database when the probe's error is a
    [DatabaseDoesNotExistError]. *)
Definition healthcheckRecord (sc : ServerConfig) : DatabaseRecord :=
  mkDatabaseRecord (HealthcheckDatabase sc) ∅ false None.

Definition Deploy_healthcheck (sc : ServerConfig) : M (option GoError) :=
  err <- getDatabaseHealthCheck ;;
  if errors_As err DatabaseDoesNotExistError then
    createDatabase sc (healthcheckRecord sc) (Z.of_nat (length (Hosts sc)))
  else ret err.

(** [if err != nil] return the empty string and [err]; otherwise the rest. *)
Definition orReturn (err : option GoError) (k : M (string * option GoError))
    : M (string * option GoError) :=
  match err with
  | Some e => ret (EmptyString, Some e)
  | None => k
  end.

(** Lines 821-856 of [Deploy]: the healthcheck and the four phases, with the
    cluster topology read before them. *)
Definition Deploy_phases (sc : ServerConfig) (clusterTopology : Reply)
    : M (string * option GoError) :=
  err <- Deploy_healthcheck sc ;;
  orReturn err (
  err <- deleteDatabases sc ;;
  orReturn err (
  err <- createDatabases sc ;;
  orReturn err (
  err <- deleteIndexes sc ;;
  orReturn err (
  err <- createIndexes sc ;;
  orReturn err (
  ret (reply_topologyID clusterTopology, None)))))).

(** [func (sc *ServerConfig) Deploy(parallel bool) (string, error)].  The
    call of [deployRavenDbInstances] is commented out in the source.
    Dereferencing the bundle of the admin credential panics when the
    archive had no loose root file. *)
Definition Deploy (sc : ServerConfig) (parallel : bool) : M (string * option GoError) :=
  match ClusterSetupZip sc !! CREDENTIALS_FOR_SECURE_STORE_FIELD_NAME with
  | None => panic "invalid memory address or nil pointer dereference"
  | Some holder =>
      store <- call env (GetStore holder) ;;
      orReturn (reply_err store) (
      clusterTopology <- getClusterTopology ;;
      orReturn (reply_err clusterTopology) (
      Deploy_phases sc clusterTopology))
  end.

End Reconciler.

(** ** The remote executor and the node provisioner ([rvn_server.go], lines 407-800) *)

Definition nl : string := String (ascii_of_nat 10) EmptyString.
Definition dquote : string := String (ascii_of_nat 34) EmptyString.

(** [m[k] = v] on a map that may be nil. *)
Definition map_assign {V} (m : option (gmap string V)) (k : string) (v : V)
    : M (option (gmap string V)) :=
  match m with
  | None => panic "assignment to entry in nil map"
  | Some m => ret (Some (<[k := v]> m))
  end.

(** [&DeployError{Err: err, Output: output}]; its [Error()] is the text of
    the cause followed by the transcript. *)
Definition DeployError (err : GoError) (output : string) : GoError :=
  mkError DeployErrorType [] (err_msg err +:+ " with output:" +:+ nl +:+ output).

Section Provisioner.

Variable env : Env.

(** [func (sc *ServerConfig) ConnectToRemoteWithRetry(publicIP, conn,
    authConfig)], returning the client and the error.  [n] iterations remain, [i] is the
    loop counter, [conn] the last result of [ssh.Dial]. *)
Fixpoint ConnectToRemoteWithRetry_loop (hostAndPort : string) (n i : nat) (conn : option SshClient)
    : M (option SshClient * option GoError) :=
  match n with
  | O => ret (conn, None)
  | S n' =>
      r <- call env (SshDial hostAndPort) ;;
      match reply_err r with
      | Some e =>
          if (i <? NUMBER_OF_RETRIES)%nat
          then sleep 2 ;;; ConnectToRemoteWithRetry_loop hostAndPort n' (S i) None
          else ret (None, Some (errors_New ("Unable to SSH to " +:+ hostAndPort
                                            +:+ " because " +:+ err_msg e)))
      | None => ret (Some (mkSshClient hostAndPort), None)
      end
  end.

Definition ConnectToRemoteWithRetry (sc : ServerConfig) (publicIP : string) (conn : option SshClient)
    : M (option SshClient * option GoError) :=
  let hostAndPort := GoStrings.JoinHostPort publicIP (GoStrings.Itoa (getPort (ScSSH sc))) in
  ConnectToRemoteWithRetry_loop hostAndPort (S NUMBER_OF_RETRIES) 0 conn.

(** [func (sc *ServerConfig) execute(publicIp, commands, onErr, stdoutBuf,
    conn) error], with the transcript buffer passed along.  The command
    line is written to the buffer twice (directly and through the debug
    writer); on a failure with a non-empty [onErr] the same session runs
    the same command once more. *)
Fixpoint execute_loop (commands : list string) (onErr : string) (stdoutBuf : string)
    (conn : SshClient) : M (option GoError * string) :=
  match commands with
  | [] => ret (None, stdoutBuf)
  | cmd :: rest =>
      let cmdStr := "$ " +:+ cmd +:+ nl in
      let stdoutBuf := stdoutBuf +:+ cmdStr +:+ cmdStr in
      session <- call env (SshNewSession conn) ;;
      match reply_err session with
      | Some e => ret (Some e, stdoutBuf)
      | None =>
          r <- call env (SshRun conn cmd) ;;
          let stdoutBuf := stdoutBuf +:+ reply_output r in
          match reply_err r with
          | Some e =>
              stdoutBuf <- (if negb (String.eqb onErr "")
                            then r2 <- call env (SshRun conn cmd) ;;
                                 ret (stdoutBuf +:+ reply_output r2)
                            else ret stdoutBuf) ;;
              ret (Some (DeployError e stdoutBuf), stdoutBuf)
          | None => execute_loop rest onErr stdoutBuf conn
          end
      end
  end.

Definition execute (publicIp : string) (commands : list string) (onErr : string)
    (stdoutBuf : string) (conn : SshClient) : M (option GoError * string) :=
  execute_loop commands onErr (stdoutBuf +:+ publicIp) conn.

(** The install commands of [deployServer] (lines 434-439). *)
Definition installCommands (ravenPackageUrl : string) : list string :=
  [ "n=0; while [ " +:+ dquote +:+ "$n" +:+ dquote
      +:+ " -lt 20 ] && [ ! -f /var/lib/cloud/instance/boot-finished ]; do echo 'Waiting for cloud-init...'; n=$(( n + 1 )); sleep 1; done";
    "wget -nv -O ravendb.deb " +:+ ravenPackageUrl;
    "timeout 100 bash -c -- 'while ! sudo apt-get update -y; do sleep 1; done'";
    "sudo apt-get install -y -f ./ravendb.deb" ].

(** Lines 450-526 of [deployServer]: URL derivation, rendering and upload
    of the settings, certificate and assets, DNS check and restart.  They
    follow the step studied here and are a parameter of it. *)
Variable deployServer_rest :
  ServerConfig -> string -> nat -> SshClient -> string (* transcript *) ->
  option (gmap string Any) (* settings *) -> string (* scheme *) -> M (option GoError).

(** [func (sc *ServerConfig) deployServer(publicIP, index) (err error)],
    lines 407-448.  [settings] is declared and never made: it is the nil
    map when the unsecured branch writes to it. *)
Definition deployServer (sc : ServerConfig) (publicIP : string) (index : nat)
    : M (option GoError) :=
  let stdoutBuf := EmptyString in
  let settings : option (gmap string Any) := None in
  let ravenPackageUrl :=
    "https://daily-builds.s3.us-east-1.amazonaws.com/ravendb_"
      +:+ Version (ScPackage sc) +:+ Arch (ScPackage sc) in
  signer <- call env (ParsePrivateKey (Pem (ScSSH sc))) ;;
  match reply_err signer with
  | Some e => ret (Some e)
  | None =>
      c <- ConnectToRemoteWithRetry sc publicIP None ;;
      match c with
      | (_, Some e) => ret (Some e)
      | (None, None) => panic "invalid memory address or nil pointer dereference"
      | (Some conn, None) =>
          x <- execute publicIP (installCommands ravenPackageUrl) "" stdoutBuf conn ;;
          match x with
          | (Some e, _) => ret (Some e)
          | (None, stdoutBuf) =>
              let scheme := "https" in
              if Unsecured sc then
                settings <- map_assign settings "Security.UnsecuredAccessAllowed"
                                       (AnyString "PublicNetwork") ;;
                let scheme := "http" in
                deployServer_rest sc publicIP index conn stdoutBuf settings scheme
              else
                deployServer_rest sc publicIP index conn stdoutBuf settings scheme
          end
      end
  end.

End Provisioner.

(** ** DNS verification ([rvn_server.go], lines 529-556) *)

Section DnsLookup.

(** [url.Parse] (its error, and the [Host] of the URL), the resolver
    [net.LookupIP], and [net.IP] with its [String()]. *)
Variable IP : Type.
Variable IPString : IP -> string.
Variable url_Parse : string -> option GoError * string.
Variable LookupIP : string -> option GoError * list IP.

(** The loop over the resolved addresses. *)
Fixpoint GetDnsLookup_loop (hostIp : string) (ips : list IP)
    (isUpdatedDns : bool) (ipsStringSlice : list string) : bool * list string :=
  match ips with
  | [] => (isUpdatedDns, ipsStringSlice)
  | ip :: rest =>
      let ipsStringSlice := ipsStringSlice ++ [IPString ip] in
      let isUpdatedDns := if String.eqb hostIp (IPString ip) then true else isUpdatedDns in
      GetDnsLookup_loop hostIp rest isUpdatedDns ipsStringSlice
  end.

Definition outdatedDnsMessage (host hostIp : string) (ipsStringSlice : list string) : string :=
  let rowsOfIps := GoStrings.Join ipsStringSlice nl in
  "Tried to resolve '" +:+ host +:+ "'but got an outdated result" +:+ nl
    +:+ "Expected to get these ips: " +:+ hostIp
    +:+ " while the actual result was: " +:+ rowsOfIps.

(** [func GetDnsLookup(httpUrl string, hostIp string) error] *)
Definition GetDnsLookup (httpUrl hostIp : string) : Res (option GoError) :=
  match url_Parse httpUrl with
  | (Some e, _) => Panic (err_msg e)
  | (None, host) =>
      match LookupIP host with
      | (Some e, _) => Val (Some e)
      | (None, ips) =>
          let '(isUpdatedDns, ipsStringSlice) := GetDnsLookup_loop hostIp ips false [] in
          if negb isUpdatedDns
          then Val (Some (errors_New (outdatedDnsMessage host hostIp ipsStringSlice)))
          else Val None
      end
  end.

End DnsLookup.

(** ** Archive extraction (the resource file, [OpenZipFile] and [extractFiles]) *)

(** An entry of the archive: its name and what [file.Open()] followed by
    [ioutil.ReadAll] gives, the bytes or the error of either. *)
Record ZipFile := mkZipFile {
  FileName : string;
  FileData : GoError + list Byte.byte
}.

(** The key of the bundle an entry belongs to: the text before the first
    slash, or the store key for a name without slash. *)
Definition bundleName (fileName : string) : string :=
  let split := GoStrings.SplitSlash fileName in
  if (length split =? 1)%nat then CREDENTIALS_FOR_SECURE_STORE_FIELD_NAME
  else hd EmptyString split.

(** The holder a new key starts with. *)
Definition newHolder : CertificateHolder := mkCertificateHolder [] [] [] [] [].

(** [func extractFiles(file *zip.File, certHolder *CertificateHolder) error]:
    the holder is written through the pointer. *)
Definition extractFiles (file : ZipFile) (certHolder : CertificateHolder)
    : option GoError * CertificateHolder :=
  match FileData file with
  | inl e => (Some e, certHolder)
  | inr bytes =>
      let fileExtension := GoStrings.Ext (FileName file) in
      let c := certHolder in
      if String.eqb fileExtension ".pfx" then
        (None, mkCertificateHolder bytes (Cert c) (Key c) (SettingsJson c) (License c))
      else if String.eqb fileExtension ".crt" then
        (None, mkCertificateHolder (Pfx c) bytes (Key c) (SettingsJson c) (License c))
      else if String.eqb fileExtension ".key" then
        (None, mkCertificateHolder (Pfx c) (Cert c) bytes (SettingsJson c) (License c))
      else if String.eqb fileExtension ".json" then
        if String.eqb (FileName file) "license.json" then
          (None, mkCertificateHolder (Pfx c) (Cert c) (Key c) (SettingsJson c) bytes)
        else
          (None, mkCertificateHolder (Pfx c) (Cert c) (Key c) bytes (License c))
      else (None, c)
  end.

(** The loop of [OpenZipFile] over the entries, in archive order. *)
Fixpoint OpenZipFile_loop (files : list ZipFile) (clusterSetupZip : gmap string CertificateHolder)
    : option (gmap string CertificateHolder) * option GoError :=
  match files with
  | [] => (Some clusterSetupZip, None)
  | file :: rest =>
      let name := bundleName (FileName file) in
      let clusterSetupZip :=
        match clusterSetupZip !! name with
        | Some _ => clusterSetupZip
        | None => <[name := newHolder]> clusterSetupZip
        end in
      let '(err, certHolder) := extractFiles file (default newHolder (clusterSetupZip !! name)) in
      let clusterSetupZip := <[name := certHolder]> clusterSetupZip in
      match err with
      | Some e => (None, Some e)
      | None => OpenZipFile_loop rest clusterSetupZip
      end
  end.

(** [func OpenZipFile(sc ServerConfig, path string)], on the outcome of
    [zip.OpenReader(path)]. *)
Definition OpenZipFile (sc : ServerConfig) (reader : GoError + list ZipFile)
    : option (gmap string CertificateHolder) * option GoError :=
  match reader with
  | inl e => (None, Some e)
  | inr files => OpenZipFile_loop files ∅
  end.

(** The other revision of the resource file kept in the repository: its
    [extractFiles] returns a fresh holder and knows no [.json], and its
    [OpenZipFile] appends the three fields to the bundle. *)
Module Earlier.

Definition extractFiles (file : ZipFile) : CertificateHolder * option GoError :=
  match FileData file with
  | inl e => (newHolder, Some e)
  | inr bytes =>
      let fileExtension := GoStrings.Ext (FileName file) in
      if String.eqb fileExtension ".pfx" then (mkCertificateHolder bytes [] [] [] [], None)
      else if String.eqb fileExtension ".crt" then (mkCertificateHolder [] bytes [] [] [], None)
      else if String.eqb fileExtension ".key" then (mkCertificateHolder [] [] bytes [] [], None)
      else (newHolder, None)
  end.

Fixpoint OpenZipFile_loop (files : list ZipFile) (clusterSetupZip : gmap string CertificateHolder)
    : option (gmap string CertificateHolder) * option GoError :=
  match files with
  | [] => (Some clusterSetupZip, None)
  | file :: rest =>
      let name := bundleName (FileName file) in
      let clusterSetupZip :=
        match clusterSetupZip !! name with
        | Some _ => clusterSetupZip
        | None => <[name := newHolder]> clusterSetupZip
        end in
      let '(zipStruct, err) := extractFiles file in
      match err with
      | Some e => (None, Some e)
      | None =>
          let c := default newHolder (clusterSetupZip !! name) in
          let c := mkCertificateHolder (Pfx c ++ Pfx zipStruct) (Cert c ++ Cert zipStruct)
                                       (Key c ++ Key zipStruct) (SettingsJson c) (License c) in
          OpenZipFile_loop rest (<[name := c]> clusterSetupZip)
      end
  end.

Definition OpenZipFile (sc : ServerConfig) (reader : GoError + list ZipFile)
    : option (gmap string CertificateHolder) * option GoError :=
  match reader with
  | inl e => (None, Some e)
  | inr files => OpenZipFile_loop files ∅
  end.

End Earlier.

(** ** The state reader (the resource file, [readRavenDbInstances]) *)

Section StateReader.

(** The outcome of [sc.ReadServer(publicIp, index)] for each host. *)
Variable ReadServer : ServerConfig -> string -> nat -> NodeState * option GoError.

Definition setFailed (ns : NodeState) (b : bool) : NodeState :=
  mkNodeState (NsHost ns) (NsSettings ns) (NsClusterSetupZip ns) (NsAssets ns) (NsUnsecured ns)
              (NsVersion ns) b (NsDatabases ns) (NsDatabasesToDelete ns) (NsIndexesToDelete ns)
              (Licence ns).

(** The body of the task started for one host, on the shared slice and
    the error channel.  On an unreachable host the flag is set on the
    task's own [nodeState] and the task returns; the store to the slice is
    the last statement of the other paths. *)
Definition readTask (sc : ServerConfig) (copyOfPublicIp : string) (copyOfIndex : nat)
    (shared : list NodeState * list GoError) : list NodeState * list GoError :=
  let '(nodeStateArray, errorsChanel) := shared in
  let '(nodeState, err) := ReadServer sc copyOfPublicIp copyOfIndex in
  match err with
  | Some e =>
      if GoStrings.Contains (err_msg e) "Unable to SSH to" then
        let nodeState := setFailed nodeState true in
        (nodeStateArray, errorsChanel)
      else (<[copyOfIndex := nodeState]> nodeStateArray, errorsChanel ++ [e])
  | None => (<[copyOfIndex := nodeState]> nodeStateArray, errorsChanel)
  end.

(** The tasks write to distinct slots, so the slice does not depend on
    their interleaving; they are run here in host order.  In the source a
    task signals the barrier before it stores its slot; the stores are
    taken as done when the slice is read. *)
Fixpoint readRavenDbInstances_loop (sc : ServerConfig) (hosts : list string) (index : nat)
    (shared : list NodeState * list GoError) : list NodeState * list GoError :=
  match hosts with
  | [] => shared
  | publicIp :: rest =>
      readRavenDbInstances_loop sc rest (S index) (readTask sc publicIp index shared)
  end.

(** [func readRavenDbInstances(sc ServerConfig) ([]NodeState, error)]; the
    multi-error is the list of the errors it merges. *)
Definition readRavenDbInstances (sc : ServerConfig)
    : option (list NodeState) * option (list GoError) :=
  let nodeStateArray := replicate (length (Hosts sc)) zeroNodeState in
  let '(nodeStateArray, errorsChanel) :=
    readRavenDbInstances_loop sc (Hosts sc) 0 (nodeStateArray, []) in
  if (0 <? length errorsChanel)%nat then (None, Some errorsChanel)
  else (Some nodeStateArray, None).

End StateReader.

(** ** Hashing an encryption key for display (the resource file, lines 876-929) *)

Module Hex.

Definition digit (n : nat) : ascii :=
  if (n <? 10)%nat then ascii_of_nat (48 + n) else ascii_of_nat (87 + n).

(** [hex.EncodeToString]: two lower-case digits per byte. *)
Fixpoint EncodeToString (src : list Byte.byte) : string :=
  match src with
  | [] => EmptyString
  | b :: rest =>
      let n := Byte.to_nat b in
      String (digit (n / 16)) (String (digit (n mod 16)) (EncodeToString rest))
  end.

End Hex.

Record params := mkParams {
  Memory : Z;
  Iterations : Z;
  Parallelism : Z;
  SaltLength : nat;
  KeyLength : Z
}.

Record FlatDatabase := mkFlatDatabase {
  flat_name : string;
  flat_settings : gmap string string;
  flat_replication_nodes : list string;
  flat_encryption_key : string
}.

Section KeyHash.

(** [argon2.IDKey(password, salt, time, memory, threads, keyLen)]. *)
Variable argon2_IDKey :
  list Byte.byte -> list Byte.byte -> Z -> Z -> Z -> Z -> list Byte.byte.

(** [func generateRandomBytes(n uint32) ([]byte, error)].  The entropy is
    what the system's random source is about to deliver: [rand.Read] takes
    its first [n] bytes, and fails when the source cannot deliver them. *)
Definition generateRandomBytes (n : nat) (entropy : list Byte.byte)
    : (list Byte.byte * option GoError) * list Byte.byte :=
  if (n <=? length entropy)%nat then ((take n entropy, None), drop n entropy)
  else (([], Some (errors_New "unexpected EOF")), entropy).

(** [func generateFromPlainText(plainText string, p *params) (hash []byte, err error)] *)
Definition generateFromPlainText (plainText : string) (p : params) (entropy : list Byte.byte)
    : (list Byte.byte * option GoError) * list Byte.byte :=
  match generateRandomBytes (SaltLength p) entropy with
  | ((_, Some e), entropy) => (([], Some e), entropy)
  | ((salt, None), entropy) =>
      ((argon2_IDKey (String.list_byte_of_string plainText) salt
                     (Iterations p) (Memory p) (Parallelism p) (KeyLength p), None), entropy)
  end.

(** [func encryptionKeyHash(plainText string) string]; [log.Fatal] ends
    the process, which is rendered as a panic. *)
Definition encryptionKeyHash (plainText : string) (entropy : list Byte.byte)
    : Res string * list Byte.byte :=
  let argonParams := mkParams (64 * 1024) 4 4 16 32 in
  match generateFromPlainText plainText argonParams entropy with
  | ((_, Some e), entropy) => (Panic (err_msg e), entropy)
  | ((hash, None), entropy) => (Val (Hex.EncodeToString hash), entropy)
  end.

(** [func flattenDatabases(databases []Database)], without the indexes. *)
Fixpoint flattenDatabases (databases : list Database) (entropy : list Byte.byte)
    : Res (list FlatDatabase) * list Byte.byte :=
  match databases with
  | [] => (Val [], entropy)
  | db :: rest =>
      match encryptionKeyHash (DbKey db) entropy with
      | (Panic msg, entropy) => (Panic msg, entropy)
      | (Val h, entropy) =>
          match flattenDatabases rest entropy with
          | (Panic msg, entropy) => (Panic msg, entropy)
          | (Val tfs, entropy) =>
              (Val (mkFlatDatabase (Name db) (Settings db) (ReplicationNodes db) h :: tfs), entropy)
          end
      end
  end.

End KeyHash.

(** ** Vocabulary of the statements *)

(** [k] failed attempts at a request, each followed by the retry delay. *)
Fixpoint attempts (r : Request) (delay : Z) (k : nat) : list Event :=
  match k with
  | O => []
  | S k' => Call r :: Sleep delay :: attempts r delay k'
  end.

(** The answer of the world to the attempt that follows [i] failed ones. *)
Definition nth_reply (env : Env) (h : list Event) (r : Request) (delay : Z) (i : nat) : Reply :=
  env (h ++ attempts r delay i) r.

(** The answer carries an error classified as no elected leader. *)
Definition no_leader (r : Reply) : bool := errors_As (reply_err r) NoLeaderError.

(** The retry policy as the specification words it for every executor: an
    error of another class than no-leader comes back after the one attempt. *)
Definition returns_other_errors_at_once {A} (send : Op -> Request) (exec : Env -> Op -> M A)
    : Prop :=
  forall env op h e,
    reply_err (env h (send op)) = Some e ->
    errors_As (Some e) NoLeaderError = false ->
    trace (exec env op) h = [Call (send op)].

(** Two node tags are the same tag when they agree up to case, which is how
    [contains] compares them. *)
Definition same_tag (ToUpper : string -> string) (a b : string) : bool :=
  String.eqb (ToUpper a) (ToUpper b).

Definition has_tag (ToUpper : string -> string) (l : list string) (t : string) : bool :=
  existsb (fun v => same_tag ToUpper v t) l.

(** The live tags that are not desired, and the desired tags that are not live. *)
Definition excess (ToUpper : string -> string) (live desired : list string) : list string :=
  List.filter (fun t => negb (has_tag ToUpper desired t)) live.

Definition missing (ToUpper : string -> string) (live desired : list string) : list string :=
  List.filter (fun d => negb (has_tag ToUpper live d)) desired.

(** A list without its first element of tag [t]. *)
Fixpoint remove_tag (ToUpper : string -> string) (t : string) (l : list string) : list string :=
  match l with
  | [] => []
  | v :: l' => if same_tag ToUpper v t then l' else v :: remove_tag ToUpper t l'
  end.

(** The world in which every request succeeds and the database [db] lives on
    the nodes tagged [live]. *)
Definition converging (live : list string) : Env :=
  fun _ r =>
    match r with
    | ExecuteCommand _ GetDatabaseTopologyCommand =>
        mkReply None [] "" (Some (map (fun t => mkServerNode t "") live)) ""
    | _ => okReply
    end.

Definition recordWithMembers (name : string) (desired : list string) : DatabaseRecord :=
  mkDatabaseRecord name ∅ false
    (Some (mkDatabaseTopology desired (Z.of_nat (length desired)) false)).

(** The calls of a reconciliation run, by the phase that sends them. *)
Definition prelude_event (e : Event) : bool :=
  match e with
  | Sleep _ => true
  | Call (GetStore _) => true
  | Call (ServerSend OperationGetClusterTopology) => true
  | _ => false
  end.

(** The creation of a declared database: its record has a topology, the
    record of the healthcheck database has none. *)
Definition declared_database_create (e : Event) : bool :=
  match e with
  | Call (ServerSend (CreateDatabaseOperation rec _)) =>
      match RecTopology rec with
      | Some _ => true
      | None => false
      end
  | _ => false
  end.

Definition healthcheck_event (e : Event) : bool :=
  match e with
  | Sleep _ => true
  | Call (MaintenanceSend OperationDatabaseHealthCheck) => true
  | Call (ServerSend OperationGetClusterTopology) => true
  | Call (ServerSend (CreateDatabaseOperation rec _)) =>
      match RecTopology rec with
      | Some _ => false
      | None => true
      end
  | _ => false
  end.

(** The delete of a declared database: one name, no from-nodes. *)
Definition declared_database_delete (e : Event) : bool :=
  match e with
  | Call (ServerSend (DeleteDatabasesOperation [_] _ [])) => true
  | _ => false
  end.

(** What the create/modify phase sends: key distribution, topology queries,
    creations, and the calls of the modify fallback (whose delete names the
    nodes to remove the database from). *)
Definition database_phase_event (e : Event) : bool :=
  match e with
  | Sleep _ => true
  | Call (ServerSend OperationGetClusterTopology) => true
  | Call (ServerSend (OperationDistributeSecretKey _ _ _)) => true
  | Call (ServerSend (CreateDatabaseOperation _ _)) as e => declared_database_create e
  | Call (ExecuteCommand _ GetDatabaseTopologyCommand) => true
  | Call (ServerSend (DeleteDatabasesOperation _ true (_ :: _))) => true
  | Call (ServerSend (OperationAddDatabaseNode _ _)) => true
  | _ => false
  end.

Definition index_delete (e : Event) : bool :=
  match e with
  | Call (ForDatabaseSend _ (DeleteIndexOperation _)) => true
  | _ => false
  end.

Definition index_create (e : Event) : bool :=
  match e with
  | Call (ForDatabaseSend _ (PutIndexesOperation _)) => true
  | _ => false
  end.

Definition database_create (e : Event) : bool :=
  match e with
  | Call (ServerSend (CreateDatabaseOperation _ _)) => true
  | _ => false
  end.

Definition healthcheck_probe (e : Event) : bool :=
  match e with
  | Call (MaintenanceSend OperationDatabaseHealthCheck) => true
  | _ => false
  end.

(** A trace made of consecutive segments, the events of the i-th one all in
    the i-th class. *)
Fixpoint phases (classes : list (Event -> bool)) (t : list Event) : Prop :=
  match classes with
  | [] => t = []
  | P :: rest =>
      exists t1 t2, t = t1 ++ t2 /\ Forall (fun e => P e = true) t1 /\ phases rest t2
  end.

(** The six classes of a run, in the order of its phases. *)
Definition deployClasses : list (Event -> bool) :=
  [prelude_event; healthcheck_event; declared_database_delete;
   database_phase_event; index_delete; index_create].

(** The order of the specification: no delete of a declared database or of
    an index comes after the creation of a declared database or of an index. *)
Definition deletes_precede_creates (t : list Event) : Prop :=
  forall i j e1 e2,
    t !! i = Some e1 -> t !! j = Some e2 ->
    declared_database_create e1 || index_create e1 = true ->
    declared_database_delete e2 || index_delete e2 = true ->
    (j < i)%nat.

(** The healthcheck of the specification: the probe is sent again after the
    healthcheck database was created. *)
Definition probe_retried_after_creation (t : list Event) : Prop :=
  exists i j e1 e2,
    t !! i = Some e1 /\ t !! j = Some e2 /\ (i < j)%nat /\
    database_create e1 = true /\ healthcheck_probe e2 = true.

(** The dial attempts in a trace. *)
Definition is_dial (e : Event) : bool :=
  match e with
  | Call (SshDial _) => true
  | _ => false
  end.

Definition dial_count (t : list Event) : nat := length (List.filter is_dial t).

(** The fields of a bundle, and the field an archive entry is classified
    to by its name: by extension, and for [.json] by the whole name. *)
Inductive Field := FPfx | FCert | FKey | FSettingsJson | FLicense.

#[global] Instance Field_eq_dec : EqDecision Field.
Proof. solve_decision. Defined.

Definition getField (fld : Field) (c : CertificateHolder) : list Byte.byte :=
  match fld with
  | FPfx => Pfx c
  | FCert => Cert c
  | FKey => Key c
  | FSettingsJson => SettingsJson c
  | FLicense => License c
  end.

Definition fieldOf (fileName : string) : option Field :=
  let ext := GoStrings.Ext fileName in
  if String.eqb ext ".pfx" then Some FPfx
  else if String.eqb ext ".crt" then Some FCert
  else if String.eqb ext ".key" then Some FKey
  else if String.eqb ext ".json" then
    if String.eqb fileName "license.json" then Some FLicense else Some FSettingsJson
  else None.

(** The entry belongs to the bundle [k] / goes to the field [fld] of [k]. *)
Definition inBundle (k : string) (f : ZipFile) : bool :=
  bool_decide (bundleName (FileName f) = k).

Definition targets (k : string) (fld : Field) (f : ZipFile) : bool :=
  inBundle k f && bool_decide (fieldOf (FileName f) = Some fld).

Definition bytesOfEntry (f : ZipFile) : list Byte.byte :=
  match FileData f with
  | inl _ => []
  | inr bytes => bytes
  end.

Definition readable (f : ZipFile) : Prop := exists bytes, FileData f = inr bytes.

(** The bytes of the last entry that goes to the field [fld] of the bundle
    [k], or [acc] when there is none: the last writer wins. *)
Fixpoint lastBytes (k : string) (fld : Field) (files : list ZipFile) (acc : list Byte.byte)
    : list Byte.byte :=
  match files with
  | [] => acc
  | f :: rest => lastBytes k fld rest (if targets k fld f then bytesOfEntry f else acc)
  end.

(** All the bytes of the entries that go to the field, in archive order:
    what appending them would give. *)
Fixpoint allBytes (k : string) (fld : Field) (files : list ZipFile) : list Byte.byte :=
  match files with
  | [] => []
  | f :: rest => (if targets k fld f then bytesOfEntry f else []) ++ allBytes k fld rest
  end.

(** The holder of the bundle [k] after the entries [files], from the holder
    [c] it had before. *)
Definition holderAfter (k : string) (files : list ZipFile) (c : CertificateHolder)
    : CertificateHolder :=
  mkCertificateHolder (lastBytes k FPfx files (Pfx c)) (lastBytes k FCert files (Cert c))
                      (lastBytes k FKey files (Key c))
                      (lastBytes k FSettingsJson files (SettingsJson c))
                      (lastBytes k FLicense files (License c)).

(** The host at index [i] is the unreachable one, every other read succeeds. *)
Definition only_unreachable
    (ReadServer : ServerConfig -> string -> nat -> NodeState * option GoError)
    (sc : ServerConfig) (i : nat) : Prop :=
  forall j host, Hosts sc !! j = Some host ->
    if decide (j = i)
    then exists e, snd (ReadServer sc host j) = Some e
                   /\ GoStrings.Contains (err_msg e) "Unable to SSH to" = true
    else snd (ReadServer sc host j) = None.

(** ** Worlds and inputs to run the code on *)

Definition is_call (e : Event) : bool :=
  match e with
  | Call _ => true
  | Sleep _ => false
  end.

Definition count_calls (h : list Event) : nat := length (List.filter is_call h).

(** The world whose first [k] answers are the error [e], the later ones a success. *)
Definition failing_first (k : nat) (e : GoError) : Env :=
  fun h _ => if (count_calls h <? k)%nat then errReply e else okReply.

Definition always_failing (e : GoError) : Env := fun _ _ => errReply e.

(** A formed cluster whose members are [members] and where every request
    succeeds. *)
Definition healthyCluster (members : list string) : Env :=
  fun _ r =>
    match r with
    | ServerSend OperationGetClusterTopology => mkReply None members "topology-1" None ""
    | _ => okReply
    end.

(** The same cluster without the healthcheck database: the probe fails with
    a [DatabaseDoesNotExistError]. *)
Definition missingHealthcheckDatabase (members : list string) : Env :=
  fun h r =>
    match r with
    | MaintenanceSend _ =>
        errReply (mkError DatabaseDoesNotExistError [] "Database 'healthcheck' does not exist")
    | _ => healthyCluster members h r
    end.

(** One host; the archive gave the bundle of the admin credential. *)
Definition oneNodeConfig (databases : list Database) (indexesToDelete : list IndexesToDelete)
    : ServerConfig :=
  mkServerConfig (mkPackage "5.4.100" "") ["10.0.0.1"] ∅
                 {[ CREDENTIALS_FOR_SECURE_STORE_FIELD_NAME := newHolder ]}
                 (mkUrl ["https://a.example.com"] 0 0) ∅ false (mkSSH "ubuntu" [] 0)
                 "healthcheck" databases [] indexesToDelete.

(** A declared database without key, and an index of it to delete. *)
Definition recreateConfig : ServerConfig :=
  oneNodeConfig [mkDatabase "orders" ∅ ["A"] "" []] [mkIndexesToDelete "orders" ["ByDate"]].

Definition bytesOf (s : string) : list Byte.byte := String.list_byte_of_string s.

(** The archive of the specification's example, and one with two
    certificates in the folder of node A. *)
Definition exampleArchive : list ZipFile :=
  [ mkZipFile "A/server.pfx" (inr (bytesOf "PFX-A"));
    mkZipFile "A/settings.json" (inr (bytesOf "{}"));
    mkZipFile "license.json" (inr (bytesOf "LICENSE")) ].

Definition repeatedArchive : list ZipFile :=
  [ mkZipFile "A/first.pfx" (inr (bytesOf "ONE"));
    mkZipFile "A/second.pfx" (inr (bytesOf "TWO")) ].

(** Three hosts of which the second does not answer on its SSH port, and
    the outcome of reading each of them. *)
Definition threeHosts : ServerConfig :=
  mkServerConfig (mkPackage "5.4.100" "") ["10.0.0.1"; "10.0.0.2"; "10.0.0.3"] ∅
                 {[ CREDENTIALS_FOR_SECURE_STORE_FIELD_NAME := newHolder ]}
                 (mkUrl [] 0 0) ∅ false (mkSSH "ubuntu" [] 0) "healthcheck" [] [] [].

Definition readState (publicIp : string) : NodeState :=
  mkNodeState publicIp ∅ ∅ ∅ false "54100" false [] [] [] [].

Definition secondUnreachable (sc : ServerConfig) (publicIp : string) (index : nat)
    : NodeState * option GoError :=
  if String.eqb publicIp "10.0.0.2" then
    (zeroNodeState,
     Some (errors_New "Unable to SSH to 10.0.0.2:22 because dial tcp 10.0.0.2:22: i/o timeout"))
  else (readState publicIp, None).

(** An unsecured one-host configuration. *)
Definition unsecuredConfig : ServerConfig :=
  mkServerConfig (mkPackage "5.4.100" "-0_amd64.deb") ["10.0.0.1"] ∅
                 {[ CREDENTIALS_FOR_SECURE_STORE_FIELD_NAME := newHolder ]}
                 (mkUrl [] 0 0) ∅ true (mkSSH "ubuntu" [] 0) "healthcheck" [] [] [].

Definition allOk : Env := fun _ _ => okReply.

(** A stand-in for the key derivation, to run the hashing code on: it
    returns the salt followed by the password. *)
Definition toyKdf (password salt : list Byte.byte) (time memory threads keyLen : Z)
    : list Byte.byte := salt ++ password.

Definition noLeaderErr : GoError := mkError NoLeaderError [] "no leader".
Definition otherErr : GoError := errors_New "connection reset".

(** * More of the code *)

(** ** More of Go's library: splitting, paths, runes *)

Module GoText.

(** [strings.Split s sep] for a separator of one byte: the pieces between
    its occurrences (never an empty list). *)
Fixpoint Split (s : string) (sep : ascii) : list string :=
  match s with
  | EmptyString => [EmptyString]
  | String c s' =>
      if Ascii.eqb c sep then EmptyString :: Split s' sep
      else match Split s' sep with
           | [] => [String c EmptyString]
           | p :: ps => String c p :: ps
           end
  end.

(** The file component of [filepath.Split path]: what follows the last
    slash, the whole path when it has none. *)
Fixpoint SplitFile (path : string) : string :=
  match path with
  | EmptyString => EmptyString
  | String c rest =>
      if GoStrings.HasByte "/"%char rest then SplitFile rest
      else if Ascii.eqb c "/"%char then rest else path
  end.

(** The conversion [rune(n)] of an [int]: the low 32 bits, signed. *)
Definition rune (n : Z) : Z := (n + 2147483648) mod 4294967296 - 2147483648.

Definition byte_char (z : Z) : ascii := ascii_of_N (Z.to_N z).

(** The conversion [string(r)] of a rune: its UTF-8 encoding, that of
    U+FFFD for a surrogate or a value out of range. *)
Definition string_of_rune (r : Z) : string :=
  let r := if (r <? 0) || (1114111 <? r) || ((55296 <=? r) && (r <=? 57343))
           then 65533 else r in
  if r <? 128 then String (byte_char r) EmptyString
  else if r <? 2048 then
    String (byte_char (192 + r / 64)) (String (byte_char (128 + r mod 64)) EmptyString)
  else if r <? 65536 then
    String (byte_char (224 + r / 4096))
      (String (byte_char (128 + (r / 64) mod 64))
         (String (byte_char (128 + r mod 64)) EmptyString))
  else
    String (byte_char (240 + r / 262144))
      (String (byte_char (128 + (r / 4096) mod 64))
         (String (byte_char (128 + (r / 64) mod 64))
            (String (byte_char (128 + r mod 64)) EmptyString))).

(** [strings.ToLower] on ASCII text, to run the code on. *)
Definition lower_ascii (c : ascii) : ascii :=
  let n := nat_of_ascii c in
  if ((65 <=? n)%nat && (n <=? 90)%nat)%bool then ascii_of_nat (n + 32) else c.
Fixpoint ToLower (s : string) : string :=
  match s with
  | EmptyString => EmptyString
  | String c s' => String (lower_ascii c) (ToLower s')
  end.

End GoText.

(** The key of the bundle of the node at [index]: [string(rune(index + 'A'))]. *)
Definition nodeTag (index : nat) : string :=
  GoText.string_of_rune (GoText.rune (Z.of_nat index + 65)).

(** ** Small helpers of [rvn_server.go] (lines 137-146 and 1339-1346) *)

(** [func containsValue(m map[string]string, v string) bool], on the
    entries of the map in the order the [range] visits them. *)
Fixpoint containsValue_range (entries : list (string * string)) (v : string) : bool :=
  match entries with
  | [] => false
  | (_, x) :: rest => if String.eqb x v then true else containsValue_range rest v
  end.

(** [func (idx *Index) convertConfiguration() map[string]string], on the
    entries in the order the [range] visits them; [%v] prints a string as
    it is. *)
Fixpoint convertConfiguration_range (entries : list (string * string)) (m : gmap string string)
    : gmap string string :=
  match entries with
  | [] => m
  | (k, v) :: rest =>
      let strKey := k in
      let strValue := v in
      convertConfiguration_range rest (<[strKey := strValue]> m)
  end.

(** A [range] over a map visits every entry once, in an order that is not
    specified: any list of the entries may be the one. *)
Definition range_order {V} (m : gmap string V) (entries : list (string * V)) : Prop :=
  entries ≡ₚ map_to_list m.

(** ** URLs and settings of a node ([rvn_server.go], lines 558-649) *)

Definition DEFAULT_SECURE_RAVENDB_HTTP_PORT : Z := 443.
Definition DEFAULT_USECURED_RAVENDB_HTTP_PORT : Z := 8080.
Definition DEFAULT_SECURE_RAVENDB_TCP_PORT : Z := 38888.
Definition DEFAULT_UNSECURED_RAVENDB_TCP_PORT : Z := 38881.
Definition DEFAULT_HTTP_PORT : Z := 80.

(** [url.URL], the two fields the code sets. *)
Record URL := mkURL {
  Scheme : string;
  Host : string
}.

(** A variable of type [*map[string]interface{}]: the nil pointer, or the
    map variable it points to (itself nil or a map). *)
Definition MapPtr : Type := option (option (gmap string Any)).

(** Assignments through the pointer [sc]. *)
Definition withUrl (sc : ServerConfig) (u : Url) : ServerConfig :=
  mkServerConfig (ScPackage sc) (Hosts sc) (ScSettings sc) (ClusterSetupZip sc) u (Assets sc)
                 (Unsecured sc) (ScSSH sc) (HealthcheckDatabase sc) (Databases sc)
                 (DatabasesToDelete sc) (IndexesToDelete_ sc).

Definition setHttpPort (sc : ServerConfig) (p : Z) : ServerConfig :=
  withUrl sc (mkUrl (UrlList (ScUrl sc)) p (TcpPort (ScUrl sc))).

Definition setTcpPort (sc : ServerConfig) (p : Z) : ServerConfig :=
  withUrl sc (mkUrl (UrlList (ScUrl sc)) (HttpPort (ScUrl sc)) p).

(** [sc.Url.List[index] = s]; out of range it panics. *)
Definition setUrlAt (sc : ServerConfig) (index : nat) (s : string) : M ServerConfig :=
  if (index <? length (UrlList (ScUrl sc)))%nat
  then ret (withUrl sc (mkUrl (<[index := s]> (UrlList (ScUrl sc)))
                              (HttpPort (ScUrl sc)) (TcpPort (ScUrl sc))))
  else panic "index out of range".

(** [val.(string)] *)
Definition assertString (val : Any) : M string :=
  match val with
  | AnyString s => ret s
  | _ => panic "interface conversion: interface {} is not string"
  end.

(** Reading [key] in a map that may be nil. *)
Definition map_index {V} (m : option (gmap string V)) (key : string) : option V :=
  match m with
  | None => None
  | Some m => m !! key
  end.

(** [func (sc *ServerConfig) maybeAddHttpPortToHost(host string) string] *)
Definition maybeAddHttpPortToHost (sc : ServerConfig) (host : string) : string :=
  if (Unsecured sc && negb (HttpPort (ScUrl sc) =? DEFAULT_HTTP_PORT))
     || (negb (Unsecured sc) && negb (HttpPort (ScUrl sc) =? DEFAULT_SECURE_RAVENDB_HTTP_PORT))
  then host +:+ ":" +:+ GoStrings.Itoa (HttpPort (ScUrl sc))
  else host.

Section NodeUrls.

(** [url.Parse], the methods [Hostname] and [String] of a URL, and
    [json.Unmarshal(data, &settings)] for [settings] of type
    [*map[string]interface{}]: its error and what the pointer holds after. *)
Variable url_Parse : string -> GoError + URL.
Variable Hostname : URL -> string.
Variable URL_String : URL -> string.
Variable json_Unmarshal : list Byte.byte -> MapPtr -> option GoError * MapPtr.

(** The defaults of [GetUrlByIndex] (lines 589-602).  For a secured node
    without TCP port the source assigns the default TCP port to
    [sc.Url.HttpPort]. *)
Definition defaultPorts (sc : ServerConfig) : ServerConfig :=
  let sc :=
    if HttpPort (ScUrl sc) =? 0 then
      if negb (Unsecured sc) then setHttpPort sc DEFAULT_SECURE_RAVENDB_HTTP_PORT
      else setHttpPort sc DEFAULT_USECURED_RAVENDB_HTTP_PORT
    else sc in
  if TcpPort (ScUrl sc) =? 0 then
    if negb (Unsecured sc) then setHttpPort sc DEFAULT_SECURE_RAVENDB_TCP_PORT
    else setTcpPort sc DEFAULT_UNSECURED_RAVENDB_TCP_PORT
  else sc.

(** [func (sc *ServerConfig) GetUrlByIndex(index int, scheme string)
    (string, string, error)], with the configuration it leaves behind. *)
Definition GetUrlByIndex (sc : ServerConfig) (index : nat) (scheme : string)
    : M (ServerConfig * (string * string * option GoError)) :=
  let sc := defaultPorts sc in
  match UrlList (ScUrl sc) !! index with
  | None => panic "index out of range"
  | Some raw =>
      match url_Parse raw with
      | inl err => ret (sc, (EmptyString, EmptyString, Some err))
      | inr u =>
          let host := maybeAddHttpPortToHost sc (Hostname u) in
          let httpUrl := mkURL scheme host in
          let tcpUrl :=
            mkURL "tcp" (Hostname u +:+ ":" +:+ GoStrings.Itoa (TcpPort (ScUrl sc))) in
          ret (sc, (URL_String httpUrl, URL_String tcpUrl, None))
      end
  end.

(** What the caller's map variable holds once the callee's pointer to it
    is [ptr]: a pointer that was set to nil leaves the variable as it was. *)
Definition pointee (ptr : MapPtr) (settings : option (gmap string Any))
    : option (gmap string Any) :=
  match ptr with
  | Some m => m
  | None => settings
  end.

(** The lookup of the declared URL in [setupUrls] (lines 564-576): the
    configuration with the URL list updated, or the error. *)
Definition setupUrls_declared (sc : ServerConfig) (index : nat) (scheme : string)
    (m : option (gmap string Any)) : M (ServerConfig + GoError) :=
  if String.eqb scheme "https" then
    match map_index m "PublicServerUrl" with
    | Some val =>
        s <- assertString val ;;
        sc <- setUrlAt sc index s ;;
        ret (inl sc)
    | None =>
        ret (inr (errors_New ("'PublicServerUrl' setting was not found  in 'settings.json' file"
                              +:+ nl +:+ "Please verify ZIP file integrity")))
    end
  else
    match map_index m "ServerUrl" with
    | Some val =>
        s <- assertString val ;;
        sc <- setUrlAt sc index s ;;
        ret (inl sc)
    | None =>
        ret (inr (errors_New ("'ServerUrl' setting was not found  in 'settings.json' file"
                              +:+ nl +:+ "Please verify ZIP file integrity")))
    end.

(** [func (sc *ServerConfig) setupUrls(index int, scheme string, settings
    *map[string]interface{}) (string, error)]: the configuration and the
    caller's map as the call leaves them, the URL and the error.  A
    settings file that does not parse gives the empty URL and no error. *)
Definition setupUrls (sc : ServerConfig) (index : nat) (scheme : string)
    (settings : option (gmap string Any))
    : M (ServerConfig * option (gmap string Any) * (string * option GoError)) :=
  match ClusterSetupZip sc !! nodeTag index with
  | None => panic "invalid memory address or nil pointer dereference"
  | Some holder =>
      let '(err, ptr) := json_Unmarshal (SettingsJson holder) (Some settings) in
      match err with
      | Some _ => ret (sc, pointee ptr settings, (EmptyString, None))
      | None =>
          match ptr with
          | None => panic "invalid memory address or nil pointer dereference"
          | Some m =>
              d <- setupUrls_declared sc index scheme m ;;
              match d with
              | inr e => ret (sc, m, (EmptyString, Some e))
              | inl sc =>
                  g <- GetUrlByIndex sc index scheme ;;
                  let '(sc, (httpUrl, tcpUrl, err)) := g in
                  match err with
                  | Some e => ret (sc, m, (EmptyString, Some e))
                  | None =>
                      if String.eqb scheme "https" then
                        m <- map_assign m "PublicServerUrl" (AnyString httpUrl) ;;
                        m <- map_assign m "PublicServerUrl.Tcp" (AnyString tcpUrl) ;;
                        ret (sc, m, (httpUrl, None))
                      else ret (sc, m, (httpUrl, None))
                  end
              end
          end
      end
  end.

(** [func (sc *ServerConfig) ExtractSettingsAfterReadingZipPackage(index
    int, settings *map[string]interface{}) error]: the caller's map as the
    call leaves it, and the error (always nil). *)
Definition ExtractSettingsAfterReadingZipPackage (sc : ServerConfig) (index : nat)
    (settings : option (gmap string Any)) : M (option (gmap string Any) * option GoError) :=
  match ClusterSetupZip sc !! nodeTag index with
  | None => panic "invalid memory address or nil pointer dereference"
  | Some holder =>
      let '(err, ptr) := json_Unmarshal (SettingsJson holder) (Some settings) in
      match err with
      | Some _ => ret (pointee ptr settings, None)
      | None =>
          match ptr with
          | None => panic "invalid memory address or nil pointer dereference"
          | Some m =>
              let scheme := "https" in
              if negb (Unsecured sc) then
                m <- map_assign m "ServerUrl"
                       (AnyString (scheme +:+ "://0.0.0.0:" +:+ GoStrings.Itoa (HttpPort (ScUrl sc)))) ;;
                m <- map_assign m "ServerUrl.Tcp"
                       (AnyString ("tcp://0.0.0.0:" +:+ GoStrings.Itoa (TcpPort (ScUrl sc)))) ;;
                m <- map_assign m "License.Path" (AnyString "/etc/ravendb/license.json") ;;
                m <- map_assign m "Security.Certificate.Path"
                       (AnyString "/etc/ravendb/security/server.pfx") ;;
                m <- map_assign m "License.Eula.Accepted" (AnyBool true) ;;
                m <- map_assign m "Setup.Mode" (AnyString "None") ;;
                ret (m, None)
              else
                let scheme := "http" in
                m <- map_assign m "ServerUrl"
                       (AnyString (scheme +:+ "://0.0.0.0:" +:+ GoStrings.Itoa (HttpPort (ScUrl sc)))) ;;
                m <- map_assign m "ServerUrl.Tcp"
                       (AnyString ("tcp://0.0.0.0:" +:+ GoStrings.Itoa (TcpPort (ScUrl sc)))) ;;
                m <- map_assign m "License.Path" (AnyString "/etc/ravendb/license.json") ;;
                m <- map_assign m "Setup.Mode" (AnyString "None") ;;
                ret (m, None)
          end
      end
  end.

End NodeUrls.

(** ** Reading files of a host ([rvn_server.go], lines 232-244 and 1312-1328) *)

Section RemoteFiles.

Variable env : Env.

(** [session.CombinedOutput(cmd)] on a fresh session: the command is run
    with both streams collected, and what they hold comes back with the
    error. *)
Definition CombinedOutput (conn : SshClient) (cmd : string) : M (string * option GoError) :=
  r <- call env (SshRun conn cmd) ;;
  ret (reply_output r, reply_err r).

(** [func listFiles(conn *ssh.Client, dir string) ([]string, error)]: the
    output is split at the line feeds and the last piece is dropped. *)
Definition listFiles (conn : SshClient) (dir : string) : M (list string * option GoError) :=
  session <- call env (SshNewSession conn) ;;
  match reply_err session with
  | Some e => ret ([], Some e)
  | None =>
      o <- CombinedOutput conn ("sudo find '" +:+ dir +:+ "' -type f  -maxdepth 1") ;;
      let '(output, err) := o in
      match err with
      | Some _ => ret ([], Some (errors_New output))
      | None =>
          let str := output in
          let lines := GoText.Split str (ascii_of_nat 10) in
          ret (take (length lines - 1) lines, None)
      end
  end.

(** [func readFileContents(path string, stdoutBuf bytes.Buffer, conn
    *ssh.Client) ([]byte, error)].  The buffer comes by value: what is
    written to it here stays here. *)
Definition readFileContents (path : string) (stdoutBuf : string) (conn : SshClient)
    : M (list Byte.byte * option GoError) :=
  session <- call env (SshNewSession conn) ;;
  match reply_err session with
  | Some e => ret ([], Some e)
  | None =>
      let stdoutBuf := stdoutBuf +:+ "sudo cat " +:+ path +:+ nl in
      o <- CombinedOutput conn ("sudo cat " +:+ path) ;;
      let '(out, err) := o in
      match err with
      | Some e =>
          let stdoutBuf := stdoutBuf +:+ out in
          ret ([], Some (DeployError e stdoutBuf))
      | None => ret (String.list_byte_of_string out, None)
      end
  end.

(** [func (sc *ServerConfig) extractServerKeyAndCertForStore(publicIP
    string, conn *ssh.Client, stdoutBuf bytes.Buffer) (CertificateHolder,
    error)] *)
Definition extractServerKeyAndCertForStore (sc : ServerConfig) (publicIP : string)
    (conn : SshClient) (stdoutBuf : string) : M (CertificateHolder * option GoError) :=
  let certHolder := mkCertificateHolder [] [] [] [] [] in
  let pfx := "/etc/ravendb/security/server.pfx" in
  let key := "/etc/ravendb/security/server.key" in
  let crt := "/etc/ravendb/security/server.crt" in
  x <- execute env publicIP
         [ "sudo openssl pkcs12 -in " +:+ pfx +:+ " -nocerts -nodes -out " +:+ key
             +:+ " -password pass:";
           "sudo openssl pkcs12 -in " +:+ pfx +:+ " -clcerts -nokeys -out " +:+ crt
             +:+ " -password pass:" ]
         "" stdoutBuf conn ;;
  let '(err, stdoutBuf) := x in
  match err with
  | Some e => ret (mkCertificateHolder [] [] [] [] [], Some e)
  | None =>
      k <- readFileContents key stdoutBuf conn ;;
      let '(bytes, err) := k in
      match err with
      | Some e => ret (mkCertificateHolder [] [] [] [] [], Some e)
      | None =>
          let certHolder :=
            mkCertificateHolder (Pfx certHolder) (Cert certHolder) bytes
                                (SettingsJson certHolder) (License certHolder) in
          c <- readFileContents crt stdoutBuf conn ;;
          let '(bytes, err) := c in
          match err with
          | Some e => ret (mkCertificateHolder [] [] [] [] [], Some e)
          | None =>
              let certHolder :=
                mkCertificateHolder (Pfx certHolder) bytes (Key certHolder)
                                    (SettingsJson certHolder) (License certHolder) in
              y <- execute env publicIP
                     [ "sudo rm " +:+ key +:+ nl; "sudo rm " +:+ crt +:+ nl ]
                     "" stdoutBuf conn ;;
              let '(err, _) := y in
              match err with
              | Some e => ret (mkCertificateHolder [] [] [] [] [], Some e)
              | None => ret (certHolder, None)
              end
          end
      end
  end.

(** [func (sc *ServerConfig) purgeRavenDbInstance(publicIP string) error]:
    one dial, without the retries of [ConnectToRemoteWithRetry]. *)
Definition purgeRavenDbInstance (sc : ServerConfig) (publicIP : string) : M (option GoError) :=
  let stdoutBuf := EmptyString in
  signer <- call env (ParsePrivateKey (Pem (ScSSH sc))) ;;
  match reply_err signer with
  | Some e => ret (Some e)
  | None =>
      let hostAndPort :=
        GoStrings.JoinHostPort publicIP (GoStrings.Itoa (getPort (ScSSH sc))) in
      d <- call env (SshDial hostAndPort) ;;
      match reply_err d with
      | Some e => ret (Some e)
      | None =>
          let conn := mkSshClient hostAndPort in
          x <- execute env publicIP ["sudo apt-get -y purge ravendb"] "" stdoutBuf conn ;;
          let '(err, _) := x in
          ret err
      end
  end.

End RemoteFiles.

(** ** Reading the state of a node ([rvn_server.go], lines 246-405) *)

(** Assignments to the fields of [ns]. *)
Definition setHost (ns : NodeState) (v : string) : NodeState :=
  mkNodeState v (NsSettings ns) (NsClusterSetupZip ns) (NsAssets ns) (NsUnsecured ns)
              (NsVersion ns) (Failed ns) (NsDatabases ns) (NsDatabasesToDelete ns)
              (NsIndexesToDelete ns) (Licence ns).
Definition setSettings (ns : NodeState) (v : gmap string Any) : NodeState :=
  mkNodeState (NsHost ns) v (NsClusterSetupZip ns) (NsAssets ns) (NsUnsecured ns)
              (NsVersion ns) (Failed ns) (NsDatabases ns) (NsDatabasesToDelete ns)
              (NsIndexesToDelete ns) (Licence ns).
Definition setClusterSetupZip (ns : NodeState) (v : gmap string CertificateHolder) : NodeState :=
  mkNodeState (NsHost ns) (NsSettings ns) v (NsAssets ns) (NsUnsecured ns)
              (NsVersion ns) (Failed ns) (NsDatabases ns) (NsDatabasesToDelete ns)
              (NsIndexesToDelete ns) (Licence ns).
Definition setAssets (ns : NodeState) (v : gmap string (list Byte.byte)) : NodeState :=
  mkNodeState (NsHost ns) (NsSettings ns) (NsClusterSetupZip ns) v (NsUnsecured ns)
              (NsVersion ns) (Failed ns) (NsDatabases ns) (NsDatabasesToDelete ns)
              (NsIndexesToDelete ns) (Licence ns).
Definition setVersion (ns : NodeState) (v : string) : NodeState :=
  mkNodeState (NsHost ns) (NsSettings ns) (NsClusterSetupZip ns) (NsAssets ns) (NsUnsecured ns)
              v (Failed ns) (NsDatabases ns) (NsDatabasesToDelete ns)
              (NsIndexesToDelete ns) (Licence ns).
Definition setDatabases (ns : NodeState) (v : list Database) : NodeState :=
  mkNodeState (NsHost ns) (NsSettings ns) (NsClusterSetupZip ns) (NsAssets ns) (NsUnsecured ns)
              (NsVersion ns) (Failed ns) v (NsDatabasesToDelete ns)
              (NsIndexesToDelete ns) (Licence ns).
Definition setDatabasesToDelete (ns : NodeState) (v : list DatabaseToDelete) : NodeState :=
  mkNodeState (NsHost ns) (NsSettings ns) (NsClusterSetupZip ns) (NsAssets ns) (NsUnsecured ns)
              (NsVersion ns) (Failed ns) (NsDatabases ns) v
              (NsIndexesToDelete ns) (Licence ns).
Definition setIndexesToDelete (ns : NodeState) (v : list IndexesToDelete) : NodeState :=
  mkNodeState (NsHost ns) (NsSettings ns) (NsClusterSetupZip ns) (NsAssets ns) (NsUnsecured ns)
              (NsVersion ns) (Failed ns) (NsDatabases ns) (NsDatabasesToDelete ns)
              v (Licence ns).
Definition setLicence (ns : NodeState) (v : list Byte.byte) : NodeState :=
  mkNodeState (NsHost ns) (NsSettings ns) (NsClusterSetupZip ns) (NsAssets ns) (NsUnsecured ns)
              (NsVersion ns) (Failed ns) (NsDatabases ns) (NsDatabasesToDelete ns)
              (NsIndexesToDelete ns) v.

(** What the history so far determines, at no cost. *)
Definition observe {A} (f : list Event -> A) : M A := fun h => (Val (f h), []).

Section NodeReader.

Variable env : Env.

(** [json.Unmarshal(file, &ns.Settings)] into the map just made (its error
    and the map after), [fmt.Sprintf] with [%v], and the build number the
    server has put in the operation object after the calls so far. *)
Variable json_Unmarshal : list Byte.byte -> gmap string Any -> option GoError * gmap string Any.
Variable Sprintf_v : Any -> string.
Variable BuildVersion : list Event -> Z.

(** The two loops over the listed files (lines 278-289 and 295-306): the
    contents of each go to [ns.Assets] under the file's name. *)
Fixpoint ReadServer_assets (conn : SshClient) (stdoutBuf : string) (files : list string)
    (ns : NodeState) : M (NodeState * option GoError) :=
  match files with
  | [] => ret (ns, None)
  | file :: rest =>
      let fileName := GoText.SplitFile file in
      c <- readFileContents env file stdoutBuf conn ;;
      let '(contents, err) := c in
      match err with
      | Some e => ret (ns, Some e)
      | None =>
          ReadServer_assets conn stdoutBuf rest
            (setAssets ns (<[fileName := contents]> (NsAssets ns)))
      end
  end.

(** Lines 371-402: the three lists are copied from the configuration. *)
Definition ReadServer_declared (sc : ServerConfig) (ns : NodeState) : NodeState :=
  let ns :=
    setDatabasesToDelete ns
      (map (fun database => mkDatabaseToDelete (DelName database) (HardDelete database))
           (DatabasesToDelete sc)) in
  let ns :=
    setIndexesToDelete ns
      (map (fun index => mkIndexesToDelete (DatabaseName index) (IndexesNames index))
           (IndexesToDelete_ sc)) in
  setDatabases ns
    (map (fun database =>
            mkDatabase (Name database) (Settings database) (ReplicationNodes database)
                       (DbKey database) (Indexes database))
         (Databases sc)).

(** Lines 307-336: what the collected files are turned into. *)
Definition ReadServer_classify (index : nat) (ns : NodeState) : NodeState * option GoError :=
  let ns := setAssets ns (delete "master.key" (NsAssets ns)) in
  let ns := setSettings ns ∅ in
  let '(ns, err) :=
    match NsAssets ns !! "settings.json" with
    | Some file =>
        let '(err, settings) := json_Unmarshal file (NsSettings ns) in
        let ns := setSettings ns settings in
        match err with
        | Some e => (ns, Some e)
        | None => (setAssets ns (delete "settings.json" (NsAssets ns)), None)
        end
    | None => (ns, None)
    end in
  match err with
  | Some e => (ns, Some e)
  | None =>
      let ns := setSettings ns ((fun v => AnyString (Sprintf_v v)) <$> NsSettings ns) in
      let ns :=
        match NsAssets ns !! "license.json" with
        | Some license => setAssets (setLicence ns license) (delete "license.json" (NsAssets ns))
        | None => ns
        end in
      let ns :=
        match NsAssets ns !! "server.pfx" with
        | Some cert =>
            let idx := nodeTag index in
            let certHolder := mkCertificateHolder cert [] [] [] [] in
            let ns := setClusterSetupZip ns (<[idx := certHolder]> ∅) in
            setAssets ns (delete "server.pfx" (NsAssets ns))
        | None => ns
        end in
      (ns, None)
  end.

(** [func (sc *ServerConfig) ReadServer(publicIP string, index int)
    (NodeState, error)] *)
Definition ReadServer (sc : ServerConfig) (publicIP : string) (index : nat)
    : M (NodeState * option GoError) :=
  let stdoutBuf := EmptyString in
  let ns := zeroNodeState in
  signer <- call env (ParsePrivateKey (Pem (ScSSH sc))) ;;
  match reply_err signer with
  | Some e => ret (ns, Some e)
  | None =>
      c <- ConnectToRemoteWithRetry env sc publicIP None ;;
      match c with
      | (_, Some e) => ret (ns, Some e)
      | (None, None) => panic "invalid memory address or nil pointer dereference"
      | (Some conn, None) =>
          l <- listFiles env conn "/etc/ravendb" ;;
          let '(files, err) := l in
          match err with
          | Some e => ret (ns, Some e)
          | None =>
              let ns := setAssets ns ∅ in
              a <- ReadServer_assets conn stdoutBuf files ns ;;
              let '(ns, err) := a in
              match err with
              | Some e => ret (ns, Some e)
              | None =>
                  l <- listFiles env conn "/etc/ravendb/security" ;;
                  let '(files, err) := l in
                  match err with
                  | Some e => ret (ns, Some e)
                  | None =>
                      a <- ReadServer_assets conn stdoutBuf files ns ;;
                      let '(ns, err) := a in
                      match err with
                      | Some e => ret (ns, Some e)
                      | None =>
                          let '(ns, err) := ReadServer_classify index ns in
                          match err with
                          | Some e => ret (ns, Some e)
                          | None =>
                              let name := CREDENTIALS_FOR_SECURE_STORE_FIELD_NAME in
                              store <-
                                match ClusterSetupZip sc !! name with
                                | Some val => call env (GetStore val)
                                | None =>
                                    let idx := nodeTag index in
                                    call env (GetStore
                                      (default (mkCertificateHolder [] [] [] [] [])
                                               (NsClusterSetupZip ns !! idx)))
                                end ;;
                              match reply_err store with
                              | Some e => ret (ns, Some e)
                              | None =>
                                  b <- executeWithRetries env OperationGetBuildNumber ;;
                                  match reply_err b with
                                  | Some e => ret (ns, Some e)
                                  | None =>
                                      buildVersion <- observe BuildVersion ;;
                                      let ns := setVersion ns (GoStrings.Itoa buildVersion) in
                                      let ns := setHost ns publicIP in
                                      ret (ReadServer_declared sc ns, None)
                                  end
                              end
                          end
                      end
                  end
              end
          end
      end
  end.

End NodeReader.

(** ** Validating the package (the resource file, lines 33-37 and 821-837) *)

Definition packageArchitectures : gmap string string :=
  {[ "arm64" := "_linux-arm64"; "arm32" := "-0_armhf.deb"; "amd64" := "-0_amd64.deb" ]}.

Definition setArch (sc : ServerConfig) (arch : string) : ServerConfig :=
  mkServerConfig (mkPackage (Version (ScPackage sc)) arch) (Hosts sc) (ScSettings sc)
                 (ClusterSetupZip sc) (ScUrl sc) (Assets sc) (Unsecured sc) (ScSSH sc)
                 (HealthcheckDatabase sc) (Databases sc) (DatabasesToDelete sc)
                 (IndexesToDelete_ sc).

(** The link of the package, as [validatePackage] probes it and as
    [deployServer] downloads it. *)
Definition packageLink (sc : ServerConfig) : string :=
  "https://daily-builds.s3.us-east-1.amazonaws.com/ravendb_"
    +:+ Version (ScPackage sc) +:+ Arch (ScPackage sc).

Section PackageValidation.

(** [strings.ToLower], [strings.TrimSpace], and [http.Head]: its error or
    the status code of the response. *)
Variable ToLower : string -> string.
Variable TrimSpace : string -> string.
Variable http_Head : string -> GoError + Z.

(** [func validatePackage(sc *ServerConfig) error], with the configuration
    it leaves behind. *)
Definition validatePackage (sc : ServerConfig) : ServerConfig * option GoError :=
  let arc := ToLower (Arch (ScPackage sc)) in
  let sc :=
    match packageArchitectures !! arc with
    | Some val => setArch sc val
    | None => sc
    end in
  let sc :=
    if (String.length (TrimSpace (Arch (ScPackage sc))) =? 0)%nat
    then setArch sc "-0_amd64.deb" else sc in
  let link := packageLink sc in
  match http_Head link with
  | inl err =>
      (sc, Some (errors_New ("unable to download the RavenDB version: "
                             +:+ Version (ScPackage sc) +:+ ", from: " +:+ link
                             +:+ " because of:" +:+ err_msg err)))
  | inr statusCode =>
      if negb (statusCode =? 200) then
        (sc, Some (errors_New (link +:+ " is not reachable. HTTP status code: "
                               +:+ GoStrings.Itoa statusCode
                               +:+ ". Please check the input version:"
                               +:+ Version (ScPackage sc) +:+ ". Url used was:" +:+ link)))
      else (sc, None)
  end.

End PackageValidation.

(** ** More inputs to run the code on *)

(** An index with one configuration entry. *)
Definition searchIndex : Index :=
  mkIndex "ByDate" ["from o in docs.Orders select new { o.Date }"] ""
          {[ "Indexing.Static.SearchEngineType" := "Lucene" ]}.

(** The URLs of the nodes of a cluster, by tag. *)
Definition twoNodes : gmap string string :=
  {[ "A" := "https://a.example.com"; "B" := "https://b.example.com" ]}.

(** A reading of URLs of the shape [scheme://host:port], to run the code
    on: the scheme is what precedes the first colon, the host with its port
    what follows the two slashes. *)
Definition simple_Parse (raw : string) : GoError + URL :=
  match String.index 0 "://" raw with
  | Some n =>
      inr (mkURL (String.substring 0 n raw)
                 (String.substring (n + 3) (String.length raw - (n + 3)) raw))
  | None => inl (errors_New ("parse " +:+ raw +:+ ": missing protocol scheme"))
  end.

Definition simple_Hostname (u : URL) : string :=
  hd EmptyString (GoText.Split (Host u) ":"%char).

Definition simple_String (u : URL) : string := Scheme u +:+ "://" +:+ Host u.

(** A decoder that knows the documents of a table: the entries of a known
    document are added to the map the pointer leads to (which is made when
    it is nil), any other input is a syntax error and changes nothing. *)
Definition tableUnmarshal (table : list (string * gmap string Any))
    (data : list Byte.byte) (ptr : MapPtr) : option GoError * MapPtr :=
  match List.find (fun d => String.eqb (fst d) (String.string_of_list_byte data)) table with
  | Some (_, m) =>
      match ptr with
      | Some (Some old) => (None, Some (Some (m ∪ old)))
      | _ => (None, Some (Some m))
      end
  | None => (Some (errors_New "invalid character looking for beginning of value"), ptr)
  end.

(** The settings file of node A in a setup package, and what it decodes to. *)
Definition settingsJsonA : string :=
  "{" +:+ dquote +:+ "PublicServerUrl" +:+ dquote +:+ ":" +:+ dquote
      +:+ "https://a.example.com" +:+ dquote +:+ "," +:+ dquote +:+ "DataDir" +:+ dquote
      +:+ ":" +:+ dquote +:+ "/var/lib/ravendb" +:+ dquote +:+ "}".

Definition settingsA : gmap string Any :=
  {[ "PublicServerUrl" := AnyString "https://a.example.com";
     "DataDir" := AnyString "/var/lib/ravendb" ]}.

Definition knownDocuments : list (string * gmap string Any) := [(settingsJsonA, settingsA)].

(** A secured one-host configuration whose package holds the folder of
    node A with that settings file, and which names no port. *)
Definition securedConfig : ServerConfig :=
  mkServerConfig (mkPackage "5.4.100" "-0_amd64.deb") ["10.0.0.1"] ∅
                 {[ "A" := mkCertificateHolder (String.list_byte_of_string "PFX-A") [] []
                             (String.list_byte_of_string settingsJsonA) [];
                    CREDENTIALS_FOR_SECURE_STORE_FIELD_NAME := newHolder ]}
                 (mkUrl [""] 0 0) ∅ false (mkSSH "ubuntu" [] 0) "healthcheck" [] [] [].

(** ** More vocabulary *)

(** The events of a command that [execute] runs: a session is opened and
    the command is run in it. *)
Definition ran (conn : SshClient) (cmd : string) : list Event :=
  [Call (SshNewSession conn); Call (SshRun conn cmd)].

Definition ranAll (conn : SshClient) (commands : list string) : list Event :=
  concat (map (ran conn) commands).


(** The output of a command that prints the [lines], one per line. *)
Definition unlines (lines : list string) : string :=
  String.concat EmptyString (map (fun line => line +:+ nl) lines).

Definition findCommand (dir : string) : string :=
  "sudo find '" +:+ dir +:+ "' -type f  -maxdepth 1".

(** A host on which a node is installed: the files of its two
    directories and what they hold.  Every other request succeeds. *)
Definition printed (output : string) : Reply := mkReply None [] "" None output.

Definition nodeHost : Env :=
  fun _ r =>
    match r with
    | SshRun _ cmd =>
        if String.eqb cmd (findCommand "/etc/ravendb") then
          printed (unlines ["/etc/ravendb/settings.json"; "/etc/ravendb/license.json"])
        else if String.eqb cmd (findCommand "/etc/ravendb/security") then
          printed (unlines ["/etc/ravendb/security/server.pfx";
                            "/etc/ravendb/security/master.key";
                            "/etc/ravendb/security/ca.crt"])
        else if String.eqb cmd "sudo cat /etc/ravendb/settings.json" then printed settingsJsonA
        else if String.eqb cmd "sudo cat /etc/ravendb/license.json" then printed "LICENSE"
        else if String.eqb cmd "sudo cat /etc/ravendb/security/server.pfx" then printed "PFX-A"
        else if String.eqb cmd "sudo cat /etc/ravendb/security/master.key" then printed "SECRET"
        else if String.eqb cmd "sudo cat /etc/ravendb/security/ca.crt" then printed "CA"
        else okReply
    | _ => okReply
    end.

(** The commands of [extractServerKeyAndCertForStore]: the four that
    write and read the key and the certificate, and the two that remove
    them. *)
Definition extractCommands : list string :=
  [ "sudo openssl pkcs12 -in /etc/ravendb/security/server.pfx -nocerts -nodes -out /etc/ravendb/security/server.key -password pass:";
    "sudo openssl pkcs12 -in /etc/ravendb/security/server.pfx -clcerts -nokeys -out /etc/ravendb/security/server.crt -password pass:";
    "sudo cat /etc/ravendb/security/server.key";
    "sudo cat /etc/ravendb/security/server.crt" ].

Definition cleanupCommands : list string :=
  [ "sudo rm /etc/ravendb/security/server.key" +:+ nl;
    "sudo rm /etc/ravendb/security/server.crt" +:+ nl ].

(** The event removes a file of the host. *)
Definition removes (e : Event) : bool :=
  match e with
  | Call (SshRun _ cmd) => String.prefix "sudo rm " cmd
  | _ => false
  end.

(** The event is a pause. *)
Definition is_sleep (e : Event) : bool :=
  match e with
  | Sleep _ => true
  | Call _ => false
  end.

(** The event belongs to a remote command: a session or a run. *)
Definition is_remote_command (e : Event) : bool :=
  match e with
  | Call (SshNewSession _) => true
  | Call (SshRun _ _) => true
  | _ => false
  end.

(** The address [purgeRavenDbInstance] and [ConnectToRemoteWithRetry] dial. *)
Definition sshAddress (sc : ServerConfig) (publicIP : string) : string :=
  GoStrings.JoinHostPort publicIP (GoStrings.Itoa (getPort (ScSSH sc))).

(** A host whose SSH port does not answer. *)
Definition dialTimeout : GoError := errors_New "dial tcp 10.0.0.2:22: i/o timeout".

Definition unreachableHost : Env :=
  fun _ r =>
    match r with
    | SshDial _ => errReply dialTimeout
    | _ => okReply
    end.

(** The same decoder for a pointer to a map variable that holds a map. *)
Definition tableUnmarshalInto (table : list (string * gmap string Any))
    (data : list Byte.byte) (m : gmap string Any) : option GoError * gmap string Any :=
  match tableUnmarshal table data (Some (Some m)) with
  | (err, Some (Some m')) => (err, m')
  | (err, _) => (err, m)
  end.

(** [%v] of the values a settings file holds. *)
Definition showAny (v : Any) : string :=
  match v with
  | AnyString s => s
  | AnyBool true => "true"
  | AnyBool false => "false"
  | AnyNumber z => GoStrings.Itoa z
  end.

(** The state read from the first host of the secured configuration, on
    which a node of build 54100 is installed. *)
Definition readNodeA : Res (NodeState * option GoError) :=
  result (ReadServer nodeHost (tableUnmarshalInto knownDocuments) showAny (fun _ => 54100)
                     securedConfig "10.0.0.1" 0) [].

Definition nodeStateA : NodeState :=
  match readNodeA with
  | Val (ns, _) => ns
  | Panic _ => zeroNodeState
  end.

(** The request that asks the cluster for its topology. *)
Definition topologyQuery : Request := ServerSend OperationGetClusterTopology.

(** A cluster of one member that answers every creation with a
    concurrency error. *)
Definition concurrentWrite : GoError :=
  mkError ConcurrencyError [] "Optimistic concurrency violation, transaction will be aborted.".

Definition busyCluster : Env :=
  fun h r =>
    match r with
    | ServerSend (CreateDatabaseOperation _ _) => errReply concurrentWrite
    | _ => healthyCluster ["A"] h r
    end.

(** A cluster that never gets its second member. *)
Definition formingCluster : Env := healthyCluster ["A"].

Definition twoNodeConfig (databases : list Database) : ServerConfig :=
  mkServerConfig (mkPackage "5.4.100" "") ["10.0.0.1"; "10.0.0.2"] ∅
                 {[ CREDENTIALS_FOR_SECURE_STORE_FIELD_NAME := newHolder ]}
                 (mkUrl ["https://a.example.com"; "https://b.example.com"] 0 0) ∅ false
                 (mkSSH "ubuntu" [] 0) "healthcheck" databases [] [].

(** The [i]-th event of the trace [t] of a run that began after [h] is the
    creation of a database, and the cluster answered it without error. *)
Definition accepted_creation (env : Env) (h t : list Event) (i : nat) (rec : DatabaseRecord)
    : Prop :=
  exists repFactor,
    t !! i = Some (Call (ServerSend (CreateDatabaseOperation rec repFactor)))
    /\ reply_err (env (h ++ take i t) (ServerSend (CreateDatabaseOperation rec repFactor))) = None.

(** The event sends the key of a database to its nodes. *)
Definition key_distribution (e : Event) : bool :=
  match e with
  | Call (ServerSend (OperationDistributeSecretKey _ _ _)) => true
  | _ => false
  end.

(** Two declared databases without key. *)
Definition ordersAndInvoices : list Database :=
  [mkDatabase "orders" ∅ ["A"] "" []; mkDatabase "invoices" ∅ ["A"] "" []].

(** The [i]-th event of the run of [m] after [h] is its last one, and the
    run gives [R]. *)
Definition ends_with {A} (m : M A) (h : list Event) (i : nat) (R : Res A) : Prop :=
  S i = length (trace m h) /\ result m h = R.

(** Two declared databases with a key, on two nodes. *)
Definition encryptedDatabases : list Database :=
  [mkDatabase "orders" ∅ ["A"] "a2V5LW9uZQ==" []; mkDatabase "invoices" ∅ ["A"] "a2V5LXR3bw==" []].



(** The request that puts the index [idx] of the database [db] with the
    maps [maps]. *)
Definition putIndex (db : string) (idx : Index) (maps : list string) : Event :=
  Call (ForDatabaseSend db
          (PutIndexesOperation
             (mkIndexDefinition (IndexName idx) maps (Some (Reduce idx)) (Configuration idx)))).




(** A database with two indexes and one with a third. *)
Definition indexedDatabases : list Database :=
  [ mkDatabase "orders" ∅ ["A"] ""
      [ mkIndex "ByDate" ["from o in docs.Orders select new { o.Date }"] "" ∅;
        mkIndex "ByCustomer" ["from o in docs.Orders select new { o.Customer }"] "" ∅ ];
    mkDatabase "invoices" ∅ ["A"] ""
      [ mkIndex "ByTotal" ["from i in docs.Invoices select new { i.Total }"] "" ∅ ] ].

(** ** The state shown for a node (the resource file, lines 503-517 and 876-964) *)

Module Rendering.

(** The values the flattened state is made of: strings, booleans, slices
    of strings, maps of strings, and slices of objects. *)
#[warnings="-register-all"]
Inductive Tf :=
  | TfString (s : string)
  | TfBool (b : bool)
  | TfStrings (l : list string)
  | TfStringMap (m : gmap string string)
  | TfObjects (l : list (gmap string Tf)).

(** [func flattenIndexesToDelete(indexesToDelete []IndexesToDelete) []map[string]interface{}] *)
Definition flattenIndexesToDelete (indexesToDelete : list IndexesToDelete)
    : list (gmap string Tf) :=
  map (fun v =>
         {[ "index" :=
              TfObjects [ {[ "database_name" := TfString (DatabaseName v);
                             "indexes_names" := TfStrings (IndexesNames v) ]} ] ]})
      indexesToDelete.

(** [func flattenIndexes(indexes []Index) []map[string]interface{}] *)
Definition flattenIndexes (indexes : list Index) : list (gmap string Tf) :=
  map (fun index =>
         {[ "index" :=
              TfObjects [ {[ "index_name" := TfString (IndexName index);
                             "maps" := TfStrings (Maps index);
                             "reduce" := TfString (Reduce index);
                             "configuration" := TfStringMap (Configuration index) ]} ] ]})
      indexes.

(** [func flattenDatabasesToDelete(databasesToDelete []DatabaseToDelete) []map[string]interface{}] *)
Definition flattenDatabasesToDelete (databasesToDelete : list DatabaseToDelete)
    : list (gmap string Tf) :=
  map (fun v =>
         {[ "database" :=
              TfObjects [ {[ "name" := TfString (DelName v);
                             "hard_delete" := TfBool (HardDelete v) ]} ] ]})
      databasesToDelete.

Section Databases.

Variable argon2_IDKey :
  list Byte.byte -> list Byte.byte -> Z -> Z -> Z -> Z -> list Byte.byte.

(** The object of one database, with the hash of its key. *)
Definition flatDatabase (db : Database) (hash : string) : gmap string Tf :=
  {[ "database" :=
       TfObjects [ {[ "name" := TfString (Name db);
                      "settings" := TfStringMap (Settings db);
                      "replication_nodes" := TfStrings (ReplicationNodes db);
                      "encryption_key" := TfString hash;
                      "indexes" := TfObjects (flattenIndexes (Indexes db)) ]} ] ]}.

(** [func flattenDatabases(databases []Database) []map[string]interface{}],
    on the bytes the random source is about to deliver; [tfs] is the slice
    built so far. *)
Fixpoint flattenDatabases_loop (databases : list Database) (tfs : list (gmap string Tf))
    (entropy : list Byte.byte) : Res (list (gmap string Tf)) * list Byte.byte :=
  match databases with
  | [] => (Val tfs, entropy)
  | db :: rest =>
      match encryptionKeyHash argon2_IDKey (DbKey db) entropy with
      | (Panic msg, entropy) => (Panic msg, entropy)
      | (Val hash, entropy) => flattenDatabases_loop rest (tfs ++ [flatDatabase db hash]) entropy
      end
  end.

Definition flattenDatabases (databases : list Database) (entropy : list Byte.byte)
    : Res (list (gmap string Tf)) * list Byte.byte :=
  flattenDatabases_loop databases [] entropy.

End Databases.

End Rendering.

(** The salts the random source delivers for [n] hashes, in order, when
    it can. *)
Fixpoint salts (n : nat) (entropy : list Byte.byte) : list (list Byte.byte) :=
  match n with
  | O => []
  | S n' => take 16 entropy :: salts n' (drop 16 entropy)
  end.

(** The hash of a key with a given salt, as [encryptionKeyHash] shows it. *)
Definition shownHash
    (argon2_IDKey : list Byte.byte -> list Byte.byte -> Z -> Z -> Z -> Z -> list Byte.byte)
    (key : string) (salt : list Byte.byte) : string :=
  Hex.EncodeToString (argon2_IDKey (String.list_byte_of_string key) salt 4 (64 * 1024) 4 32).

(** A stand-in for the key derivation that returns as many bytes as were
    asked for. *)
Definition sizedKdf (password salt : list Byte.byte) (time memory threads keyLen : Z)
    : list Byte.byte :=
  take (Z.to_nat keyLen) (salt ++ password ++ replicate (Z.to_nat keyLen) Byte.x00).

(** The characters of [hex.EncodeToString]. *)
Definition is_hex_digit (c : ascii) : bool :=
  let n := nat_of_ascii c in
  ((48 <=? n)%nat && (n <=? 57)%nat) || ((97 <=? n)%nat && (n <=? 102)%nat).

Fixpoint all_chars (P : ascii -> bool) (s : string) : bool :=
  match s with
  | EmptyString => true
  | String c s' => P c && all_chars P s'
  end.

(** The suffixes [validatePackage] can set as architecture. *)
Definition packageSuffixes : list string := ["_linux-arm64"; "-0_armhf.deb"; "-0_amd64.deb"].

(** A download site that has every package. *)
Definition everyPackage (link : string) : GoError + Z := inr 200.

(** A configuration that names its architecture in capitals. *)
Definition capitalsConfig : ServerConfig := setArch securedConfig "AMD64".

(** The read of the host at some index failed with [e], otherwise than by
    the host being unreachable. *)
Definition failed_otherwise
    (ReadServer : ServerConfig -> string -> nat -> NodeState * option GoError)
    (sc : ServerConfig) (e : GoError) : Prop :=
  exists j host,
    Hosts sc !! j = Some host
    /\ snd (ReadServer sc host j) = Some e
    /\ GoStrings.Contains (err_msg e) "Unable to SSH to" = false.

(** Three hosts of which the second has no settings that parse. *)
Definition brokenSettings : GoError := errors_New "invalid character '}' looking for beginning of value".

Definition secondBroken (sc : ServerConfig) (publicIp : string) (index : nat)
    : NodeState * option GoError :=
  if String.eqb publicIp "10.0.0.2" then (zeroNodeState, Some brokenSettings)
  else (readState publicIp, None).

(** An archive whose second entry cannot be read. *)
Definition badChecksum : GoError := errors_New "zip: checksum error".

Definition damagedArchive : list ZipFile :=
  [ mkZipFile "A/server.pfx" (inr (bytesOf "PFX-A"));
    mkZipFile "A/settings.json" (inl badChecksum);
    mkZipFile "license.json" (inr (bytesOf "LICENSE")) ].

(** A cluster that elects its leader during the first retry delay, and
    whose topology changes once the healthcheck probe was answered. *)
Definition is_probe (e : Event) : bool :=
  match e with
  | Call (MaintenanceSend _) => true
  | _ => false
  end.

Definition electingCluster : Env :=
  fun h r =>
    match r with
    | ServerSend OperationGetClusterTopology =>
        if negb (existsb is_sleep h) then errReply noLeaderErr
        else if existsb is_probe h then mkReply None ["A"] "topology-2" None ""
        else mkReply None ["A"] "topology-1" None ""
    | _ => okReply
    end.

(** ** Vocabulary of the healthcheck, the transcript and the index puts *)

(** Lines 834-856 of [Deploy]: the four phases that follow the
    healthcheck, as [Deploy_phases] runs them. *)
Definition Deploy_later_phases (env : Env) (ToUpper TrimSpace : string -> string)
    (sc : ServerConfig) (clusterTopology : Reply) : M (string * option GoError) :=
  err <- deleteDatabases env sc ;;
  orReturn err (
  err <- createDatabases env ToUpper TrimSpace sc ;;
  orReturn err (
  err <- deleteIndexes env sc ;;
  orReturn err (
  err <- createIndexes env sc ;;
  orReturn err (
  ret (reply_topologyID clusterTopology, None))))).

(** A one-host cluster without healthcheck database, and the five probes
    it answers with that error. *)
Definition missingOnOneNode : Env := missingHealthcheckDatabase ["A"].

Definition databaseMissing : GoError :=
  mkError DatabaseDoesNotExistError [] "Database 'healthcheck' does not exist".

Definition fiveProbes : list Event :=
  attempts (MaintenanceSend OperationDatabaseHealthCheck) 5 5.

(** The request that creates the healthcheck database: unencrypted,
    without topology, with as many replicas as there are hosts. *)
Definition healthcheckCreation (sc : ServerConfig) : Request :=
  ServerSend (CreateDatabaseOperation
                (mkDatabaseRecord (HealthcheckDatabase sc) ∅ false None)
                (Z.of_nat (length (Hosts sc)))).


(** A host on which [sudo false] fails after printing a line. *)
Definition exitStatus : GoError := errors_New "Process exited with status 1".

Definition refusingHost : Env :=
  fun _ r =>
    match r with
    | SshRun _ cmd =>
        if String.eqb cmd "sudo false"
        then mkReply (Some exitStatus) [] "" None ("permission denied" +:+ nl)
        else okReply
    | _ => okReply
    end.




(** * Properties *)

(** ** Strings *)

Module GoStringsFacts.
Import GoStrings.

Lemma app_String a s t : String a s +:+ t = String a (s +:+ t).
Proof. reflexivity. Qed.

Lemma app_empty_l s : EmptyString +:+ s = s.
Proof. reflexivity. Qed.

Lemma app_assoc s t u : (s +:+ t) +:+ u = s +:+ t +:+ u.
Proof. induction s as [|a s IH]; [reflexivity|]. rewrite !app_String. by rewrite IH. Qed.

Lemma prefix_app s r : String.prefix s (s +:+ r) = true.
Proof.
  induction s as [|a s IH]; [by destruct r|].
  rewrite app_String. simpl. by destruct (ascii_dec a a).
Qed.

Lemma Contains_unfold s sub :
  Contains s sub =
  String.prefix sub s || match s with
                         | EmptyString => false
                         | String _ s' => Contains s' sub
                         end.
Proof. by destruct s. Qed.

Lemma Contains_prefix s r : Contains (s +:+ r) s = true.
Proof. rewrite Contains_unfold, prefix_app. reflexivity. Qed.

(** A string contains what a suffix of it contains. *)
Lemma Contains_app_r a s sub : Contains s sub = true -> Contains (a +:+ s) sub = true.
Proof.
  intros H. induction a as [|c a IH]; [exact H|].
  rewrite app_String, Contains_unfold, IH. apply orb_true_r.
Qed.

(** The text [sub] occurs in a string built around it. *)
Lemma Contains_middle a sub b : Contains (a +:+ sub +:+ b) sub = true.
Proof. apply Contains_app_r, Contains_prefix. Qed.

Lemma app_empty_r s : s +:+ EmptyString = s.
Proof. induction s as [|c s IH]; [reflexivity|]. rewrite app_String. by rewrite IH. Qed.

Lemma Contains_end a sub : Contains (a +:+ sub) sub = true.
Proof.
  apply Contains_app_r. rewrite <- (app_empty_r sub) at 1. apply Contains_prefix.
Qed.

(** Every element of a joined list occurs in the result. *)
Lemma Contains_Join (l : list string) (sep x : string) :
  In x l -> Contains (Join l sep) x = true.
Proof.
  unfold Join. induction l as [|y l IH]; [intros []|].
  intros [->|Hin].
  - destruct l as [|z l]; simpl.
    + apply (Contains_end EmptyString).
    + apply Contains_prefix.
  - destruct l as [|z l]; [destruct Hin|].
    change (String.concat sep (y :: z :: l))
      with (y +:+ sep +:+ String.concat sep (z :: l)).
    rewrite <- app_assoc. apply Contains_app_r, IH, Hin.
Qed.

End GoStringsFacts.

(** ** The monad *)

Lemma bind_val {A B} (m : M A) (f : A -> M B) h a t1 :
  m h = (Val a, t1) ->
  bind m f h = (fst (f a (h ++ t1)), t1 ++ snd (f a (h ++ t1))).
Proof. intros E. unfold bind. rewrite E. by destruct (f a (h ++ t1)). Qed.

Lemma bind_panic {A B} (m : M A) (f : A -> M B) h msg t1 :
  m h = (Panic msg, t1) -> bind m f h = (Panic msg, t1).
Proof. intros E. unfold bind. by rewrite E. Qed.

Lemma trace_bind {A B} (m : M A) (f : A -> M B) h :
  trace (bind m f) h =
  trace m h ++ match result m h with
               | Val a => trace (f a) (h ++ trace m h)
               | Panic _ => []
               end.
Proof.
  unfold trace, result, bind. destruct (m h) as [[a|msg] t1]; simpl.
  - by destruct (f a (h ++ t1)).
  - by rewrite app_nil_r.
Qed.

Lemma emits_ret {A} P (a : A) : emits P (ret a).
Proof. intros h. constructor. Qed.

Lemma emits_panic {A} P msg : emits P (@panic A msg).
Proof. intros h. constructor. Qed.

Lemma emits_call P env r : P (Call r) -> emits P (call env r).
Proof. intros H h. by repeat constructor. Qed.

Lemma emits_sleep P s : P (Sleep s) -> emits P (sleep s).
Proof. intros H h. by repeat constructor. Qed.

Lemma emits_bind {A B} P (m : M A) (f : A -> M B) :
  emits P m -> (forall a, emits P (f a)) -> emits P (bind m f).
Proof.
  intros Hm Hf h. rewrite trace_bind. apply Forall_app. split; [apply Hm|].
  destruct (result m h); [apply Hf|constructor].
Qed.

Lemma emits_weaken {A} (P Q : Event -> Prop) (m : M A) :
  (forall e, P e -> Q e) -> emits P m -> emits Q m.
Proof. intros HPQ Hm h. eapply Forall_impl; [apply Hm|exact HPQ]. Qed.

Create HintDb emits discriminated.
#[global] Hint Resolve emits_ret emits_panic emits_call emits_sleep : emits.

(** Uniform steps for goals about [emits]: peel binds and case splits. *)
Ltac emits_step :=
  match goal with
  | |- emits _ (bind _ _) => apply emits_bind; [|intros ?]
  | |- emits _ (match ?x with _ => _ end) => destruct x eqn:?
  | |- emits _ (if ?b then _ else _) => destruct b eqn:?
  | |- emits _ (let '(_, _) := ?p in _) => destruct p eqn:?
  | |- emits _ (ret _) => apply emits_ret
  | |- emits _ (panic _) => apply emits_panic
  | |- emits _ (call _ _) => apply emits_call
  | |- emits _ (sleep _) => apply emits_sleep
  end.

(** ** The retry loops *)

Section RetryFacts.

Variable env : Env.

Lemma attempts_snoc r d k h :
  (h ++ [Call r; Sleep d]) ++ attempts r d k = h ++ attempts r d (S k).
Proof. by rewrite <- app_assoc. Qed.

Lemma errors_As_Some err T : errors_As err T = true -> exists e, err = Some e.
Proof. destruct err; [eauto|discriminate]. Qed.

(** One iteration of [executeWithRetries] that meets a no-leader error. *)
Lemma executeWithRetries_loop_retry n op last h :
  errors_As (reply_err (env h (ServerSend op))) NoLeaderError = true ->
  executeWithRetries_loop env (S n) op last h =
  (fst (executeWithRetries_loop env n op (env h (ServerSend op))
          (h ++ [Call (ServerSend op); Sleep 5])),
   Call (ServerSend op) :: Sleep 5 ::
     snd (executeWithRetries_loop env n op (env h (ServerSend op))
            (h ++ [Call (ServerSend op); Sleep 5]))).
Proof.
  intros H. destruct (errors_As_Some _ _ H) as [e He].
  simpl. unfold bind at 1. unfold call at 1. rewrite He, <- He, H. simpl.
  unfold bind, sleep. simpl. rewrite <- app_assoc. simpl.
  by destruct (executeWithRetries_loop env n op _ _).
Qed.

(** One iteration that succeeds or meets another error. *)
Lemma executeWithRetries_loop_stop n op last h :
  errors_As (reply_err (env h (ServerSend op))) NoLeaderError = false ->
  executeWithRetries_loop env (S n) op last h =
  (Val (env h (ServerSend op)), [Call (ServerSend op)]).
Proof.
  intros H. simpl. unfold bind, call. simpl.
  destruct (reply_err (env h (ServerSend op))) eqn:E; [|reflexivity].
  by rewrite H.
Qed.

(** After [k] no-leader failures the loop stops at the first attempt that
    is not one, if an iteration is left for it. *)
Lemma executeWithRetries_loop_stops_after op k : forall n last h,
  (k < n)%nat ->
  (forall i, (i < k)%nat ->
     errors_As (reply_err (env (h ++ attempts (ServerSend op) 5 i) (ServerSend op)))
               NoLeaderError = true) ->
  errors_As (reply_err (env (h ++ attempts (ServerSend op) 5 k) (ServerSend op)))
            NoLeaderError = false ->
  executeWithRetries_loop env n op last h =
  (Val (env (h ++ attempts (ServerSend op) 5 k) (ServerSend op)),
   attempts (ServerSend op) 5 k ++ [Call (ServerSend op)]).
Proof.
  induction k as [|k IH]; intros n last h Hn Hfail Hstop.
  - destruct n as [|n]; [lia|]. cbn [attempts] in *. rewrite app_nil_r in *.
    exact (executeWithRetries_loop_stop n op last h Hstop).
  - destruct n as [|n]; [lia|].
    rewrite (executeWithRetries_loop_retry n op last h).
    2:{ specialize (Hfail 0%nat ltac:(lia)). simpl in Hfail. by rewrite app_nil_r in Hfail. }
    rewrite (IH n _ (h ++ [Call (ServerSend op); Sleep 5])).
    + simpl. by rewrite attempts_snoc.
    + lia.
    + intros i Hi. rewrite attempts_snoc. apply Hfail. lia.
    + by rewrite attempts_snoc.
Qed.

(** With a no-leader error at every attempt the loop runs out. *)
Lemma executeWithRetries_loop_exhausted op n : forall last h,
  (forall i, (i < n)%nat ->
     errors_As (reply_err (env (h ++ attempts (ServerSend op) 5 i) (ServerSend op)))
               NoLeaderError = true) ->
  executeWithRetries_loop env n op last h =
  (Val (match n with
        | O => last
        | S m => env (h ++ attempts (ServerSend op) 5 m) (ServerSend op)
        end),
   attempts (ServerSend op) 5 n).
Proof.
  induction n as [|n IH]; intros last h Hfail; [reflexivity|].
  rewrite (executeWithRetries_loop_retry n op last h).
  2:{ specialize (Hfail 0%nat ltac:(lia)). simpl in Hfail. by rewrite app_nil_r in Hfail. }
  rewrite IH.
  - simpl. f_equal. f_equal. destruct n as [|m]; simpl.
    + by rewrite app_nil_r.
    + by rewrite attempts_snoc.
  - intros i Hi. rewrite attempts_snoc. apply Hfail. lia.
Qed.

(** The maintenance loop retries after any error. *)
Lemma executeWithRetriesMaintenanceOperations_loop_retry n op err h e :
  reply_err (env h (MaintenanceSend op)) = Some e ->
  executeWithRetriesMaintenanceOperations_loop env (S n) op err h =
  (fst (executeWithRetriesMaintenanceOperations_loop env n op (Some e)
          (h ++ [Call (MaintenanceSend op); Sleep 5])),
   Call (MaintenanceSend op) :: Sleep 5 ::
     snd (executeWithRetriesMaintenanceOperations_loop env n op (Some e)
            (h ++ [Call (MaintenanceSend op); Sleep 5]))).
Proof.
  intros He. simpl. unfold bind at 1. unfold call at 1. rewrite He. simpl.
  unfold bind, sleep. simpl. rewrite <- app_assoc. simpl.
  by destruct (executeWithRetriesMaintenanceOperations_loop env n op _ _).
Qed.

Lemma executeWithRetriesMaintenanceOperations_loop_stop n op err h :
  reply_err (env h (MaintenanceSend op)) = None ->
  executeWithRetriesMaintenanceOperations_loop env (S n) op err h =
  (Val None, [Call (MaintenanceSend op)]).
Proof. intros He. simpl. unfold bind, call. simpl. by rewrite He. Qed.

Lemma executeWithRetriesMaintenanceOperations_loop_stops_after op k : forall n err h,
  (k < n)%nat ->
  (forall i, (i < k)%nat ->
     reply_err (env (h ++ attempts (MaintenanceSend op) 5 i) (MaintenanceSend op)) <> None) ->
  reply_err (env (h ++ attempts (MaintenanceSend op) 5 k) (MaintenanceSend op)) = None ->
  executeWithRetriesMaintenanceOperations_loop env n op err h =
  (Val None, attempts (MaintenanceSend op) 5 k ++ [Call (MaintenanceSend op)]).
Proof.
  induction k as [|k IH]; intros n err h Hn Hfail Hstop.
  - destruct n as [|n]; [lia|]. cbn [attempts] in *. rewrite app_nil_r in *.
    exact (executeWithRetriesMaintenanceOperations_loop_stop n op err h Hstop).
  - destruct n as [|n]; [lia|].
    pose proof (Hfail 0%nat ltac:(lia)) as H0. simpl in H0. rewrite app_nil_r in H0.
    destruct (reply_err (env h (MaintenanceSend op))) as [e|] eqn:He; [|done].
    rewrite (executeWithRetriesMaintenanceOperations_loop_retry n op err h e He).
    rewrite (IH n _ (h ++ [Call (MaintenanceSend op); Sleep 5])).
    + reflexivity.
    + lia.
    + intros i Hi. rewrite attempts_snoc. apply Hfail. lia.
    + by rewrite attempts_snoc.
Qed.

Lemma executeWithRetriesMaintenanceOperations_loop_exhausted op n : forall err h,
  (forall i, (i < n)%nat ->
     reply_err (env (h ++ attempts (MaintenanceSend op) 5 i) (MaintenanceSend op)) <> None) ->
  executeWithRetriesMaintenanceOperations_loop env n op err h =
  (Val (match n with
        | O => err
        | S m => reply_err (env (h ++ attempts (MaintenanceSend op) 5 m) (MaintenanceSend op))
        end),
   attempts (MaintenanceSend op) 5 n).
Proof.
  induction n as [|n IH]; intros err h Hfail; [reflexivity|].
  pose proof (Hfail 0%nat ltac:(lia)) as H0. simpl in H0. rewrite app_nil_r in H0.
  destruct (reply_err (env h (MaintenanceSend op))) as [e|] eqn:He; [|done].
  rewrite (executeWithRetriesMaintenanceOperations_loop_retry n op err h e He).
  rewrite IH.
  - simpl. f_equal. f_equal. destruct n as [|m]; simpl.
    + by rewrite app_nil_r.
    + by rewrite attempts_snoc.
  - intros i Hi. rewrite attempts_snoc. apply Hfail. lia.
Qed.

End RetryFacts.

(** ** C2: the retry policy *)

(** C2, as stated, fails on the maintenance executor that the healthcheck
    probe goes through: an error that is not a no-leader error is not
    returned after the first attempt there, the probe is sent again. *)
Lemma maintenance_retries_other_errors :
  ~ returns_other_errors_at_once MaintenanceSend executeWithRetriesMaintenanceOperations.
Proof.
  intros H.
  specialize (H (always_failing otherErr) OperationDatabaseHealthCheck [] otherErr
                eq_refl eq_refl).
  vm_compute in H. discriminate H.
Qed.

(** C2 (amended).  A server operation sent through [executeWithRetries] is
    attempted again, 5 seconds later, exactly while its error is a
    no-leader error and fewer than 5 attempts were made: after [k < 5]
    no-leader failures, an attempt that succeeds or fails otherwise ends the
    call with that answer, after [k + 1] attempts and [k] sleeps (so three
    no-leader failures and a success give the success after three sleeps);
    five no-leader failures end it with the last error.  A maintenance
    operation sent through [executeWithRetriesMaintenanceOperations] is
    attempted again after an error of any class, up to 5 attempts. *)
Theorem executeWithRetries_retry_policy (env : Env) (op : Op) (h : list Event) :
  (forall k, (k < NUMBER_OF_RETRIES)%nat ->
     (forall i, (i < k)%nat -> no_leader (nth_reply env h (ServerSend op) 5 i) = true) ->
     no_leader (nth_reply env h (ServerSend op) 5 k) = false ->
     executeWithRetries env op h =
     (Val (nth_reply env h (ServerSend op) 5 k),
      attempts (ServerSend op) 5 k ++ [Call (ServerSend op)]))
  /\ ((forall i, (i < NUMBER_OF_RETRIES)%nat ->
         no_leader (nth_reply env h (ServerSend op) 5 i) = true) ->
      executeWithRetries env op h =
      (Val (nth_reply env h (ServerSend op) 5 4), attempts (ServerSend op) 5 5))
  /\ (forall k, (k < NUMBER_OF_RETRIES)%nat ->
        (forall i, (i < k)%nat -> reply_err (nth_reply env h (MaintenanceSend op) 5 i) <> None) ->
        reply_err (nth_reply env h (MaintenanceSend op) 5 k) = None ->
        executeWithRetriesMaintenanceOperations env op h =
        (Val None, attempts (MaintenanceSend op) 5 k ++ [Call (MaintenanceSend op)]))
  /\ ((forall i, (i < NUMBER_OF_RETRIES)%nat ->
         reply_err (nth_reply env h (MaintenanceSend op) 5 i) <> None) ->
      executeWithRetriesMaintenanceOperations env op h =
      (Val (reply_err (nth_reply env h (MaintenanceSend op) 5 4)),
       attempts (MaintenanceSend op) 5 5)).
Proof.
  unfold nth_reply, no_leader, executeWithRetries, executeWithRetriesMaintenanceOperations.
  repeat split.
  - intros k Hk Hfail Hstop. by apply executeWithRetries_loop_stops_after.
  - intros Hfail. by rewrite executeWithRetries_loop_exhausted.
  - intros k Hk Hfail Hstop. by apply executeWithRetriesMaintenanceOperations_loop_stops_after.
  - intros Hfail. by rewrite executeWithRetriesMaintenanceOperations_loop_exhausted.
Qed.

(** Three no-leader failures, then a success: the success comes back, no
    error surfaces, and the call slept three times. *)
Lemma executeWithRetries_retry_policy_witness :
  executeWithRetries (failing_first 3 noLeaderErr) OperationGetBuildNumber [] =
  (Val okReply,
   [Call (ServerSend OperationGetBuildNumber); Sleep 5;
    Call (ServerSend OperationGetBuildNumber); Sleep 5;
    Call (ServerSend OperationGetBuildNumber); Sleep 5;
    Call (ServerSend OperationGetBuildNumber)]).
Proof.
  apply (proj1 (executeWithRetries_retry_policy
                  (failing_first 3 noLeaderErr) OperationGetBuildNumber []) 3%nat).
  - unfold NUMBER_OF_RETRIES. lia.
  - intros i Hi. destruct i as [|[|[|i]]]; [reflexivity..|lia].
  - reflexivity.
Defined.

(** Without a no-leader error at the first attempt nothing is retried. *)
Lemma executeWithRetries_returns_other_errors_at_once :
  returns_other_errors_at_once ServerSend executeWithRetries.
Proof.
  intros env op h e He Hcls. unfold trace, executeWithRetries.
  change NUMBER_OF_RETRIES with 5%nat.
  rewrite (executeWithRetries_loop_stop env 4 op okReply h); [reflexivity|].
  by rewrite He.
Qed.

(** ** The member delta of [modifyDatabase] *)

Section DeltaFacts.

Variable ToUpper : string -> string.

Lemma same_tag_eq a b : same_tag ToUpper a b = true <-> ToUpper a = ToUpper b.
Proof. unfold same_tag. apply String.eqb_eq. Qed.

Lemma has_tag_false l t d : has_tag ToUpper l t = false -> In d l -> same_tag ToUpper d t = false.
Proof.
  unfold has_tag. intros H Hin.
  destruct (same_tag ToUpper d t) eqn:E; [|reflexivity].
  assert (existsb (fun v => same_tag ToUpper v t) l = true) as Hex; [|congruence].
  apply existsb_exists. eauto.
Qed.

(** What [contains] returns: whether the tag occurs, and where to cut. *)
Lemma contains_from_cut t : forall l i,
  match contains_from ToUpper i l t with
  | (true, index) =>
      exists k, index = Z.of_nat (i + k)
                /\ take k l ++ drop (S k) l = remove_tag ToUpper t l
                /\ has_tag ToUpper l t = true
  | (false, _) => has_tag ToUpper l t = false
  end.
Proof.
  induction l as [|v l IH]; intros i; simpl; [reflexivity|].
  fold (same_tag ToUpper v t). destruct (same_tag ToUpper v t) eqn:E.
  - exists 0%nat. rewrite Nat.add_0_r. by rewrite drop_0.
  - specialize (IH (S i)). destruct (contains_from ToUpper (S i) l t) as [[|] index].
    + destruct IH as (k & -> & Hcut & Hhas). exists (S k). repeat split.
      * f_equal. lia.
      * simpl. by rewrite Hcut.
      * exact Hhas.
    + exact IH.
Qed.

(** One iteration of the loop of [modifyDatabase]. *)
Lemma modifyDatabase_loop_step node rest rmDbInTags members :
  modifyDatabase_loop ToUpper (node :: rest) rmDbInTags members =
  if has_tag ToUpper members (ClusterTag node)
  then modifyDatabase_loop ToUpper rest rmDbInTags (remove_tag ToUpper (ClusterTag node) members)
  else modifyDatabase_loop ToUpper rest (rmDbInTags ++ [ClusterTag node]) members.
Proof.
  simpl. unfold contains.
  pose proof (contains_from_cut (ClusterTag node) members 0) as H.
  destruct (contains_from ToUpper 0 members (ClusterTag node)) as [[|] index]; simpl.
  - destruct H as (k & -> & Hcut & ->). simpl. rewrite Nat2Z.id.
    replace (k + 1)%nat with (S k) by lia. by rewrite Hcut.
  - by rewrite H.
Qed.

Lemma NoDup_remove_tag t l : NoDup (map ToUpper l) -> NoDup (map ToUpper (remove_tag ToUpper t l)).
Proof.
  induction l as [|v l IH]; simpl; [done|].
  intros [Hv Hl]%NoDup_cons. destruct (same_tag ToUpper v t); [done|].
  simpl. apply NoDup_cons. split; [|auto].
  intros Hin. apply Hv. clear -Hin.
  induction l as [|w l IH]; simpl in *; [done|].
  destruct (same_tag ToUpper w t); simpl in *.
  - apply list_elem_of_In. right. by apply list_elem_of_In.
  - apply list_elem_of_In in Hin. destruct Hin as [->|Hin].
    + apply list_elem_of_In. by left.
    + apply list_elem_of_In. right. apply list_elem_of_In, IH, list_elem_of_In, Hin.
Qed.

(** Cutting the tag [t] out of [members] does not change whether another
    live tag is found there. *)
Lemma has_tag_remove_tag t r members :
  ToUpper r <> ToUpper t -> has_tag ToUpper (remove_tag ToUpper t members) r = has_tag ToUpper members r.
Proof.
  intros Hne. induction members as [|v l IH]; simpl; [reflexivity|].
  destruct (same_tag ToUpper v t) eqn:E; simpl.
  - apply same_tag_eq in E. destruct (same_tag ToUpper v r) eqn:E'; [|reflexivity].
    apply same_tag_eq in E'. congruence.
  - by rewrite IH.
Qed.

Lemma has_tag_cons t rest d :
  has_tag ToUpper (t :: rest) d = same_tag ToUpper t d || has_tag ToUpper rest d.
Proof. reflexivity. Qed.

Lemma same_tag_sym a b : same_tag ToUpper a b = same_tag ToUpper b a.
Proof. apply String.eqb_sym. Qed.

Lemma missing_remove_tag t rest members :
  NoDup (map ToUpper members) ->
  has_tag ToUpper members t = true ->
  List.filter (fun d => negb (has_tag ToUpper (t :: rest) d)) members =
  List.filter (fun d => negb (has_tag ToUpper rest d)) (remove_tag ToUpper t members).
Proof.
  induction members as [|v l IH]; [discriminate|].
  intros [Hv Hl]%NoDup_cons Hhas.
  rewrite has_tag_cons in Hhas.
  cbn [List.filter remove_tag]. rewrite has_tag_cons, (same_tag_sym t v).
  destruct (same_tag ToUpper v t) eqn:E; cbn [orb negb].
  - apply same_tag_eq in E. apply filter_ext_in. intros d Hd.
    rewrite has_tag_cons. destruct (same_tag ToUpper t d) eqn:E'; [|reflexivity].
    apply same_tag_eq in E'. exfalso. apply Hv. rewrite E, E'.
    apply list_elem_of_In, in_map, Hd.
  - cbn [List.filter]. rewrite IH by done. reflexivity.
Qed.

(** The loop computes the two differences when neither list repeats a tag. *)
Lemma modifyDatabase_loop_delta : forall nodes rmDbInTags members,
  NoDup (map ToUpper (map ClusterTag nodes)) ->
  NoDup (map ToUpper members) ->
  modifyDatabase_loop ToUpper nodes rmDbInTags members =
  (rmDbInTags ++ excess ToUpper (map ClusterTag nodes) members,
   missing ToUpper (map ClusterTag nodes) members).
Proof.
  induction nodes as [|node rest IH]; intros rm members Hlive Hdesired.
  - simpl. rewrite app_nil_r. f_equal. unfold missing. simpl.
    induction members as [|v l IHl]; simpl; [reflexivity|].
    apply NoDup_cons in Hdesired as [_ Hl]. by rewrite <- IHl.
  - rewrite modifyDatabase_loop_step. simpl in Hlive.
    apply NoDup_cons in Hlive as [Ht Hrest].
    destruct (has_tag ToUpper members (ClusterTag node)) eqn:Hhas.
    + rewrite IH; [|done|by apply NoDup_remove_tag]. f_equal.
      * f_equal. unfold excess. simpl. rewrite Hhas. simpl.
        apply filter_ext_in. intros r Hr. f_equal. apply has_tag_remove_tag.
        intros Heq. apply Ht. rewrite <- Heq. apply list_elem_of_In, in_map, Hr.
      * unfold missing. simpl map. symmetry. by apply missing_remove_tag.
    + rewrite IH; [|done|done]. f_equal.
      * rewrite <- app_assoc. f_equal. unfold excess. simpl. by rewrite Hhas.
      * unfold missing. apply filter_ext_in. intros d Hd. f_equal.
        cbn [map]. rewrite has_tag_cons, same_tag_sym.
        by rewrite (has_tag_false _ _ _ Hhas Hd).
Qed.

(** Two lists with the same tags have no difference. *)
Lemma excess_nil live desired :
  (forall t, In t live -> has_tag ToUpper desired t = true) -> excess ToUpper live desired = [].
Proof.
  intros H. unfold excess. induction live as [|t l IH]; simpl; [reflexivity|].
  rewrite H by (by left). simpl. apply IH. intros; apply H. by right.
Qed.

Lemma missing_nil live desired :
  (forall d, In d desired -> has_tag ToUpper live d = true) -> missing ToUpper live desired = [].
Proof.
  intros H. unfold missing. induction desired as [|t l IH]; simpl; [reflexivity|].
  rewrite H by (by left). simpl. apply IH. intros; apply H. by right.
Qed.

End DeltaFacts.

(** ** C1: the modify fallback *)

Section ModifyFacts.

Variable env : Env.

Lemma executeWithRetries_loop_emits op n : forall last,
  emits (fun e => e = Sleep 5 \/ e = Call (ServerSend op)) (executeWithRetries_loop env n op last).
Proof. induction n as [|n IH]; intros last; simpl; repeat emits_step; auto. Qed.

Lemma executeWithRetries_emits op :
  emits (fun e => e = Sleep 5 \/ e = Call (ServerSend op)) (executeWithRetries env op).
Proof. apply executeWithRetries_loop_emits. Qed.

Lemma executeWithRetries_success op h :
  reply_err (env h (ServerSend op)) = None ->
  executeWithRetries env op h = (Val (env h (ServerSend op)), [Call (ServerSend op)]).
Proof.
  intros H. unfold executeWithRetries. change NUMBER_OF_RETRIES with 5%nat.
  apply executeWithRetries_loop_stop. by rewrite H.
Qed.

Lemma addDatabaseNode_emits name nodes :
  emits (fun e => e = Sleep 5 \/
                  exists n, In n nodes /\ e = Call (ServerSend (OperationAddDatabaseNode name n)))
        (addDatabaseNode env name nodes).
Proof.
  induction nodes as [|node rest IH]; simpl; [apply emits_ret|].
  apply emits_bind.
  - eapply emits_weaken; [|apply executeWithRetries_emits].
    intros e [->| ->]; [by left|right]. exists node. split; [by left|reflexivity].
  - intros r. destruct (reply_err r); [apply emits_ret|].
    eapply emits_weaken; [|apply IH].
    intros e [->|(n & Hn & ->)]; [by left|right]. exists n. split; [by right|reflexivity].
Qed.

Lemma addDatabaseNode_success name :
  (forall h op, reply_err (env h (ServerSend op)) = None) ->
  forall nodes h,
    addDatabaseNode env name nodes h =
    (Val None, map (fun n => Call (ServerSend (OperationAddDatabaseNode name n))) nodes).
Proof.
  intros Hok. induction nodes as [|node rest IH]; intros h; [reflexivity|].
  simpl. erewrite bind_val by (apply executeWithRetries_success, Hok).
  rewrite Hok, IH. reflexivity.
Qed.

End ModifyFacts.

(** C1, as stated, fails when the desired list repeats a tag: the live set
    and the desired set are both the one tag A, and the fallback still
    issues an add-database-node call for A. *)
Lemma modifyDatabase_adds_repeated_desired_tag :
  (forall t, In t ["A"] <-> In t ["A"; "A"])
  /\ modifyDatabase (converging ["A"]) GoStrings.ToUpper (recordWithMembers "db" ["A"; "A"]) [] =
     (Val None,
      [Call (ExecuteCommand "db" GetDatabaseTopologyCommand);
       Call (ServerSend (OperationAddDatabaseNode "db" "A"))]).
Proof.
  split; [|reflexivity].
  intros t. simpl. tauto.
Qed.

(** C1 (amended).  With tags compared up to case and no tag repeated in the
    live or in the desired list, the modify fallback, once it has the live
    topology, sends nothing but: the hard delete of the database from
    exactly the live tags that are not desired (sent, and on a no-leader
    error sent again, only when there is such a tag), and after it the
    add-database-node calls, each for a desired tag that is not live.  When
    every call succeeds that is one delete (if any tag is in excess) followed
    by one add per missing tag; when the two lists hold the same tags no
    delete and no add is sent. *)
Theorem modifyDatabase_member_delta
    (env : Env) (ToUpper : string -> string) (dbRecord : DatabaseRecord)
    (topology : DatabaseTopology) (nodes : list ServerNode) (h : list Event) :
  RecTopology dbRecord = Some topology ->
  reply_nodes (env h (ExecuteCommand (RecDatabaseName dbRecord) GetDatabaseTopologyCommand))
    = Some nodes ->
  NoDup (map ToUpper (map ClusterTag nodes)) ->
  NoDup (map ToUpper (Members topology)) ->
  let name := RecDatabaseName dbRecord in
  let live := map ClusterTag nodes in
  let desired := Members topology in
  let fetch := Call (ExecuteCommand name GetDatabaseTopologyCommand) in
  let remove := Call (ServerSend (DeleteDatabasesOperation [name] true (excess ToUpper live desired))) in
  let adding := fun n => Call (ServerSend (OperationAddDatabaseNode name n)) in
  (exists tdel tadd,
      trace (modifyDatabase env ToUpper dbRecord) h = fetch :: tdel ++ tadd
      /\ Forall (fun e => e = Sleep 5 \/ e = remove) tdel
      /\ (excess ToUpper live desired = [] -> tdel = [])
      /\ Forall (fun e => e = Sleep 5 \/ exists n, In n (missing ToUpper live desired) /\ e = adding n) tadd
      /\ (missing ToUpper live desired = [] -> tadd = []))
  /\ ((forall h' op, reply_err (env h' (ServerSend op)) = None) ->
      modifyDatabase env ToUpper dbRecord h =
      (Val None,
       fetch :: match excess ToUpper live desired with [] => [] | _ :: _ => [remove] end
             ++ map adding (missing ToUpper live desired)))
  /\ ((forall t, In t live -> has_tag ToUpper desired t = true) ->
      (forall d, In d desired -> has_tag ToUpper live d = true) ->
      modifyDatabase env ToUpper dbRecord h = (Val None, [fetch])).
Proof.
  intros Htopo Hnodes Hlive Hdesired. cbv zeta.
  set (name := RecDatabaseName dbRecord) in *.
  set (h1 := h ++ [Call (ExecuteCommand name GetDatabaseTopologyCommand)]).
  remember (excess ToUpper (map ClusterTag nodes) (Members topology)) as rm eqn:Erm.
  remember (missing ToUpper (map ClusterTag nodes) (Members topology)) as add eqn:Eadd.
  (* the two steps of the fallback after the topology fetch *)
  pose (removal := fun rm : list string =>
          match rm with
          | [] => ret None
          | _ :: _ =>
              d <- executeWithRetries env (DeleteDatabasesOperation [name] true rm) ;;
              ret (reply_err d)
          end : M (option GoError)).
  pose (after := fun (add : list string) (err : option GoError) =>
          match err with
          | Some e => ret (Some e)
          | None => addDatabaseNode env name add
          end).
  assert (modifyDatabase env ToUpper dbRecord h =
          (fst (bind (removal rm) (after add) h1),
           Call (ExecuteCommand name GetDatabaseTopologyCommand)
             :: snd (bind (removal rm) (after add) h1))) as Hrun.
  { unfold modifyDatabase. unfold bind at 1. unfold call at 1. fold name.
    rewrite Hnodes, Htopo, (modifyDatabase_loop_delta ToUpper nodes [] _ Hlive Hdesired).
    simpl app. rewrite <- Erm, <- Eadd. fold h1.
    change (bind _ _ h1) with (bind (removal rm) (after add) h1).
    by destruct (bind (removal rm) (after add) h1). }
  clearbody h1.
  split; [|split].
  - exists (trace (removal rm) h1).
    exists (match result (removal rm) h1 with
            | Val a => trace (after add a) (h1 ++ trace (removal rm) h1)
            | Panic _ => []
            end).
    split; [|split; [|split; [|split]]].
    + unfold trace at 1. rewrite Hrun. simpl. f_equal.
      change (snd (bind (removal rm) (after add) h1))
        with (trace (bind (removal rm) (after add)) h1).
      apply trace_bind.
    + assert (emits (fun e => e = Sleep 5 \/
                e = Call (ServerSend (DeleteDatabasesOperation [name] true rm))) (removal rm)) as He.
      { unfold removal. destruct rm; [apply emits_ret|].
        apply emits_bind; [apply executeWithRetries_emits|intros; apply emits_ret]. }
      apply He.
    + intros ->. reflexivity.
    + destruct (result (removal rm) h1) as [[e|]|msg]; unfold after.
      * apply Forall_nil_2.
      * apply addDatabaseNode_emits.
      * apply Forall_nil_2.
    + intros ->. by destruct (result (removal rm) h1) as [[e|]|msg].
  - intros Hok. rewrite Hrun.
    assert (removal rm h1 =
            (Val None, match rm with
                       | [] => []
                       | _ :: _ => [Call (ServerSend (DeleteDatabasesOperation [name] true rm))]
                       end)) as Hrem.
    { unfold removal. destruct rm as [|t rm']; [reflexivity|].
      rewrite (bind_val _ _ _ _ _ (executeWithRetries_success env _ h1 (Hok _ _))).
      by rewrite Hok. }
    rewrite (bind_val _ _ _ _ _ Hrem). unfold after.
    by rewrite addDatabaseNode_success.
  - intros Hsub Hsup.
    pose proof (excess_nil ToUpper _ _ Hsub) as E1. rewrite <- Erm in E1.
    pose proof (missing_nil ToUpper _ _ Hsup) as E2. rewrite <- Eadd in E2.
    rewrite Hrun, E1, E2. reflexivity.
Qed.

(** Live members A, B, C and desired members B, C, D: one hard delete from
    node A, then one add for node D. *)
Lemma modifyDatabase_member_delta_witness :
  modifyDatabase (converging ["A"; "B"; "C"]) GoStrings.ToUpper
                 (recordWithMembers "db" ["B"; "C"; "D"]) [] =
  (Val None,
   [Call (ExecuteCommand "db" GetDatabaseTopologyCommand);
    Call (ServerSend (DeleteDatabasesOperation ["db"] true ["A"]));
    Call (ServerSend (OperationAddDatabaseNode "db" "D"))]).
Proof.
  refine (proj1 (proj2 (modifyDatabase_member_delta
            (converging ["A"; "B"; "C"]) GoStrings.ToUpper
            (recordWithMembers "db" ["B"; "C"; "D"])
            (mkDatabaseTopology ["B"; "C"; "D"] 3 false)
            (map (fun t => mkServerNode t "") ["A"; "B"; "C"]) []
            eq_refl eq_refl _ _)) _).
  - apply (bool_decide_unpack _). vm_compute. exact I.
  - apply (bool_decide_unpack _). vm_compute. exact I.
  - intros h' op. reflexivity.
Defined.

(** ** C4 and C5: the order of a reconciliation run *)

Lemma phases_nil classes : phases classes [].
Proof.
  induction classes as [|P rest IH]; simpl; [reflexivity|].
  exists [], []. repeat split; [constructor|exact IH].
Qed.

(** A stage followed by [if err != nil { return }] and the later stages. *)
Lemma phases_stage {A} (P : Event -> bool) rest (m : M A) (f : A -> option GoError)
    (k : A -> M (string * option GoError)) :
  emits (fun e => P e = true) m ->
  (forall a h, phases rest (trace (k a) h)) ->
  forall h, phases (P :: rest) (trace (bind m (fun a => orReturn (f a) (k a))) h).
Proof.
  intros Hm Hk h. rewrite trace_bind. simpl. eexists _, _. split; [reflexivity|].
  split; [apply Hm|].
  destruct (result m h) as [a|msg]; [|apply phases_nil].
  unfold orReturn. destruct (f a); [apply phases_nil|apply Hk].
Qed.

(** The same when the later stages begin in the class of this one. *)
Lemma phases_stage_same {A} (P : Event -> bool) rest (m : M A) (f : A -> option GoError)
    (k : A -> M (string * option GoError)) :
  emits (fun e => P e = true) m ->
  (forall a h, phases (P :: rest) (trace (k a) h)) ->
  forall h, phases (P :: rest) (trace (bind m (fun a => orReturn (f a) (k a))) h).
Proof.
  intros Hm Hk h. rewrite trace_bind.
  assert (phases (P :: rest)
            match result m h with
            | Val a => trace (orReturn (f a) (k a)) (h ++ trace m h)
            | Panic _ => []
            end) as (t1 & t2 & -> & H1 & H2).
  { destruct (result m h) as [a|msg]; [|apply (phases_nil (P :: rest))].
    unfold orReturn. destruct (f a); [apply (phases_nil (P :: rest))|apply Hk]. }
  simpl. exists (trace m h ++ t1), t2. split; [by rewrite app_assoc|].
  split; [|exact H2]. apply Forall_app. split; [apply Hm|exact H1].
Qed.

Section DeployFacts.

Variable env : Env.
Variable ToUpper : string -> string.
Variable TrimSpace : string -> string.

(** The retry loop sends its operation and sleeps, whatever class that is. *)
Lemma executeWithRetries_emits_class (P : Event -> Prop) op :
  P (Sleep 5) -> P (Call (ServerSend op)) ->
  emits P (executeWithRetries env op).
Proof.
  intros Hs Hc. eapply emits_weaken; [|apply executeWithRetries_emits].
  by intros e [->| ->].
Qed.

Lemma getClusterTopology_emits (P : Event -> Prop) :
  P (Sleep 5) -> P (Call (ServerSend OperationGetClusterTopology)) ->
  emits P (getClusterTopology env).
Proof.
  intros Hs Hc. unfold getClusterTopology. apply emits_bind.
  - by apply executeWithRetries_emits_class.
  - intros r. destruct (reply_err r); apply emits_ret.
Qed.

Lemma createDatabase_emits (P : Event -> Prop) sc dbRecord repFactor :
  P (Sleep 5) -> P (Call (ServerSend OperationGetClusterTopology)) ->
  P (Call (ServerSend (CreateDatabaseOperation dbRecord repFactor))) ->
  emits P (createDatabase env sc dbRecord repFactor).
Proof.
  intros Hs Ht Hc. unfold createDatabase. apply emits_bind.
  - induction NUMBER_OF_RETRIES as [|n IH]; simpl; [apply emits_ret|].
    apply emits_bind; [by apply getClusterTopology_emits|].
    intros r. repeat emits_step; auto.
  - intros w. destruct w; [apply emits_ret|].
    apply emits_bind; [by apply executeWithRetries_emits_class|].
    intros r. repeat emits_step.
Qed.

Lemma getDatabaseHealthCheck_emits (P : Event -> Prop) :
  P (Sleep 5) -> P (Call (MaintenanceSend OperationDatabaseHealthCheck)) ->
  emits P (getDatabaseHealthCheck env).
Proof.
  intros Hs Hc. unfold getDatabaseHealthCheck, executeWithRetriesMaintenanceOperations.
  generalize (@None GoError).
  induction NUMBER_OF_RETRIES as [|n IH]; intros err; simpl; [apply emits_ret|].
  repeat emits_step; auto.
Qed.

(** The probe always returns: no step of it can panic. *)
Lemma getDatabaseHealthCheck_returns h :
  exists err t, getDatabaseHealthCheck env h = (Val err, t).
Proof.
  unfold getDatabaseHealthCheck, executeWithRetriesMaintenanceOperations.
  generalize (@None GoError). revert h.
  induction NUMBER_OF_RETRIES as [|n IH]; intros h err; simpl; [by eexists _, _|].
  unfold bind at 1. unfold call at 1.
  destruct (reply_err (env h _)) as [e|]; [|by eexists _, _].
  unfold bind, sleep.
  destruct (IH ((h ++ [Call (MaintenanceSend OperationDatabaseHealthCheck)]) ++ [Sleep 5]) (Some e))
    as (err' & t & ->).
  by eexists _, _.
Qed.

Lemma Deploy_healthcheck_emits sc :
  emits (fun e => healthcheck_event e = true) (Deploy_healthcheck env sc).
Proof.
  unfold Deploy_healthcheck. apply emits_bind; [by apply getDatabaseHealthCheck_emits|].
  intros err. destruct (errors_As err DatabaseDoesNotExistError); [|apply emits_ret].
  by apply createDatabase_emits.
Qed.

Lemma deleteDatabases_emits sc :
  emits (fun e => declared_database_delete e = true) (deleteDatabases env sc).
Proof.
  unfold deleteDatabases. induction (DatabasesToDelete sc) as [|db rest IH]; simpl;
    [apply emits_ret|].
  unfold deleteDatabase. repeat emits_step; auto.
Qed.

Lemma modifyDatabase_emits dbRecord :
  emits (fun e => database_phase_event e = true) (modifyDatabase env ToUpper dbRecord).
Proof.
  unfold modifyDatabase. apply emits_bind; [by apply emits_call|].
  intros r. destruct (reply_nodes r); [|apply emits_ret].
  destruct (RecTopology dbRecord); [|apply emits_panic].
  destruct (modifyDatabase_loop ToUpper l [] (Members d)) as [rm members].
  apply emits_bind.
  - destruct rm; [apply emits_ret|].
    apply emits_bind; [by apply executeWithRetries_emits_class|intros; apply emits_ret].
  - intros err. destruct err; [apply emits_ret|].
    eapply emits_weaken; [|apply addDatabaseNode_emits].
    by intros e [->|(n & _ & ->)].
Qed.

Lemma createDatabases_emits sc :
  emits (fun e => database_phase_event e = true) (createDatabases env ToUpper TrimSpace sc).
Proof.
  unfold createDatabases. apply emits_bind.
  - induction (Databases sc) as [|db rest IH]; simpl; [apply emits_ret|].
    destruct (hasKey TrimSpace db); [|exact IH].
    apply emits_bind.
    + unfold distributeSecretKey. apply emits_bind;
        [by apply executeWithRetries_emits_class|intros; apply emits_ret].
    + intros err. destruct err; [apply emits_ret|exact IH].
  - intros err. destruct err; [apply emits_ret|].
    induction (Databases sc) as [|db rest IH]; simpl; [apply emits_ret|].
    destruct (hasKey TrimSpace db).
    + apply emits_bind; [by apply createDatabase_emits|].
      intros err. destruct err as [e|]; [|apply emits_panic].
      destruct (GoStrings.Contains (err_msg e) "already exists!"); [|apply emits_ret].
      apply emits_bind; [apply modifyDatabase_emits|].
      intros err. destruct err; [apply emits_ret|exact IH].
    + apply emits_bind; [by apply createDatabase_emits|].
      intros err. destruct err as [e|]; [|apply emits_ret].
      destruct (GoStrings.Contains (err_msg e) "already exists!"); [|apply emits_ret].
      apply emits_bind; [apply modifyDatabase_emits|].
      intros err. destruct err; [apply emits_ret|exact IH].
Qed.

Lemma deleteIndexes_emits sc :
  emits (fun e => index_delete e = true) (deleteIndexes env sc).
Proof.
  unfold deleteIndexes. induction (IndexesToDelete_ sc) as [|i rest IH]; simpl;
    [apply emits_ret|].
  apply emits_bind.
  - induction (IndexesNames i) as [|n names IHn]; simpl; [apply emits_ret|].
    repeat emits_step; auto.
  - intros err. destruct err; [apply emits_ret|exact IH].
Qed.

Lemma createIndexes_emits sc :
  emits (fun e => index_create e = true) (createIndexes env sc).
Proof.
  unfold createIndexes. generalize NewIndexDefinition.
  induction (Databases sc) as [|db rest IH]; intros def; simpl; [apply emits_ret|].
  apply emits_bind.
  - revert def. induction (Indexes db) as [|idx idxs IHi]; intros def; simpl;
      [apply emits_ret|].
    repeat emits_step; auto.
  - intros [err def']. destruct err; [apply emits_ret|apply IH].
Qed.

(** The phases after the healthcheck never send the probe. *)
Lemma later_phases_emit_no_probe sc clusterTopology :
  emits (fun e => healthcheck_probe e = false)
        (err <- deleteDatabases env sc ;;
         orReturn err (
         err <- createDatabases env ToUpper TrimSpace sc ;;
         orReturn err (
         err <- deleteIndexes env sc ;;
         orReturn err (
         err <- createIndexes env sc ;;
         orReturn err (
         ret (reply_topologyID clusterTopology, None)))))).
Proof.
  assert (forall A (m : M A) (P : Event -> bool), emits (fun e => P e = true) m ->
            (forall e, P e = true -> healthcheck_probe e = false) ->
            emits (fun e => healthcheck_probe e = false) m) as Hno.
  { intros A m P Hm HP. eapply emits_weaken; [|exact Hm]. exact HP. }
  apply emits_bind.
  { apply (Hno _ _ _ (deleteDatabases_emits sc)). intros [[]|] He; try reflexivity; discriminate He. }
  intros e1. destruct e1; [apply emits_ret|]. apply emits_bind.
  { apply (Hno _ _ _ (createDatabases_emits sc)). intros [[]|] He; try reflexivity; discriminate He. }
  intros e2. destruct e2; [apply emits_ret|]. apply emits_bind.
  { apply (Hno _ _ _ (deleteIndexes_emits sc)). intros [[]|] He; try reflexivity; discriminate He. }
  intros e3. destruct e3; [apply emits_ret|]. apply emits_bind.
  { apply (Hno _ _ _ (createIndexes_emits sc)). intros [[]|] He; try reflexivity; discriminate He. }
  intros e4. destruct e4; apply emits_ret.
Qed.

(** The phases after the healthcheck, as segments of the trace. *)
Lemma reconcile_phases sc clusterTopology h :
  phases [healthcheck_event; declared_database_delete; database_phase_event;
          index_delete; index_create]
         (trace (Deploy_phases env ToUpper TrimSpace sc clusterTopology) h).
Proof.
  revert h. unfold Deploy_phases.
  apply (phases_stage healthcheck_event _ _ (fun a => a)); [apply Deploy_healthcheck_emits|].
  intros _.
  apply (phases_stage declared_database_delete _ _ (fun a => a)); [apply deleteDatabases_emits|].
  intros _.
  apply (phases_stage database_phase_event _ _ (fun a => a)); [apply createDatabases_emits|].
  intros _.
  apply (phases_stage index_delete _ _ (fun a => a)); [apply deleteIndexes_emits|].
  intros _.
  apply (phases_stage index_create _ _ (fun a => a)); [apply createIndexes_emits|].
  intros _ h. reflexivity.
Qed.

End DeployFacts.

(** Every event of a phased trace is in one of the classes, and of two
    events the earlier one is in a class that comes no later. *)
Lemma phases_sorted classes : forall t i j e1 e2,
  phases classes t ->
  (i <= j)%nat -> t !! i = Some e1 -> t !! j = Some e2 ->
  exists a b Pa Pb,
    (a <= b)%nat /\ classes !! a = Some Pa /\ classes !! b = Some Pb
    /\ Pa e1 = true /\ Pb e2 = true.
Proof.
  induction classes as [|P rest IH]; intros t i j e1 e2 Hph Hij Hi Hj; simpl in Hph.
  - subst t. discriminate Hi.
  - destruct Hph as (t1 & t2 & -> & H1 & H2). rewrite Forall_lookup in H1.
    destruct (decide (j < length t1)%nat) as [Hj1|Hj1].
    + rewrite (lookup_app_l t1 t2 i ltac:(lia)) in Hi.
      rewrite (lookup_app_l t1 t2 j Hj1) in Hj.
      exists 0%nat, 0%nat, P, P.
      split; [lia|]. split; [reflexivity|]. split; [reflexivity|].
      split; [exact (H1 _ _ Hi)|exact (H1 _ _ Hj)].
    + rewrite (lookup_app_r t1 t2 j ltac:(lia)) in Hj.
      destruct (decide (i < length t1)%nat) as [Hi1|Hi1].
      * rewrite (lookup_app_l t1 t2 i Hi1) in Hi.
        destruct (IH t2 _ _ e2 e2 H2 (Nat.le_refl _) Hj Hj)
          as (_ & b & _ & Pb & _ & _ & Hb & _ & HPb).
        exists 0%nat, (S b), P, Pb.
        split; [lia|]. split; [reflexivity|]. split; [exact Hb|].
        split; [exact (H1 _ _ Hi)|exact HPb].
      * rewrite (lookup_app_r t1 t2 i ltac:(lia)) in Hi.
        destruct (IH t2 (i - length t1)%nat (j - length t1)%nat e1 e2 H2 ltac:(lia) Hi Hj)
          as (a & b & Pa & Pb & Hab & Ha & Hb & HPa & HPb).
        exists (S a), (S b), Pa, Pb.
        split; [lia|]. split; [exact Ha|]. split; [exact Hb|]. split; [exact HPa|exact HPb].
Qed.

Ltac event_cases e :=
  destruct e as [[]|]; simpl in *; try discriminate;
  repeat match goal with
         | H : context [match ?x with _ => _ end] |- _ => destruct x; simpl in *; try discriminate
         | |- context [match ?x with _ => _ end] => destruct x; simpl in *; try discriminate
         end.

Lemma declared_database_delete_class e :
  declared_database_delete e = true ->
  prelude_event e = false /\ healthcheck_event e = false /\ database_phase_event e = false
  /\ index_delete e = false /\ index_create e = false.
Proof. intros H. event_cases e; auto. Qed.

Lemma declared_database_create_class e :
  declared_database_create e = true ->
  prelude_event e = false /\ healthcheck_event e = false /\ declared_database_delete e = false
  /\ index_delete e = false /\ index_create e = false.
Proof. intros H. event_cases e; auto. Qed.

Lemma index_delete_class e :
  index_delete e = true ->
  prelude_event e = false /\ healthcheck_event e = false /\ declared_database_delete e = false
  /\ database_phase_event e = false /\ index_create e = false.
Proof. intros H. event_cases e; auto. Qed.

Lemma index_create_class e :
  index_create e = true ->
  prelude_event e = false /\ healthcheck_event e = false /\ declared_database_delete e = false
  /\ database_phase_event e = false /\ index_delete e = false.
Proof. intros H. event_cases e; auto. Qed.

(** In a phased trace an event accepted only by a later class comes after
    an event accepted only by an earlier one. *)
Lemma phases_before classes t i j e1 e2 (ra rb : nat) :
  phases classes t ->
  t !! i = Some e1 -> t !! j = Some e2 ->
  (forall a Pa, classes !! a = Some Pa -> Pa e1 = true -> a = ra) ->
  (forall b Pb, classes !! b = Some Pb -> Pb e2 = true -> b = rb) ->
  (rb < ra)%nat -> (j < i)%nat.
Proof.
  intros Hph Hi Hj Ha Hb Hlt.
  destruct (decide (i <= j)%nat) as [Hij|Hij]; [exfalso|lia].
  destruct (phases_sorted classes t i j e1 e2 Hph Hij Hi Hj)
    as (a & b & Pa & Pb & Hab & Hca & Hcb & HPa & HPb).
  rewrite (Ha a Pa Hca HPa), (Hb b Pb Hcb HPb) in Hab. lia.
Qed.

Ltac class_index a :=
  do 6 (destruct a as [|a]; [simplify_eq/=; try reflexivity; try congruence|]);
  try discriminate.

Lemma declared_database_delete_rank e a Pa :
  declared_database_delete e = true ->
  deployClasses !! a = Some Pa -> Pa e = true -> a = 2%nat.
Proof.
  intros H Ha HPa. destruct (declared_database_delete_class e H) as (?&?&?&?&?).
  class_index a.
Qed.

Lemma declared_database_create_rank e a Pa :
  declared_database_create e = true ->
  deployClasses !! a = Some Pa -> Pa e = true -> a = 3%nat.
Proof.
  intros H Ha HPa. destruct (declared_database_create_class e H) as (?&?&?&?&?).
  class_index a.
Qed.

Lemma index_delete_rank e a Pa :
  index_delete e = true ->
  deployClasses !! a = Some Pa -> Pa e = true -> a = 4%nat.
Proof.
  intros H Ha HPa. destruct (index_delete_class e H) as (?&?&?&?&?).
  class_index a.
Qed.

Lemma index_create_rank e a Pa :
  index_create e = true ->
  deployClasses !! a = Some Pa -> Pa e = true -> a = 5%nat.
Proof.
  intros H Ha HPa. destruct (index_create_class e H) as (?&?&?&?&?).
  class_index a.
Qed.

(** C4, as stated, fails: with a declared database and an index to delete,
    the database is created before the index is deleted. *)
Lemma Deploy_creates_database_before_index_delete :
  ~ deletes_precede_creates
      (trace (Deploy (healthyCluster ["A"]) GoStrings.ToUpper GoStrings.TrimSpace
                     recreateConfig true) []).
Proof.
  assert (trace (Deploy (healthyCluster ["A"]) GoStrings.ToUpper GoStrings.TrimSpace
                        recreateConfig true) [] =
          [Call (GetStore newHolder);
           Call (ServerSend OperationGetClusterTopology);
           Call (MaintenanceSend OperationDatabaseHealthCheck);
           Call (ServerSend OperationGetClusterTopology);
           Call (ServerSend (CreateDatabaseOperation
                   (mkDatabaseRecord "orders" ∅ false
                      (Some (mkDatabaseTopology ["A"] 1 false))) 0));
           Call (ForDatabaseSend "orders" (DeleteIndexOperation "ByDate"))]) as ->
    by (vm_compute; reflexivity).
  intros H. specialize (H 4%nat 5%nat _ _ eq_refl eq_refl eq_refl eq_refl). lia.
Qed.

(** C4 (amended).  Every reconciliation run sends its calls in this order:
    the store set-up and the cluster topology query; the healthcheck (the
    probe, and the creation of the healthcheck database when it is missing);
    the deletes of all declared-to-delete databases; the database phase (key
    distribution, creation, modify fallback); the deletes of all
    declared-to-delete indexes; the index creations.  Each phase is over
    before the next begins: the delete of a declared database comes before
    every creation of a declared database and before every index call, the
    delete of an index comes before every index creation, and the creation
    of a declared database comes before every index delete. *)
Theorem Deploy_phase_order (env : Env) (ToUpper TrimSpace : string -> string)
    (sc : ServerConfig) (parallel : bool) (h : list Event) :
  let t := trace (Deploy env ToUpper TrimSpace sc parallel) h in
  phases deployClasses t
  /\ (forall i j e1 e2, t !! i = Some e1 -> t !! j = Some e2 ->
        declared_database_delete e2 = true ->
        declared_database_create e1 || index_delete e1 || index_create e1 = true ->
        (j < i)%nat)
  /\ (forall i j e1 e2, t !! i = Some e1 -> t !! j = Some e2 ->
        index_delete e2 = true -> index_create e1 = true -> (j < i)%nat)
  /\ (forall i j e1 e2, t !! i = Some e1 -> t !! j = Some e2 ->
        declared_database_create e1 = true -> index_delete e2 = true -> (i < j)%nat).
Proof.
  cbv zeta.
  assert (phases deployClasses (trace (Deploy env ToUpper TrimSpace sc parallel) h)) as Hph.
  { unfold Deploy, deployClasses.
    destruct (ClusterSetupZip sc !! CREDENTIALS_FOR_SECURE_STORE_FIELD_NAME) as [holder|];
      [|apply phases_nil].
    revert h.
    apply (phases_stage_same prelude_event _ _ reply_err); [by apply emits_call|].
    intros _.
    apply (phases_stage prelude_event _ _ reply_err); [by apply getClusterTopology_emits|].
    intros clusterTopology h. apply reconcile_phases. }
  split; [exact Hph|]. split; [|split].
  - intros i j e1 e2 Hi Hj Hdel Hlater.
    apply orb_true_iff in Hlater as [Hlater|Hcreate].
    + apply orb_true_iff in Hlater as [Hcreate|Hidel].
      * eapply (phases_before deployClasses _ i j e1 e2 3 2 Hph Hi Hj); [| |lia].
        -- intros a Pa. by apply declared_database_create_rank.
        -- intros b Pb. by apply declared_database_delete_rank.
      * eapply (phases_before deployClasses _ i j e1 e2 4 2 Hph Hi Hj); [| |lia].
        -- intros a Pa. by apply index_delete_rank.
        -- intros b Pb. by apply declared_database_delete_rank.
    + eapply (phases_before deployClasses _ i j e1 e2 5 2 Hph Hi Hj); [| |lia].
      * intros a Pa. by apply index_create_rank.
      * intros b Pb. by apply declared_database_delete_rank.
  - intros i j e1 e2 Hi Hj Hdel Hcreate.
    eapply (phases_before deployClasses _ i j e1 e2 5 4 Hph Hi Hj); [| |lia].
    + intros a Pa. by apply index_create_rank.
    + intros b Pb. by apply index_delete_rank.
  - intros i j e1 e2 Hi Hj Hcreate Hdel.
    eapply (phases_before deployClasses _ j i e2 e1 4 3 Hph Hj Hi); [| |lia].
    + intros a Pa. by apply index_delete_rank.
    + intros b Pb. by apply declared_database_create_rank.
Qed.

(** C5, as stated, fails: when the probe reports the healthcheck database
    missing, the database is created and the run goes on to the delete
    phases; the probe is never sent again after the creation. *)
Lemma Deploy_does_not_probe_again :
  ~ probe_retried_after_creation
      (trace (Deploy (missingHealthcheckDatabase ["A"]) GoStrings.ToUpper GoStrings.TrimSpace
                     (oneNodeConfig [] []) true) []).
Proof.
  assert (trace (Deploy (missingHealthcheckDatabase ["A"]) GoStrings.ToUpper GoStrings.TrimSpace
                        (oneNodeConfig [] []) true) [] =
          Call (GetStore newHolder)
          :: Call (ServerSend OperationGetClusterTopology)
          :: attempts (MaintenanceSend OperationDatabaseHealthCheck) 5 5
          ++ [Call (ServerSend OperationGetClusterTopology);
              Call (ServerSend (CreateDatabaseOperation
                      (mkDatabaseRecord "healthcheck" ∅ false None) 1))]) as ->
    by (vm_compute; reflexivity).
  intros (i & j & e1 & e2 & Hi & Hj & Hlt & Hcreate & Hprobe).
  apply lookup_lt_Some in Hj. simpl in Hj.
  do 14 (destruct i as [|i]; [simpl in Hi; injection Hi as <-; try discriminate Hcreate; lia|]).
  apply lookup_lt_Some in Hi. simpl in Hi. lia.
Qed.

Section HealthcheckFacts.

Variable env : Env.

(** A run of [executeWithRetries]: the attempts that met a missing leader,
    the one that decides, and the delay after it when the retries are used up. *)
Lemma executeWithRetries_loop_run op : forall n last h,
  (0 < n)%nat ->
  exists k,
    (k < n)%nat
    /\ executeWithRetries_loop env n op last h =
       (Val (nth_reply env h (ServerSend op) 5 k),
        attempts (ServerSend op) 5 k
          ++ Call (ServerSend op)
             :: (if no_leader (nth_reply env h (ServerSend op) 5 k) then [Sleep 5] else []))
    /\ (forall i, (i < k)%nat -> no_leader (nth_reply env h (ServerSend op) 5 i) = true)
    /\ (no_leader (nth_reply env h (ServerSend op) 5 k) = true -> S k = n).
Proof.
  induction n as [|n IH]; intros last h Hn; [lia|].
  assert (H0 : nth_reply env h (ServerSend op) 5 0 = env h (ServerSend op)).
  { unfold nth_reply. simpl. by rewrite app_nil_r. }
  destruct (errors_As (reply_err (env h (ServerSend op))) NoLeaderError) eqn:Hnl.
  - rewrite (executeWithRetries_loop_retry env n op last h Hnl).
    destruct n as [|n].
    + exists 0%nat. split; [lia|]. rewrite H0. unfold no_leader. rewrite Hnl.
      split; [reflexivity|]. split; [intros i Hi; lia|done].
    + destruct (IH (env h (ServerSend op)) (h ++ [Call (ServerSend op); Sleep 5])
                  ltac:(lia)) as (k & Hk & Hrun & Hfirst & Hlast).
      assert (Hshift : forall i, nth_reply env (h ++ [Call (ServerSend op); Sleep 5])
                                   (ServerSend op) 5 i
                                 = nth_reply env h (ServerSend op) 5 (S i)).
      { intros i. unfold nth_reply. by rewrite attempts_snoc. }
      exists (S k). split; [lia|]. rewrite Hrun, <- Hshift. split; [reflexivity|].
      split.
      * intros [|i] Hi; [rewrite H0; exact Hnl|]. rewrite <- Hshift. apply Hfirst. lia.
      * intros Hl. specialize (Hlast Hl). lia.
  - rewrite (executeWithRetries_loop_stop env n op last h Hnl).
    exists 0%nat. split; [lia|]. rewrite H0. unfold no_leader. rewrite Hnl.
    split; [reflexivity|]. split; [intros i Hi; lia|discriminate].
Qed.

Lemma attempts_alphabet r k :
  Forall (fun e => e = Sleep 5 \/ e = Call r) (attempts r 5 k).
Proof.
  induction k as [|k IH]; simpl; [constructor|].
  constructor; [by right|]. constructor; [by left|exact IH].
Qed.

(** A topology query, with its retries. *)
Lemma getClusterTopology_run h :
  exists k,
    (k < NUMBER_OF_RETRIES)%nat
    /\ getClusterTopology env h =
       (Val (match reply_err (nth_reply env h topologyQuery 5 k) with
             | Some e => errReply e
             | None => nth_reply env h topologyQuery 5 k
             end),
        attempts topologyQuery 5 k
          ++ Call topologyQuery
             :: (if no_leader (nth_reply env h topologyQuery 5 k) then [Sleep 5] else [])).
Proof.
  destruct (executeWithRetries_loop_run OperationGetClusterTopology NUMBER_OF_RETRIES
              okReply h ltac:(unfold NUMBER_OF_RETRIES; lia)) as (k & Hk & Hrun & _ & _).
  exists k. split; [exact Hk|].
  unfold getClusterTopology, executeWithRetries. rewrite (bind_val _ _ h _ _ Hrun).
  fold topologyQuery.
  destruct (reply_err (nth_reply env h topologyQuery 5 k)); cbn; by rewrite app_nil_r.
Qed.

(** The wait of [createDatabase] sends topology queries and sleeps, and
    the error it reports is the answer to one of its queries. *)
Lemma createDatabase_wait_run sc : forall n h,
  exists w t,
    createDatabase_wait env sc n h = (Val w, t)
    /\ Forall (fun e => e = Sleep 5 \/ e = Call topologyQuery) t
    /\ forall e, w = Some e ->
         exists t0 t1, t = t0 ++ Call topologyQuery :: t1
                       /\ reply_err (env (h ++ t0) topologyQuery) = Some e.
Proof.
  induction n as [|n IH]; intros h.
  { exists None, []. split; [reflexivity|]. split; [constructor|done]. }
  cbn [createDatabase_wait].
  destruct (getClusterTopology_run h) as (k & _ & Hrun).
  set (r := nth_reply env h topologyQuery 5 k) in *.
  set (tq := attempts topologyQuery 5 k
               ++ Call topologyQuery :: (if no_leader r then [Sleep 5] else [])) in *.
  assert (Htq : Forall (fun e => e = Sleep 5 \/ e = Call topologyQuery) tq).
  { unfold tq. apply Forall_app. split; [apply attempts_alphabet|].
    destruct (no_leader r);
      [constructor; [by right|constructor; [by left|constructor]]
      |constructor; [by right|constructor]]. }
  rewrite (bind_val _ _ h _ _ Hrun).
  destruct (reply_err r) as [e|] eqn:Herr.
  - cbn. rewrite !app_nil_r. exists (Some e), tq. split; [reflexivity|]. split; [exact Htq|].
    intros e' [= <-]. exists (attempts topologyQuery 5 k), (if no_leader r then [Sleep 5] else []).
    split; [reflexivity|exact Herr].
  - rewrite Herr.
    destruct (negb (length (reply_members r) =? length (UrlList (ScUrl sc)))%nat).
    + destruct (IH ((h ++ tq) ++ [Sleep 5])) as (w & t & Hw & Ht & He).
      rewrite (bind_val _ _ (h ++ tq) tt [Sleep 5] eq_refl), Hw.
      exists w, (tq ++ Sleep 5 :: t). split; [reflexivity|].
      split; [apply Forall_app; split; [exact Htq|constructor; [by left|exact Ht]]|].
      intros e Hwe. destruct (He e Hwe) as (t0 & t1 & -> & Hr).
      exists (tq ++ Sleep 5 :: t0), t1. split; [by rewrite <- app_assoc|].
      rewrite <- !app_assoc in Hr. exact Hr.
    + cbn. rewrite app_nil_r. exists None, tq. split; [reflexivity|]. split; [exact Htq|done].
Qed.

(** A run of [createDatabase]: the wait, then the attempts at the
    creation, unless a topology query of the wait failed. *)
Lemma createDatabase_run sc dbRecord repFactor h :
  let creation := ServerSend (CreateDatabaseOperation dbRecord repFactor) in
  exists twait tsend created,
    createDatabase env sc dbRecord repFactor h = (Val created, twait ++ tsend)
    /\ Forall (fun e => e = Sleep 5 \/ e = Call topologyQuery) twait
    /\ ((tsend = []
         /\ exists e t0 t1,
              twait = t0 ++ Call topologyQuery :: t1
              /\ reply_err (env (h ++ t0) topologyQuery) = Some e
              /\ created = Some e)
        \/ exists k,
             (k < NUMBER_OF_RETRIES)%nat
             /\ tsend = attempts creation 5 k
                          ++ Call creation
                             :: (if no_leader (nth_reply env (h ++ twait) creation 5 k)
                                 then [Sleep 5] else [])
             /\ (forall i, (i < k)%nat ->
                           no_leader (nth_reply env (h ++ twait) creation 5 i) = true)
             /\ (no_leader (nth_reply env (h ++ twait) creation 5 k) = true ->
                 S k = NUMBER_OF_RETRIES)
             /\ created =
                match reply_err (nth_reply env (h ++ twait) creation 5 k) with
                | Some e =>
                    if GoStrings.Contains (err_msg e) "already exists!" then Some e
                    else if bool_decide (err_type e = ConcurrencyError) then None
                    else Some e
                | None => None
                end).
Proof.
  cbv zeta. unfold createDatabase.
  destruct (createDatabase_wait_run sc NUMBER_OF_RETRIES h) as (w & twait & Hw & Ht & He).
  rewrite (bind_val _ _ h _ _ Hw).
  destruct w as [e|].
  - exists twait, [], (Some e). cbn. split; [reflexivity|]. split; [exact Ht|]. left.
    split; [reflexivity|]. destruct (He e eq_refl) as (t0 & t1 & Htw & Hr).
    by exists e, t0, t1.
  - destruct (executeWithRetries_loop_run (CreateDatabaseOperation dbRecord repFactor)
                NUMBER_OF_RETRIES okReply (h ++ twait) ltac:(unfold NUMBER_OF_RETRIES; lia))
      as (k & Hk & Hrun & Hfirst & Hlast).
    unfold executeWithRetries. rewrite (bind_val _ _ (h ++ twait) _ _ Hrun).
    set (answer := nth_reply env (h ++ twait) (ServerSend (CreateDatabaseOperation dbRecord
                                                              repFactor)) 5 k) in *.
    set (tsend := attempts _ 5 k ++ _) in *.
    exists twait, tsend,
      (match reply_err answer with
       | Some e =>
           if GoStrings.Contains (err_msg e) "already exists!" then Some e
           else if bool_decide (err_type e = ConcurrencyError) then None
           else Some e
       | None => None
       end).
    split.
    + destruct (reply_err answer) as [e|]; [|cbn; by rewrite app_nil_r].
      destruct (GoStrings.Contains (err_msg e) "already exists!"); [cbn; by rewrite app_nil_r|].
      destruct (bool_decide (err_type e = ConcurrencyError)); cbn; by rewrite app_nil_r.
    + split; [exact Ht|]. right. exists k. by repeat split.
Qed.

End HealthcheckFacts.

(** C5 (amended).  In the healthcheck phase, when the probe (after its own
    retries) ends with a database-does-not-exist error, the reconciler runs
    the creation of the healthcheck database.  After the wait for the
    cluster, made of topology queries and sleeps, it sends the request that
    creates that database unencrypted and with replication factor equal to
    the number of hosts, and sends it again while the answer is a missing
    leader, five times at most; only the error of a topology query of the
    wait ends the run before the request is sent.  When the creation ends
    with an error the run stops there with it.  Otherwise (no error, or a
    concurrency error that does not say that the database exists) the run
    goes on at once with the later phases, the deletion of databases, the
    creation of databases, the deletion of indexes and the creation of
    indexes, whose outcome is the outcome of the run, and the probe is not
    sent again.  When the probe ends with any other error the run stops
    there with that error. *)
Theorem Deploy_healthcheck_then_create (env : Env) (ToUpper TrimSpace : string -> string)
    (sc : ServerConfig) (clusterTopology : Reply) (h : list Event)
    (err : option GoError) (tprobe : list Event) :
  getDatabaseHealthCheck env h = (Val err, tprobe) ->
  let creation := healthcheckCreation sc in
  let later := Deploy_later_phases env ToUpper TrimSpace sc clusterTopology in
  (errors_As err DatabaseDoesNotExistError = true ->
   exists (twait tsend : list Event) (created : option GoError),
     Forall (fun e => e = Sleep 5 \/ e = Call topologyQuery) twait
     /\ ((tsend = []
          /\ exists e t0 t1,
               twait = t0 ++ Call topologyQuery :: t1
               /\ reply_err (env ((h ++ tprobe) ++ t0) topologyQuery) = Some e
               /\ created = Some e)
         \/ exists k,
              (k < NUMBER_OF_RETRIES)%nat
              /\ tsend = attempts creation 5 k
                           ++ Call creation
                              :: (if no_leader (nth_reply env ((h ++ tprobe) ++ twait)
                                                  creation 5 k)
                                  then [Sleep 5] else [])
              /\ (forall i, (i < k)%nat ->
                            no_leader (nth_reply env ((h ++ tprobe) ++ twait) creation 5 i)
                            = true)
              /\ (no_leader (nth_reply env ((h ++ tprobe) ++ twait) creation 5 k) = true ->
                  S k = NUMBER_OF_RETRIES)
              /\ created =
                 match reply_err (nth_reply env ((h ++ tprobe) ++ twait) creation 5 k) with
                 | Some e =>
                     if GoStrings.Contains (err_msg e) "already exists!" then Some e
                     else if bool_decide (err_type e = ConcurrencyError) then None
                     else Some e
                 | None => None
                 end)
     /\ Deploy_phases env ToUpper TrimSpace sc clusterTopology h =
        match created with
        | Some e => (Val (EmptyString, Some e), tprobe ++ twait ++ tsend)
        | None =>
            (result later (((h ++ tprobe) ++ twait) ++ tsend),
             tprobe ++ twait ++ tsend ++ trace later (((h ++ tprobe) ++ twait) ++ tsend))
        end
     /\ Forall (fun e => healthcheck_probe e = false)
               (trace later (((h ++ tprobe) ++ twait) ++ tsend)))
  /\ (forall e, err = Some e -> errors_As err DatabaseDoesNotExistError = false ->
      Deploy_phases env ToUpper TrimSpace sc clusterTopology h
      = (Val (EmptyString, Some e), tprobe)).
Proof.
  intros Hprobe. cbv zeta. split.
  - intros Hmissing.
    destruct (createDatabase_run env sc (healthcheckRecord sc) (Z.of_nat (length (Hosts sc)))
                (h ++ tprobe)) as (twait & tsend & created & Hrun & Hwait & Hsend).
    exists twait, tsend, created. split; [exact Hwait|]. split; [exact Hsend|].
    assert (Deploy_healthcheck env sc h = (Val created, tprobe ++ twait ++ tsend)) as Hhc.
    { unfold Deploy_healthcheck. rewrite (bind_val _ _ _ _ _ Hprobe). by rewrite Hmissing, Hrun. }
    split.
    + unfold Deploy_phases. rewrite (bind_val _ _ _ _ _ Hhc).
      destruct created as [e|]; cbn [orReturn].
      * cbn. by rewrite !app_nil_r.
      * unfold result, trace, Deploy_later_phases. rewrite !app_assoc. reflexivity.
    + unfold Deploy_later_phases. apply later_phases_emit_no_probe.
  - intros e -> Hother. unfold Deploy_phases.
    assert (Deploy_healthcheck env sc h = (Val (Some e), tprobe)) as Hhc.
    { unfold Deploy_healthcheck. rewrite (bind_val _ _ _ _ _ Hprobe). rewrite Hother.
      simpl. by rewrite app_nil_r. }
    rewrite (bind_val _ _ _ _ _ Hhc). simpl. by rewrite app_nil_r.
Qed.

(** The probe reports the healthcheck database missing on a one-host
    cluster whose configuration declares a database and an index to
    delete. *)
Lemma Deploy_healthcheck_then_create_witness :
  getDatabaseHealthCheck missingOnOneNode [] = (Val (Some databaseMissing), fiveProbes)
  /\ exists (twait tsend : list Event) (created : option GoError),
       Forall (fun e => e = Sleep 5 \/ e = Call topologyQuery) twait
       /\ ((tsend = []
            /\ exists e t0 t1,
                 twait = t0 ++ Call topologyQuery :: t1
                 /\ reply_err (missingOnOneNode (fiveProbes ++ t0) topologyQuery) = Some e
                 /\ created = Some e)
           \/ exists k,
                (k < NUMBER_OF_RETRIES)%nat
                /\ tsend = attempts (healthcheckCreation recreateConfig) 5 k
                             ++ Call (healthcheckCreation recreateConfig)
                                :: (if no_leader (nth_reply missingOnOneNode
                                                    (fiveProbes ++ twait)
                                                    (healthcheckCreation recreateConfig) 5 k)
                                    then [Sleep 5] else [])
                /\ (forall i, (i < k)%nat ->
                              no_leader (nth_reply missingOnOneNode (fiveProbes ++ twait)
                                           (healthcheckCreation recreateConfig) 5 i)
                              = true)
                /\ (no_leader (nth_reply missingOnOneNode (fiveProbes ++ twait)
                                 (healthcheckCreation recreateConfig) 5 k) = true ->
                    S k = NUMBER_OF_RETRIES)
                /\ created =
                   match reply_err (nth_reply missingOnOneNode (fiveProbes ++ twait)
                                      (healthcheckCreation recreateConfig) 5 k) with
                   | Some e =>
                       if GoStrings.Contains (err_msg e) "already exists!" then Some e
                       else if bool_decide (err_type e = ConcurrencyError) then None
                       else Some e
                   | None => None
                   end)
       /\ Deploy_phases missingOnOneNode GoStrings.ToUpper GoStrings.TrimSpace
                        recreateConfig okReply [] =
          match created with
          | Some e => (Val (EmptyString, Some e), fiveProbes ++ twait ++ tsend)
          | None =>
              (result (Deploy_later_phases missingOnOneNode GoStrings.ToUpper
                         GoStrings.TrimSpace recreateConfig okReply)
                      ((fiveProbes ++ twait) ++ tsend),
               fiveProbes ++ twait ++ tsend
                 ++ trace (Deploy_later_phases missingOnOneNode GoStrings.ToUpper
                             GoStrings.TrimSpace recreateConfig okReply)
                          ((fiveProbes ++ twait) ++ tsend))
          end
       /\ Forall (fun e => healthcheck_probe e = false)
                 (trace (Deploy_later_phases missingOnOneNode GoStrings.ToUpper
                           GoStrings.TrimSpace recreateConfig okReply)
                        ((fiveProbes ++ twait) ++ tsend)).
Proof.
  split; [reflexivity|].
  exact (proj1 (Deploy_healthcheck_then_create
                  missingOnOneNode GoStrings.ToUpper GoStrings.TrimSpace
                  recreateConfig okReply [] (Some databaseMissing) fiveProbes
                  eq_refl) eq_refl).
Defined.

(** That run, event by event: the five probes, the creation of the
    healthcheck database, then the later phases. *)
Example Deploy_phases_missing_healthcheck :
  Deploy_phases missingOnOneNode GoStrings.ToUpper GoStrings.TrimSpace
                recreateConfig okReply []
  = (Val (EmptyString, None),
     fiveProbes
       ++ [Call topologyQuery;
           Call (healthcheckCreation recreateConfig);
           Call topologyQuery;
           Call (ServerSend (CreateDatabaseOperation
                   (mkDatabaseRecord "orders" ∅ false
                      (Some (mkDatabaseTopology ["A"] 1 false))) 0));
           Call (ForDatabaseSend "orders" (DeleteIndexOperation "ByDate"))]).
Proof. vm_compute. reflexivity. Qed.

(** ** C7: connecting to the remote shell *)

Section ConnectFacts.

Variable env : Env.

Lemma ConnectToRemoteWithRetry_loop_fail hostAndPort n i conn h e :
  reply_err (env h (SshDial hostAndPort)) = Some e ->
  (i < NUMBER_OF_RETRIES)%nat ->
  ConnectToRemoteWithRetry_loop env hostAndPort (S n) i conn h =
  (fst (ConnectToRemoteWithRetry_loop env hostAndPort n (S i) None
          (h ++ [Call (SshDial hostAndPort); Sleep 2])),
   Call (SshDial hostAndPort) :: Sleep 2 ::
     snd (ConnectToRemoteWithRetry_loop env hostAndPort n (S i) None
            (h ++ [Call (SshDial hostAndPort); Sleep 2]))).
Proof.
  intros He Hi. simpl. unfold bind at 1. unfold call at 1. rewrite He.
  apply Nat.ltb_lt in Hi. rewrite Hi. unfold bind, sleep. simpl.
  rewrite <- app_assoc. simpl.
  by destruct (ConnectToRemoteWithRetry_loop env hostAndPort n (S i) None _).
Qed.

Lemma ConnectToRemoteWithRetry_loop_last hostAndPort n i conn h e :
  reply_err (env h (SshDial hostAndPort)) = Some e ->
  (NUMBER_OF_RETRIES <= i)%nat ->
  ConnectToRemoteWithRetry_loop env hostAndPort (S n) i conn h =
  (Val (None, Some (errors_New ("Unable to SSH to " +:+ hostAndPort
                                +:+ " because " +:+ err_msg e))),
   [Call (SshDial hostAndPort)]).
Proof.
  intros He Hi. simpl. unfold bind, call. simpl. rewrite He.
  apply Nat.ltb_ge in Hi. by rewrite Hi.
Qed.

Lemma ConnectToRemoteWithRetry_loop_ok hostAndPort n i conn h :
  reply_err (env h (SshDial hostAndPort)) = None ->
  ConnectToRemoteWithRetry_loop env hostAndPort (S n) i conn h =
  (Val (Some (mkSshClient hostAndPort), None), [Call (SshDial hostAndPort)]).
Proof. intros He. simpl. unfold bind, call. simpl. by rewrite He. Qed.

(** The run of the loop after [k] failed dials, while the counter allows a
    sleep after each of them. *)
Lemma ConnectToRemoteWithRetry_loop_after hostAndPort k : forall n i conn h,
  (k <= n)%nat -> (i + k <= NUMBER_OF_RETRIES)%nat ->
  (forall j, (j < k)%nat ->
     reply_err (nth_reply env h (SshDial hostAndPort) 2 j) <> None) ->
  ConnectToRemoteWithRetry_loop env hostAndPort n i conn h =
  (fst (ConnectToRemoteWithRetry_loop env hostAndPort (n - k) (i + k)
          (match k with O => conn | S _ => None end)
          (h ++ attempts (SshDial hostAndPort) 2 k)),
   attempts (SshDial hostAndPort) 2 k ++
     snd (ConnectToRemoteWithRetry_loop env hostAndPort (n - k) (i + k)
            (match k with O => conn | S _ => None end)
            (h ++ attempts (SshDial hostAndPort) 2 k))).
Proof.
  unfold nth_reply.
  induction k as [|k IH]; intros n i conn h Hn Hi Hfail.
  - simpl. rewrite Nat.sub_0_r, Nat.add_0_r, app_nil_r.
    by destruct (ConnectToRemoteWithRetry_loop env hostAndPort n i conn h).
  - destruct n as [|n]; [lia|].
    pose proof (Hfail 0%nat ltac:(lia)) as H0. simpl in H0. rewrite app_nil_r in H0.
    destruct (reply_err (env h (SshDial hostAndPort))) as [e|] eqn:He; [|done].
    rewrite (ConnectToRemoteWithRetry_loop_fail hostAndPort n i conn h e He ltac:(lia)).
    rewrite (IH n (S i) None (h ++ [Call (SshDial hostAndPort); Sleep 2])); [|lia|lia|].
    + rewrite attempts_snoc. replace (S i + k)%nat with (i + S k)%nat by lia.
      simpl. by destruct k.
    + intros j Hj. rewrite attempts_snoc. apply Hfail. lia.
Qed.

(** The loop dials once per iteration at most. *)
Lemma ConnectToRemoteWithRetry_loop_dials hostAndPort n : forall i conn h,
  (dial_count (trace (ConnectToRemoteWithRetry_loop env hostAndPort n i conn) h) <= n)%nat.
Proof.
  unfold dial_count, trace.
  induction n as [|n IH]; intros i conn h; [simpl; lia|].
  simpl. unfold bind at 1. unfold call at 1.
  destruct (reply_err (env h (SshDial hostAndPort))) as [e|]; [|simpl; lia].
  destruct (i <? NUMBER_OF_RETRIES)%nat; [|simpl; lia].
  unfold bind, sleep.
  specialize (IH (S i) None ((h ++ [Call (SshDial hostAndPort)]) ++ [Sleep 2])).
  destruct (ConnectToRemoteWithRetry_loop env hostAndPort n (S i) None _) as [r t].
  simpl in *. lia.
Qed.

End ConnectFacts.

(** C7, as stated, fails: after five failed dials the sixth is still made
    (and here succeeds). *)
Lemma ConnectToRemoteWithRetry_dials_six_times :
  ~ (dial_count (trace (ConnectToRemoteWithRetry (failing_first 5 otherErr)
                          (oneNodeConfig [] []) "10.0.0.1" None) []) <= 5)%nat.
Proof.
  assert (dial_count (trace (ConnectToRemoteWithRetry (failing_first 5 otherErr)
                               (oneNodeConfig [] []) "10.0.0.1" None) []) = 6%nat) as ->
    by (vm_compute; reflexivity).
  lia.
Qed.

(** C7 (amended).  Connecting to the remote shell makes at most 6 dial
    attempts (the first and up to [NUMBER_OF_RETRIES] = 5 more), sleeping 2
    seconds after each of the first five that fail.  If an attempt succeeds
    the connection is returned with no error; if all six fail, the error
    returned says Unable to SSH to, the host and port, and the cause, so a
    caller that looks for that marker finds it. *)
Theorem ConnectToRemoteWithRetry_budget (env : Env) (sc : ServerConfig) (publicIP : string)
    (conn : option SshClient) (h : list Event) :
  let hostAndPort := GoStrings.JoinHostPort publicIP (GoStrings.Itoa (getPort (ScSSH sc))) in
  let dial := SshDial hostAndPort in
  (dial_count (trace (ConnectToRemoteWithRetry env sc publicIP conn) h) <= 6)%nat
  /\ (forall k, (k <= NUMBER_OF_RETRIES)%nat ->
        (forall j, (j < k)%nat -> reply_err (nth_reply env h dial 2 j) <> None) ->
        reply_err (nth_reply env h dial 2 k) = None ->
        ConnectToRemoteWithRetry env sc publicIP conn h =
        (Val (Some (mkSshClient hostAndPort), None), attempts dial 2 k ++ [Call dial]))
  /\ ((forall j, (j <= NUMBER_OF_RETRIES)%nat -> reply_err (nth_reply env h dial 2 j) <> None) ->
      exists e,
        reply_err (nth_reply env h dial 2 5) = Some e
        /\ ConnectToRemoteWithRetry env sc publicIP conn h =
           (Val (None, Some (errors_New ("Unable to SSH to " +:+ hostAndPort
                                         +:+ " because " +:+ err_msg e))),
            attempts dial 2 5 ++ [Call dial])
        /\ GoStrings.Contains
             (err_msg (errors_New ("Unable to SSH to " +:+ hostAndPort
                                   +:+ " because " +:+ err_msg e)))
             "Unable to SSH to" = true).
Proof.
  cbv zeta. unfold ConnectToRemoteWithRetry.
  set (hostAndPort := GoStrings.JoinHostPort publicIP (GoStrings.Itoa (getPort (ScSSH sc)))).
  split; [apply ConnectToRemoteWithRetry_loop_dials|]. split.
  - intros k Hk Hfail Hok. unfold NUMBER_OF_RETRIES in *.
    rewrite (ConnectToRemoteWithRetry_loop_after env hostAndPort k 6 0 conn h);
      [|lia|unfold NUMBER_OF_RETRIES; lia|exact Hfail].
    destruct (6 - k)%nat as [|m] eqn:Hm; [lia|].
    by rewrite ConnectToRemoteWithRetry_loop_ok.
  - intros Hfail. unfold NUMBER_OF_RETRIES in *.
    pose proof (Hfail 5%nat ltac:(lia)) as H5.
    destruct (reply_err (nth_reply env h (SshDial hostAndPort) 2 5)) as [e|] eqn:He; [|done].
    exists e. split; [reflexivity|]. split.
    + rewrite (ConnectToRemoteWithRetry_loop_after env hostAndPort 5 6 0 conn h);
        [|lia|unfold NUMBER_OF_RETRIES; lia|intros j Hj; apply Hfail; lia].
      change (6 - 5)%nat with 1%nat.
      by rewrite (ConnectToRemoteWithRetry_loop_last env hostAndPort 0 (0 + 5) None _ e He).
    + exact (GoStringsFacts.Contains_prefix "Unable to SSH to"
               (" " +:+ hostAndPort +:+ " because " +:+ err_msg e)).
Qed.

(** A host that refuses every dial: six dials, five sleeps, and an error
    that carries the marker. *)
Lemma ConnectToRemoteWithRetry_budget_witness :
  exists e,
    ConnectToRemoteWithRetry (always_failing otherErr) (oneNodeConfig [] []) "10.0.0.1" None [] =
    (Val (None, Some (errors_New ("Unable to SSH to 10.0.0.1:22 because " +:+ err_msg e))),
     attempts (SshDial "10.0.0.1:22") 2 5 ++ [Call (SshDial "10.0.0.1:22")])
    /\ GoStrings.Contains
         (err_msg (errors_New ("Unable to SSH to 10.0.0.1:22 because " +:+ err_msg e)))
         "Unable to SSH to" = true.
Proof.
  assert (forall j, (j <= NUMBER_OF_RETRIES)%nat ->
            reply_err (nth_reply (always_failing otherErr) [] (SshDial "10.0.0.1:22") 2 j) <> None)
    as Hrefused by (intros j _; discriminate).
  destruct (proj2 (proj2 (ConnectToRemoteWithRetry_budget
                            (always_failing otherErr) (oneNodeConfig [] []) "10.0.0.1" None []))
              Hrefused) as (e & _ & Hrun & Hmarker).
  exists e. split; [exact Hrun|exact Hmarker].
Defined.

(** ** C8: DNS verification *)

Section DnsFacts.

Variable IP : Type.
Variable IPString : IP -> string.

Lemma GetDnsLookup_loop_spec hostIp : forall ips isUpdatedDns ipsStringSlice,
  GetDnsLookup_loop IP IPString hostIp ips isUpdatedDns ipsStringSlice =
  (isUpdatedDns || existsb (fun ip => String.eqb hostIp (IPString ip)) ips,
   ipsStringSlice ++ map IPString ips).
Proof.
  induction ips as [|ip rest IH]; intros b acc; simpl.
  - by rewrite orb_false_r, app_nil_r.
  - rewrite IH, <- app_assoc. simpl.
    destruct (String.eqb hostIp (IPString ip)); [|reflexivity].
    by rewrite orb_true_r.
Qed.

Lemma existsb_resolved hostIp ips :
  existsb (fun ip => String.eqb hostIp (IPString ip)) ips = true <->
  In hostIp (map IPString ips).
Proof.
  rewrite existsb_exists, in_map_iff. split.
  - intros (ip & Hin & Heq). apply String.eqb_eq in Heq. eauto.
  - intros (ip & Heq & Hin). exists ip. split; [exact Hin|]. by apply String.eqb_eq.
Qed.

Lemma outdatedDnsMessage_expected host hostIp rows :
  GoStrings.Contains (outdatedDnsMessage host hostIp rows) hostIp = true.
Proof.
  unfold outdatedDnsMessage. do 5 apply GoStringsFacts.Contains_app_r.
  apply GoStringsFacts.Contains_prefix.
Qed.

Lemma outdatedDnsMessage_resolved host hostIp rows ip :
  In ip rows -> GoStrings.Contains (outdatedDnsMessage host hostIp rows) ip = true.
Proof.
  intros Hin. unfold outdatedDnsMessage. do 7 apply GoStringsFacts.Contains_app_r.
  by apply GoStringsFacts.Contains_Join.
Qed.

End DnsFacts.

(** C8.  Once the URL parses and the name resolves, DNS verification
    returns no error exactly when the expected host IP is one of the
    resolved addresses; when it is not, the error returned names the
    expected IP and every resolved address. *)
Theorem GetDnsLookup_verifies (IP : Type) (IPString : IP -> string)
    (url_Parse : string -> option GoError * string)
    (LookupIP : string -> option GoError * list IP)
    (httpUrl hostIp host : string) (ips : list IP) :
  url_Parse httpUrl = (None, host) ->
  LookupIP host = (None, ips) ->
  (GetDnsLookup IP IPString url_Parse LookupIP httpUrl hostIp = Val None
   <-> In hostIp (map IPString ips))
  /\ (~ In hostIp (map IPString ips) ->
      exists e,
        GetDnsLookup IP IPString url_Parse LookupIP httpUrl hostIp = Val (Some e)
        /\ GoStrings.Contains (err_msg e) hostIp = true
        /\ forall ip, In ip ips -> GoStrings.Contains (err_msg e) (IPString ip) = true).
Proof.
  intros Hparse Hlookup. unfold GetDnsLookup.
  rewrite Hparse, Hlookup, GetDnsLookup_loop_spec. simpl orb. simpl app.
  pose proof (existsb_resolved IP IPString hostIp ips) as Hres.
  destruct (existsb (fun ip => String.eqb hostIp (IPString ip)) ips); simpl.
  - split; [split; [intros _; by apply Hres|reflexivity]|].
    intros Hnot. exfalso. apply Hnot. by apply Hres.
  - split.
    + split; [discriminate|]. intros Hin. apply Hres in Hin. discriminate.
    + intros _. eexists. split; [reflexivity|]. simpl err_msg. split.
      * apply outdatedDnsMessage_expected.
      * intros ip Hin. apply outdatedDnsMessage_resolved. by apply in_map.
Qed.

(** Expected 10.0.0.5, resolved 10.0.0.6 and 10.0.0.7: verification fails
    and the message holds the three addresses. *)
Lemma GetDnsLookup_verifies_witness :
  exists e,
    GetDnsLookup string id (fun u => (None, u)) (fun _ => (None, ["10.0.0.6"; "10.0.0.7"]))
                 "a.example.com" "10.0.0.5" = Val (Some e)
    /\ GoStrings.Contains (err_msg e) "10.0.0.5" = true
    /\ GoStrings.Contains (err_msg e) "10.0.0.6" = true
    /\ GoStrings.Contains (err_msg e) "10.0.0.7" = true.
Proof.
  assert (~ In "10.0.0.5" (map id ["10.0.0.6"; "10.0.0.7"])) as Hnot.
  { simpl. intros [H|[H|[]]]; discriminate H. }
  destruct (proj2 (GetDnsLookup_verifies string id (fun u => (None, u))
                     (fun _ => (None, ["10.0.0.6"; "10.0.0.7"]))
                     "a.example.com" "10.0.0.5" "a.example.com" ["10.0.0.6"; "10.0.0.7"]
                     eq_refl eq_refl) Hnot) as (e & Hrun & Hexp & Hres).
  exists e. split; [exact Hrun|]. split; [exact Hexp|]. split.
  - apply (Hres "10.0.0.6"). simpl. by left.
  - apply (Hres "10.0.0.7"). simpl. right. by left.
Defined.

(** ** C6: archive extraction *)

(** What [extractFiles] does to each field of the holder. *)
Lemma extractFiles_field (f : ZipFile) (c : CertificateHolder) (bytes : list Byte.byte)
    (fld : Field) :
  FileData f = inr bytes ->
  extractFiles f c =
  (None, snd (extractFiles f c))
  /\ getField fld (snd (extractFiles f c)) =
     if bool_decide (fieldOf (FileName f) = Some fld) then bytes else getField fld c.
Proof.
  intros Hdata. unfold extractFiles, fieldOf. rewrite Hdata.
  destruct (String.eqb (GoStrings.Ext (FileName f)) ".pfx");
    [by destruct fld|].
  destruct (String.eqb (GoStrings.Ext (FileName f)) ".crt");
    [by destruct fld|].
  destruct (String.eqb (GoStrings.Ext (FileName f)) ".key");
    [by destruct fld|].
  destruct (String.eqb (GoStrings.Ext (FileName f)) ".json");
    [|by destruct fld].
  destruct (String.eqb (FileName f) "license.json"); by destruct fld.
Qed.

Lemma holderAfter_field k files c fld :
  getField fld (holderAfter k files c) = lastBytes k fld files (getField fld c).
Proof. by destruct fld. Qed.

Lemma lastBytes_other k fld files acc :
  existsb (inBundle k) files = false -> lastBytes k fld files acc = acc.
Proof.
  revert acc. induction files as [|f rest IH]; intros acc; simpl; [reflexivity|].
  intros [Hf Hrest]%orb_false_elim. unfold targets. rewrite Hf. simpl. by apply IH.
Qed.

Lemma holderAfter_other k files c :
  existsb (inBundle k) files = false -> holderAfter k files c = c.
Proof.
  intros H. unfold holderAfter. rewrite !lastBytes_other by exact H. by destruct c.
Qed.

Lemma holderAfter_cons k f rest c bytes :
  FileData f = inr bytes ->
  holderAfter k (f :: rest) c =
  holderAfter k rest (if inBundle k f then snd (extractFiles f c) else c).
Proof.
  intros Hdata. unfold holderAfter. simpl. unfold targets, bytesOfEntry. rewrite Hdata.
  destruct (inBundle k f); simpl; [|reflexivity].
  pose proof (fun fld => proj2 (extractFiles_field f c bytes fld Hdata)) as Hfld.
  pose proof (Hfld FPfx) as H1. pose proof (Hfld FCert) as H2. pose proof (Hfld FKey) as H3.
  pose proof (Hfld FSettingsJson) as H4. pose proof (Hfld FLicense) as H5.
  simpl in H1, H2, H3, H4, H5. by rewrite H1, H2, H3, H4, H5.
Qed.

(** The loop of [OpenZipFile], bundle by bundle. *)
Lemma OpenZipFile_loop_lookup : forall files m0,
  Forall readable files ->
  exists m,
    OpenZipFile_loop files m0 = (Some m, None)
    /\ forall k, m !! k =
                 if existsb (inBundle k) files
                 then Some (holderAfter k files (default newHolder (m0 !! k)))
                 else m0 !! k.
Proof.
  induction files as [|f rest IH]; intros m0 Hread.
  - exists m0. split; [reflexivity|]. intros k. reflexivity.
  - apply Forall_cons in Hread as [[bytes Hdata] Hrest]. simpl.
    set (name := bundleName (FileName f)).
    set (m1 := match m0 !! name with
               | Some _ => m0
               | None => <[name := newHolder]> m0
               end).
    assert (default newHolder (m1 !! name) = default newHolder (m0 !! name)) as Hsame.
    { unfold m1. destruct (m0 !! name) as [c|] eqn:E; [by rewrite E|].
      by rewrite lookup_insert_eq. }
    rewrite Hsame.
    destruct (extractFiles_field f (default newHolder (m0 !! name)) bytes FPfx Hdata)
      as [Hext _].
    rewrite Hext.
    destruct (IH (<[name := snd (extractFiles f (default newHolder (m0 !! name)))]> m1) Hrest)
      as (m & Hloop & Hm).
    exists m. split; [exact Hloop|]. intros k. rewrite Hm.
    rewrite (holderAfter_cons k f rest _ bytes Hdata). unfold inBundle at 2 4. fold name.
    destruct (decide (name = k)) as [<-|Hne].
    + rewrite bool_decide_eq_true_2 by reflexivity. rewrite lookup_insert_eq. simpl.
      destruct (existsb (inBundle name) rest) eqn:E; [reflexivity|].
      by rewrite holderAfter_other.
    + rewrite bool_decide_eq_false_2 by exact Hne. rewrite lookup_insert_ne by exact Hne.
      simpl. unfold m1. destruct (m0 !! name); [reflexivity|].
      by rewrite lookup_insert_ne.
Qed.

(** The last entry that goes to a field is the one whose bytes stay. *)
Lemma lastBytes_last k fld files f acc :
  targets k fld f = true -> lastBytes k fld (files ++ [f]) acc = bytesOfEntry f.
Proof.
  intros Ht. revert acc. induction files as [|g rest IH]; intros acc; simpl.
  - by rewrite Ht.
  - apply IH.
Qed.

(** C6, as stated, fails on its last part: two entries that go to the same
    field of the same bundle leave the bytes of the second one there, not
    the bytes of the first followed by those of the second. *)
Lemma OpenZipFile_overwrites_repeated_field :
  exists m c,
    OpenZipFile (oneNodeConfig [] []) (inr repeatedArchive) = (Some m, None)
    /\ m !! "A" = Some c
    /\ Pfx c = bytesOf "TWO"
    /\ Pfx c <> bytesOf "ONE" ++ bytesOf "TWO".
Proof.
  eexists _, _. split; [vm_compute; reflexivity|].
  split; [vm_compute; reflexivity|]. split; [reflexivity|]. discriminate.
Qed.

(** C6 (amended).  For every archive whose entries can be read, extraction
    gives a bundle map whose keys are exactly the bundle names of the
    entries (the text before the first slash, or the store key for a name
    without slash), and in which every field of a bundle holds the bytes of
    the last entry classified to it (.pfx, .crt, .key by extension, the
    root license.json to the license, any other .json to the raw settings),
    empty when there is none: a later entry for the same bundle and field
    replaces the earlier one.  The archive A/server.pfx, A/settings.json,
    license.json gives exactly the keys A and store. *)
Theorem OpenZipFile_bundles (sc : ServerConfig) (files : list ZipFile) :
  Forall readable files ->
  exists m,
    OpenZipFile sc (inr files) = (Some m, None)
    /\ (forall k, is_Some (m !! k) <-> exists f, In f files /\ bundleName (FileName f) = k)
    /\ (forall k c fld, m !! k = Some c -> getField fld c = lastBytes k fld files [])
    /\ (forall pre f k fld, files = pre ++ [f] -> targets k fld f = true ->
        exists c, m !! k = Some c /\ getField fld c = bytesOfEntry f).
Proof.
  intros Hread. destruct (OpenZipFile_loop_lookup files ∅ Hread) as (m & Hloop & Hm).
  exists m. split; [exact Hloop|].
  assert (forall k, existsb (inBundle k) files = true <->
                    exists f, In f files /\ bundleName (FileName f) = k) as Hex.
  { intros k. rewrite existsb_exists. unfold inBundle.
    split; intros (f & Hin & Hk); exists f; (split; [exact Hin|]).
    - by apply bool_decide_eq_true in Hk.
    - by apply bool_decide_eq_true. }
  split; [|split].
  - intros k. rewrite Hm, <- Hex.
    destruct (existsb (inBundle k) files); rewrite ?lookup_empty; split;
      intros H; try done; try (by eexists); by destruct H.
  - intros k c fld. rewrite Hm. destruct (existsb (inBundle k) files); [|by rewrite lookup_empty].
    intros [= <-]. rewrite holderAfter_field, lookup_empty. simpl. by destruct fld.
  - intros pre f k fld -> Ht. rewrite Hm.
    assert (existsb (inBundle k) (pre ++ [f]) = true) as ->.
    { rewrite existsb_app. simpl. unfold targets in Ht.
      apply andb_true_iff in Ht as [-> _]. by rewrite orb_true_r. }
    eexists. split; [reflexivity|].
    rewrite holderAfter_field. by apply lastBytes_last.
Qed.

(** The example of the specification: the keys are A and store, A holds
    the certificate and the settings, store holds the license. *)
Lemma OpenZipFile_bundles_witness :
  exists m,
    OpenZipFile (oneNodeConfig [] []) (inr exampleArchive) = (Some m, None)
    /\ (forall k, is_Some (m !! k) <->
                  exists f, In f exampleArchive /\ bundleName (FileName f) = k)
    /\ (forall c, m !! "A" = Some c ->
                  Pfx c = bytesOf "PFX-A" /\ SettingsJson c = bytesOf "{}")
    /\ (forall c, m !! "store" = Some c -> License c = bytesOf "LICENSE").
Proof.
  assert (Forall readable exampleArchive) as Hread.
  { repeat constructor; eexists; reflexivity. }
  destruct (OpenZipFile_bundles (oneNodeConfig [] []) exampleArchive Hread)
    as (m & Hrun & Hkeys & Hfields & _).
  exists m. split; [exact Hrun|]. split; [exact Hkeys|]. split.
  - intros c Hc. split.
    + exact (Hfields "A" c FPfx Hc).
    + exact (Hfields "A" c FSettingsJson Hc).
  - intros c Hc. exact (Hfields "store" c FLicense Hc).
Defined.

(** The example gives exactly this map. *)
Example OpenZipFile_example :
  OpenZipFile (oneNodeConfig [] []) (inr exampleArchive) =
  (Some (<["A" := mkCertificateHolder (bytesOf "PFX-A") [] [] (bytesOf "{}") []]>
           (<["store" := mkCertificateHolder [] [] [] [] (bytesOf "LICENSE")]> ∅)),
   None).
Proof. vm_compute. reflexivity. Qed.

(** The other revision of [OpenZipFile] does append the certificate of a
    repeated entry, and leaves every [.json] entry out of the bundles. *)
Example Earlier_OpenZipFile_appends :
  Earlier.OpenZipFile (oneNodeConfig [] []) (inr repeatedArchive) =
  (Some {[ "A" := mkCertificateHolder (bytesOf "ONE" ++ bytesOf "TWO") [] [] [] [] ]}, None).
Proof. vm_compute. reflexivity. Qed.

Example Earlier_OpenZipFile_ignores_json :
  Earlier.OpenZipFile (oneNodeConfig [] []) (inr exampleArchive) =
  (Some (<["A" := mkCertificateHolder (bytesOf "PFX-A") [] [] [] []]>
           (<["store" := newHolder]> ∅)),
   None).
Proof. vm_compute. reflexivity. Qed.

(** ** C3: the fleet read with an unreachable host *)

Section StateReaderFacts.

Variable ReadServer : ServerConfig -> string -> nat -> NodeState * option GoError.
Variable sc : ServerConfig.

(** The loop over the hosts from index [idx] on: the slots of the healthy
    hosts are written, the slot of the unreachable one is not touched, and
    nothing reaches the error channel. *)
Lemma readRavenDbInstances_loop_slots i : forall hosts idx nodeStateArray errorsChanel,
  (forall j host, hosts !! j = Some host ->
     if decide (idx + j = i)%nat
     then exists e, snd (ReadServer sc host (idx + j)) = Some e
                    /\ GoStrings.Contains (err_msg e) "Unable to SSH to" = true
     else snd (ReadServer sc host (idx + j)) = None) ->
  exists nodeStateArray',
    readRavenDbInstances_loop ReadServer sc hosts idx (nodeStateArray, errorsChanel)
      = (nodeStateArray', errorsChanel)
    /\ length nodeStateArray' = length nodeStateArray
    /\ (forall k, (k < idx \/ idx + length hosts <= k \/ k = i)%nat ->
          nodeStateArray' !! k = nodeStateArray !! k)
    /\ (forall j host, hosts !! j = Some host -> (idx + j)%nat <> i ->
          (idx + j < length nodeStateArray)%nat ->
          nodeStateArray' !! (idx + j)%nat = Some (fst (ReadServer sc host (idx + j)))).
Proof.
  induction hosts as [|host rest IH]; intros idx arr errs Hreads.
  - exists arr. split; [reflexivity|]. split; [reflexivity|]. split; [reflexivity|].
    intros j host0 Hj. discriminate Hj.
  - cbn [readRavenDbInstances_loop].
    pose proof (Hreads 0%nat host eq_refl) as H0. rewrite Nat.add_0_r in H0.
    assert (exists arr1,
              readTask ReadServer sc host idx (arr, errs) = (arr1, errs)
              /\ length arr1 = length arr
              /\ (forall k, k <> idx \/ idx = i -> arr1 !! k = arr !! k)
              /\ (idx <> i -> (idx < length arr)%nat ->
                  arr1 !! idx = Some (fst (ReadServer sc host idx))))
      as (arr1 & -> & Hlen & Hout & Hin).
    { unfold readTask. destruct (ReadServer sc host idx) as [ns err] eqn:E. simpl in *.
      destruct (decide (idx = i)) as [->|Hne].
      - destruct H0 as (e & -> & ->). exists arr.
        split; [reflexivity|]. split; [reflexivity|]. split; [reflexivity|]. done.
      - rewrite H0. exists (<[idx := ns]> arr). split; [reflexivity|].
        split; [apply length_insert|]. split.
        + intros k [Hk|Hk]; [|done]. by apply list_lookup_insert_ne.
        + intros _ Hlt. by apply list_lookup_insert_eq. }
    destruct (IH (S idx) arr1 errs) as (arr' & Hloop & Hlen' & Hout' & Hin').
    { intros j host0 Hj. specialize (Hreads (S j) host0 Hj).
      by replace (idx + S j)%nat with (S idx + j)%nat in Hreads by lia. }
    exists arr'. split; [exact Hloop|]. split; [congruence|]. split.
    + intros k Hk. simpl in Hk. rewrite Hout' by lia. apply Hout. lia.
    + intros [|j] host0 Hj Hne Hlt.
      * injection Hj as <-. rewrite Nat.add_0_r in *.
        rewrite Hout' by lia. by apply Hin.
      * replace (idx + S j)%nat with (S idx + j)%nat in * by lia.
        apply Hin'; [exact Hj|exact Hne|lia].
Qed.

End StateReaderFacts.

(** C3: what the code does when exactly one host is unreachable.  The read
    returns a slice with one entry per host and no error, and the healthy
    hosts' entries hold what was read; but the entry of the unreachable
    host is the zero [NodeState], whose [Failed] is false: the flag was set
    on the task's own copy, which is dropped by the early return. *)
Theorem readRavenDbInstances_loses_failed_flag
    (ReadServer : ServerConfig -> string -> nat -> NodeState * option GoError)
    (sc : ServerConfig) (i : nat) (unreachable : string) :
  only_unreachable ReadServer sc i ->
  Hosts sc !! i = Some unreachable ->
  exists nodes,
    readRavenDbInstances ReadServer sc = (Some nodes, None)
    /\ length nodes = length (Hosts sc)
    /\ nodes !! i = Some zeroNodeState
    /\ Failed zeroNodeState = false
    /\ (forall j host, Hosts sc !! j = Some host -> j <> i ->
          nodes !! j = Some (fst (ReadServer sc host j))).
Proof.
  intros Honly Hi. unfold readRavenDbInstances.
  destruct (readRavenDbInstances_loop_slots ReadServer sc i (Hosts sc) 0
              (replicate (length (Hosts sc)) zeroNodeState) [])
    as (nodes & -> & Hlen & Hout & Hin).
  { intros j host Hj. exact (Honly j host Hj). }
  simpl. exists nodes. rewrite length_replicate in Hlen.
  split; [reflexivity|]. split; [exact Hlen|]. split; [|split; [reflexivity|]].
  - rewrite Hout by lia. apply lookup_replicate_2. by eapply lookup_lt_Some.
  - intros j host Hj Hne. apply (Hin j host Hj Hne).
    rewrite length_replicate. by eapply lookup_lt_Some.
Qed.

(** Three hosts, the second unreachable: the slice comes back without
    error and its second entry is the zero state, not a failed node. *)
Lemma readRavenDbInstances_loses_failed_flag_witness :
  exists nodes,
    readRavenDbInstances secondUnreachable threeHosts = (Some nodes, None)
    /\ length nodes = 3%nat
    /\ nodes !! 1%nat = Some zeroNodeState
    /\ Failed zeroNodeState = false.
Proof.
  assert (only_unreachable secondUnreachable threeHosts 1) as Honly.
  { intros [|[|[|j]]] host Hj; simpl in Hj; try discriminate Hj;
      injection Hj as <-; simpl; [reflexivity| |reflexivity].
    eexists. split; [reflexivity|]. vm_compute. reflexivity. }
  destruct (readRavenDbInstances_loses_failed_flag secondUnreachable threeHosts 1 "10.0.0.2"
              Honly eq_refl) as (nodes & Hrun & Hlen & Hslot & Hflag & _).
  exists nodes. split; [exact Hrun|]. split; [exact Hlen|]. split; [exact Hslot|exact Hflag].
Defined.

(** The same read, evaluated. *)
Example readRavenDbInstances_three_hosts :
  readRavenDbInstances secondUnreachable threeHosts =
  (Some [readState "10.0.0.1"; zeroNodeState; readState "10.0.0.3"], None).
Proof. reflexivity. Qed.

(** ** C9: the settings step of [deployServer] *)

(** C9: what the code does for a spec marked unsecured.  Once the key is
    parsed, the host connected and the package installed, the step that
    injects the unsecured-access setting writes to the settings map, which
    is still nil: the deployment panics there and never reaches the URL
    derivation and the uploads. *)
Theorem deployServer_unsecured_panics (env : Env)
    (rest : ServerConfig -> string -> nat -> SshClient -> string ->
            option (gmap string Any) -> string -> M (option GoError))
    (sc : ServerConfig) (publicIP : string) (index : nat) (h : list Event)
    (conn : SshClient) (stdoutBuf : string) (t1 t2 : list Event) :
  Unsecured sc = true ->
  reply_err (env h (ParsePrivateKey (Pem (ScSSH sc)))) = None ->
  ConnectToRemoteWithRetry env sc publicIP None (h ++ [Call (ParsePrivateKey (Pem (ScSSH sc)))])
    = (Val (Some conn, None), t1) ->
  execute env publicIP
          (installCommands ("https://daily-builds.s3.us-east-1.amazonaws.com/ravendb_"
                            +:+ Version (ScPackage sc) +:+ Arch (ScPackage sc)))
          "" "" conn ((h ++ [Call (ParsePrivateKey (Pem (ScSSH sc)))]) ++ t1)
    = (Val (None, stdoutBuf), t2) ->
  deployServer env rest sc publicIP index h =
  (Panic "assignment to entry in nil map",
   Call (ParsePrivateKey (Pem (ScSSH sc))) :: t1 ++ t2).
Proof.
  intros Hunsec Hkey Hconn Hexec. unfold deployServer.
  unfold bind at 1. unfold call at 1. rewrite Hkey.
  rewrite (bind_val _ _ _ _ _ Hconn). cbn [fst snd].
  rewrite (bind_val _ _ _ _ _ Hexec). cbn [fst snd].
  rewrite Hunsec. unfold map_assign, bind, panic. simpl. by rewrite app_nil_r.
Qed.

(** Every remote step succeeds and still the unsecured deployment panics. *)
Lemma deployServer_unsecured_panics_witness :
  fst (deployServer allOk (fun _ _ _ _ _ _ _ => ret None) unsecuredConfig "10.0.0.1" 0 [])
  = Panic "assignment to entry in nil map".
Proof.
  exact (f_equal fst
           (deployServer_unsecured_panics allOk (fun _ _ _ _ _ _ _ => ret None)
              unsecuredConfig "10.0.0.1" 0 [] (mkSshClient "10.0.0.1:22") _ _ _
              eq_refl eq_refl eq_refl eq_refl)).
Defined.

(** ** C10: the hash of an encryption key *)

Lemma Hex_digit_inj m n : (m < 16)%nat -> (n < 16)%nat -> Hex.digit m = Hex.digit n -> m = n.
Proof.
  intros Hm Hn.
  do 16 (destruct m as [|m];
         [do 16 (destruct n as [|n]; [first [reflexivity|intros H; cbv in H; discriminate H]|]);
          lia|]).
  lia.
Qed.

Lemma Byte_to_nat_inj b1 b2 : Byte.to_nat b1 = Byte.to_nat b2 -> b1 = b2.
Proof.
  intros H. pose proof (Byte.of_to_nat b1) as H1. rewrite H, Byte.of_to_nat in H1.
  by injection H1.
Qed.

Lemma String_inj2 (a a' b b' : ascii) (s s' : string) :
  String a (String b s) = String a' (String b' s') -> a = a' /\ b = b' /\ s = s'.
Proof. by intros [= -> -> ->]. Qed.

Lemma Hex_EncodeToString_cons b rest :
  Hex.EncodeToString (b :: rest) =
  String (Hex.digit (Byte.to_nat b / 16))
         (String (Hex.digit (Byte.to_nat b mod 16)) (Hex.EncodeToString rest)).
Proof. reflexivity. Qed.

(** Different bytes have different hexadecimal text. *)
Lemma Hex_EncodeToString_inj : forall a b,
  Hex.EncodeToString a = Hex.EncodeToString b -> a = b.
Proof.
  induction a as [|x a IH]; intros [|y b] H; try discriminate H; [reflexivity|].
  rewrite !Hex_EncodeToString_cons in H. apply String_inj2 in H as (Hhi & Hlo & Hrest).
  pose proof (Byte.to_nat_bounded x) as Hx. pose proof (Byte.to_nat_bounded y) as Hy.
  apply Hex_digit_inj in Hhi;
    [|apply Nat.Div0.div_lt_upper_bound; lia|apply Nat.Div0.div_lt_upper_bound; lia].
  apply Hex_digit_inj in Hlo; [|apply Nat.mod_upper_bound; lia|apply Nat.mod_upper_bound; lia].
  f_equal; [|by apply IH].
  apply Byte_to_nat_inj.
  rewrite (Nat.div_mod_eq (Byte.to_nat x) 16), (Nat.div_mod_eq (Byte.to_nat y) 16). lia.
Qed.

Section KeyHashFacts.

Variable argon2_IDKey :
  list Byte.byte -> list Byte.byte -> Z -> Z -> Z -> Z -> list Byte.byte.

(** A call takes the next 16 bytes of the random source as its salt and
    returns the hexadecimal text of the derived key; the salt is not part
    of what it returns. *)
Lemma encryptionKeyHash_draws_salt plainText salt entropy :
  length salt = 16%nat ->
  encryptionKeyHash argon2_IDKey plainText (salt ++ entropy) =
  (Val (Hex.EncodeToString
          (argon2_IDKey (String.list_byte_of_string plainText) salt 4 (64 * 1024) 4 32)),
   entropy).
Proof.
  intros Hlen. unfold encryptionKeyHash, generateFromPlainText, generateRandomBytes.
  cbn [SaltLength Iterations Memory Parallelism KeyLength].
  assert ((16 <=? length (salt ++ entropy))%nat = true) as ->.
  { apply Nat.leb_le. rewrite length_app. lia. }
  rewrite <- Hlen, take_app_length, drop_app_length. reflexivity.
Qed.

End KeyHashFacts.

(** C10.  The hash shown for an encryption key depends on the bytes the
    random source delivers, not on the key alone: each call takes a fresh
    16-byte salt and returns only the hexadecimal text of the key derived
    with it, so two calls with the same key return different texts
    whenever the derivation tells their salts apart, and no function of the
    key alone gives the value shown. *)
Theorem encryptionKeyHash_not_a_function_of_the_key
    (argon2_IDKey : list Byte.byte -> list Byte.byte -> Z -> Z -> Z -> Z -> list Byte.byte)
    (plainText : string) (salt1 salt2 entropy : list Byte.byte) :
  length salt1 = 16%nat ->
  length salt2 = 16%nat ->
  argon2_IDKey (String.list_byte_of_string plainText) salt1 4 (64 * 1024) 4 32
    <> argon2_IDKey (String.list_byte_of_string plainText) salt2 4 (64 * 1024) 4 32 ->
  let first := encryptionKeyHash argon2_IDKey plainText (salt1 ++ salt2 ++ entropy) in
  let second := encryptionKeyHash argon2_IDKey plainText (snd first) in
  fst first = Val (Hex.EncodeToString
                     (argon2_IDKey (String.list_byte_of_string plainText) salt1 4 (64 * 1024) 4 32))
  /\ fst second = Val (Hex.EncodeToString
                         (argon2_IDKey (String.list_byte_of_string plainText) salt2 4 (64 * 1024) 4 32))
  /\ snd second = entropy
  /\ fst first <> fst second
  /\ ~ (exists shown, forall random,
          (16 <= length random)%nat ->
          fst (encryptionKeyHash argon2_IDKey plainText random) = Val shown).
Proof.
  intros H1 H2 Hsep. cbv zeta.
  rewrite (encryptionKeyHash_draws_salt argon2_IDKey plainText salt1 (salt2 ++ entropy) H1).
  cbn [fst snd].
  rewrite (encryptionKeyHash_draws_salt argon2_IDKey plainText salt2 entropy H2).
  cbn [fst snd].
  assert (Hex.EncodeToString
            (argon2_IDKey (String.list_byte_of_string plainText) salt1 4 (64 * 1024) 4 32)
          <> Hex.EncodeToString
               (argon2_IDKey (String.list_byte_of_string plainText) salt2 4 (64 * 1024) 4 32))
    as Hdiff.
  { intros Heq. apply Hsep. by apply Hex_EncodeToString_inj. }
  split; [reflexivity|]. split; [reflexivity|]. split; [reflexivity|]. split.
  - intros [= Heq]. by apply Hdiff.
  - intros (shown & Hshown).
    pose proof (Hshown (salt1 ++ []) ltac:(rewrite length_app; lia)) as E1.
    pose proof (Hshown (salt2 ++ []) ltac:(rewrite length_app; lia)) as E2.
    rewrite (encryptionKeyHash_draws_salt argon2_IDKey plainText salt1 [] H1) in E1.
    rewrite (encryptionKeyHash_draws_salt argon2_IDKey plainText salt2 [] H2) in E2.
    cbn [fst] in E1, E2. apply Hdiff. congruence.
Qed.

(** Two calls for the key [secret], with a derivation that shows its salt:
    the two texts differ. *)
Lemma encryptionKeyHash_not_a_function_of_the_key_witness :
  fst (encryptionKeyHash toyKdf "secret" (bytesOf "0123456789abcdef" ++ bytesOf "fedcba9876543210" ++ []))
  <> fst (encryptionKeyHash toyKdf "secret"
            (snd (encryptionKeyHash toyKdf "secret"
                    (bytesOf "0123456789abcdef" ++ bytesOf "fedcba9876543210" ++ [])))).
Proof.
  assert (toyKdf (String.list_byte_of_string "secret") (bytesOf "0123456789abcdef") 4 (64 * 1024) 4 32
          <> toyKdf (String.list_byte_of_string "secret") (bytesOf "fedcba9876543210") 4 (64 * 1024) 4 32)
    as Hsep by (vm_compute; discriminate).
  exact (proj1 (proj2 (proj2 (proj2
           (encryptionKeyHash_not_a_function_of_the_key toyKdf "secret"
              (bytesOf "0123456789abcdef") (bytesOf "fedcba9876543210") []
              eq_refl eq_refl Hsep))))).
Defined.

(** * Properties of more of the code *)

(** ** The helpers [contains], [containsValue] and [convertConfiguration] *)

Lemma contains_from_spec (ToUpper : string -> string) (str : string) : forall s i,
  match contains_from ToUpper i s str with
  | (true, index) =>
      exists k v, index = Z.of_nat (i + k) /\ s !! k = Some v /\ ToUpper v = ToUpper str /\
        forall j w, (j < k)%nat -> s !! j = Some w -> ToUpper w <> ToUpper str
  | (false, index) =>
      index = -1 /\ forall w, In w s -> ToUpper w <> ToUpper str
  end.
Proof.
  induction s as [|v s IH]; intros i; simpl.
  - split; [reflexivity|]. intros w [].
  - destruct (String.eqb (ToUpper v) (ToUpper str)) eqn:E.
    + apply String.eqb_eq in E. exists 0%nat, v. repeat split; [f_equal; lia|done|lia].
    + apply String.eqb_neq in E. specialize (IH (S i)).
      destruct (contains_from ToUpper (S i) s str) as [[|] index].
      * destruct IH as (k & w & -> & Hk & Hw & Hbefore).
        exists (S k), w. repeat split; [f_equal; lia|done|done|].
        intros [|j] u Hj Hu; simpl in Hu; [by inversion Hu; subst|].
        apply (Hbefore j u); [lia|done].
      * destruct IH as [-> Hall]. split; [reflexivity|].
        intros w [<-|Hw]; [done|by apply Hall].
Qed.

(** X1.  [contains] finds the first element of the slice that equals the
    string up to case: it answers [true] with the index of that element,
    no earlier element matching, and [false] with [-1] exactly when no
    element matches. *)
Theorem contains_first_match (ToUpper : string -> string) (s : list string) (str : string) :
  match contains ToUpper s str with
  | (true, index) =>
      0 <= index /\
      (exists v, s !! Z.to_nat index = Some v /\ ToUpper v = ToUpper str) /\
      (forall j w, (j < Z.to_nat index)%nat -> s !! j = Some w -> ToUpper w <> ToUpper str)
  | (false, index) =>
      index = -1 /\ (forall w, In w s -> ToUpper w <> ToUpper str)
  end.
Proof.
  unfold contains. pose proof (contains_from_spec ToUpper str s 0) as H.
  destruct (contains_from ToUpper 0 s str) as [[|] index]; [|exact H].
  destruct H as (k & v & -> & Hk & Hv & Hbefore). simpl.
  rewrite Nat2Z.id. split; [lia|]. split; [by exists v|exact Hbefore].
Qed.

Lemma containsValue_range_spec (entries : list (string * string)) (v : string) :
  containsValue_range entries v = true <-> exists k, In (k, v) entries.
Proof.
  induction entries as [|[k x] rest IH]; simpl.
  - split; [discriminate|]. by intros [k []].
  - destruct (String.eqb x v) eqn:E.
    + apply String.eqb_eq in E. subst x. split; [|done]. intros _. exists k. by left.
    + apply String.eqb_neq in E. rewrite IH. split.
      * intros [k' Hk']. exists k'. by right.
      * intros [k' [Hk'|Hk']]; [congruence|by exists k'].
Qed.

(** X2.  [containsValue] answers [true] exactly when some key of the map
    holds the value, in whatever order the [range] visits the entries. *)
Theorem containsValue_any_order (m : gmap string string) (entries : list (string * string))
    (v : string) :
  range_order m entries ->
  containsValue_range entries v = true <-> exists k, m !! k = Some v.
Proof.
  intros Hp. rewrite containsValue_range_spec. split; intros [k Hk]; exists k.
  - apply elem_of_map_to_list. rewrite <- Hp. by apply list_elem_of_In.
  - apply list_elem_of_In. rewrite Hp. by apply elem_of_map_to_list.
Qed.

Lemma containsValue_any_order_witness :
  containsValue_range (map_to_list twoNodes) "https://b.example.com" = true
  <-> exists k, twoNodes !! k = Some "https://b.example.com".
Proof. apply containsValue_any_order. unfold range_order. reflexivity. Defined.

Lemma convertConfiguration_range_union : forall entries m,
  NoDup entries.*1 ->
  convertConfiguration_range entries m = list_to_map entries ∪ m.
Proof.
  induction entries as [|[k v] rest IH]; intros m Hnd; simpl.
  - by rewrite (left_id_L ∅ (∪)).
  - inversion Hnd as [|? ? Hk Hrest]; subst.
    rewrite IH by done. rewrite <- insert_union_l.
    symmetry. apply insert_union_r. by apply not_elem_of_list_to_map_1.
Qed.

(** X3.  [convertConfiguration] returns a copy of the configuration of the
    index, entry for entry, in whatever order the [range] visits them. *)
Theorem convertConfiguration_copies (idx : Index) (entries : list (string * string)) :
  range_order (Configuration idx) entries ->
  convertConfiguration_range entries ∅ = Configuration idx.
Proof.
  intros Hp. rewrite convertConfiguration_range_union.
  - rewrite (right_id_L ∅ (∪)). rewrite <- (list_to_map_to_list (Configuration idx)).
    apply list_to_map_proper; [|done].
    rewrite Hp. apply NoDup_fst_map_to_list.
  - rewrite Hp. apply NoDup_fst_map_to_list.
Qed.

Lemma convertConfiguration_copies_witness :
  convertConfiguration_range (map_to_list (Configuration searchIndex)) ∅
  = Configuration searchIndex.
Proof. apply convertConfiguration_copies. unfold range_order. reflexivity. Defined.
(** ** The URLs and the settings of a node *)

Lemma append_length (s t : string) :
  String.length (s +:+ t) = (String.length s + String.length t)%nat.
Proof. induction s as [|c s IH]; simpl; [reflexivity|]. by rewrite IH. Qed.

Lemma append_neq_self (s t : string) : t <> EmptyString -> s +:+ t <> s.
Proof.
  intros Ht E. assert (L := f_equal String.length E). rewrite append_length in L.
  destruct t; [done|]. simpl in L. lia.
Qed.

(** X4.  The suffix with the HTTP port is left off the host exactly when
    the port is the web default of the mode: 80 for an unsecured node, 443
    for a secured one. *)
Theorem maybeAddHttpPortToHost_default_port (sc : ServerConfig) (host : string) :
  maybeAddHttpPortToHost sc host = host
  <-> HttpPort (ScUrl sc) = (if Unsecured sc then 80 else 443).
Proof.
  unfold maybeAddHttpPortToHost, DEFAULT_HTTP_PORT, DEFAULT_SECURE_RAVENDB_HTTP_PORT.
  destruct (Unsecured sc); simpl.
  - rewrite orb_false_r. destruct (Z.eqb_spec (HttpPort (ScUrl sc)) 80) as [E|E]; simpl.
    + done.
    + split; [|done]. intros H. by apply append_neq_self in H.
  - destruct (Z.eqb_spec (HttpPort (ScUrl sc)) 443) as [E|E]; simpl.
    + done.
    + split; [|done]. intros H. by apply append_neq_self in H.
Qed.

Section NodeUrlFacts.

Variable url_Parse : string -> GoError + URL.
Variable Hostname : URL -> string.
Variable URL_String : URL -> string.
Variable json_Unmarshal : list Byte.byte -> MapPtr -> option GoError * MapPtr.

Lemma defaultPorts_ports sc :
  let http := HttpPort (ScUrl sc) in
  let tcp := TcpPort (ScUrl sc) in
  let sc' := defaultPorts sc in
  (if Unsecured sc
   then HttpPort (ScUrl sc') = (if http =? 0 then 8080 else http)
        /\ TcpPort (ScUrl sc') = (if tcp =? 0 then 38881 else tcp)
   else HttpPort (ScUrl sc') = (if tcp =? 0 then 38888 else if http =? 0 then 443 else http)
        /\ TcpPort (ScUrl sc') = tcp)
  /\ UrlList (ScUrl sc') = UrlList (ScUrl sc)
  /\ Unsecured sc' = Unsecured sc.
Proof.
  unfold defaultPorts. destruct sc as [p hs st z [l http tcp] a u s hc d dd idd]. simpl.
  destruct (Z.eqb_spec http 0), (Z.eqb_spec tcp 0), u; simpl;
    repeat match goal with |- context [?x =? 0] => destruct (Z.eqb_spec x 0); try lia end;
    simpl; repeat split; try reflexivity; try lia.
Qed.

Lemma GetUrlByIndex_unfold sc index scheme h :
  GetUrlByIndex url_Parse Hostname URL_String sc index scheme h =
  match UrlList (ScUrl (defaultPorts sc)) !! index with
  | None => (Panic "index out of range", [])
  | Some raw =>
      match url_Parse raw with
      | inl err => (Val (defaultPorts sc, (EmptyString, EmptyString, Some err)), [])
      | inr u =>
          (Val (defaultPorts sc,
                (URL_String (mkURL scheme (maybeAddHttpPortToHost (defaultPorts sc) (Hostname u))),
                 URL_String (mkURL "tcp" (Hostname u +:+ ":"
                                          +:+ GoStrings.Itoa (TcpPort (ScUrl (defaultPorts sc))))),
                 None)), [])
      end
  end.
Proof.
  unfold GetUrlByIndex. destruct (UrlList (ScUrl (defaultPorts sc)) !! index); [|reflexivity].
  by destruct (url_Parse s).
Qed.

End NodeUrlFacts.

(** X5.  The ports [GetUrlByIndex] leaves in the configuration.  A port
    that was given is kept.  An unsecured node without them gets 8080 and
    38881.  A secured node without TCP port keeps the TCP port 0 and gets
    38888 as its HTTP port, whatever that was; with a TCP port, a missing
    HTTP port becomes 443.  The call panics only for an index beyond the
    list of URLs. *)
Theorem GetUrlByIndex_ports (url_Parse : string -> GoError + URL) (Hostname : URL -> string)
    (URL_String : URL -> string) (sc : ServerConfig) (index : nat) (scheme : string)
    (h : list Event) :
  match result (GetUrlByIndex url_Parse Hostname URL_String sc index scheme) h with
  | Val (sc', _) =>
      let http := HttpPort (ScUrl sc) in
      let tcp := TcpPort (ScUrl sc) in
      (if Unsecured sc
       then HttpPort (ScUrl sc') = (if http =? 0 then 8080 else http)
            /\ TcpPort (ScUrl sc') = (if tcp =? 0 then 38881 else tcp)
       else HttpPort (ScUrl sc') = (if tcp =? 0 then 38888 else if http =? 0 then 443 else http)
            /\ TcpPort (ScUrl sc') = tcp)
      /\ UrlList (ScUrl sc') = UrlList (ScUrl sc)
      /\ Unsecured sc' = Unsecured sc
  | Panic _ => (length (UrlList (ScUrl sc)) <= index)%nat
  end.
Proof.
  unfold result. rewrite GetUrlByIndex_unfold.
  pose proof (defaultPorts_ports sc) as H. cbv zeta in H.
  destruct (UrlList (ScUrl (defaultPorts sc)) !! index) as [raw|] eqn:E.
  - destruct (url_Parse raw); exact H.
  - simpl. apply lookup_ge_None in E. destruct H as (_ & <- & _). exact E.
Qed.

(** The URLs of a secured node that names no port: the HTTP URL carries
    the default TCP port, the TCP URL the port 0. *)
Example GetUrlByIndex_secured_without_ports :
  result (GetUrlByIndex simple_Parse simple_Hostname simple_String
            (withUrl securedConfig (mkUrl ["https://a.example.com"] 0 0)) 0 "https") []
  = Val (withUrl securedConfig (mkUrl ["https://a.example.com"] 38888 0),
         ("https://a.example.com:38888", "tcp://a.example.com:0", None)).
Proof. vm_compute. reflexivity. Qed.

Section SetupUrlFacts.

Variable url_Parse : string -> GoError + URL.
Variable Hostname : URL -> string.
Variable URL_String : URL -> string.
Variable json_Unmarshal : list Byte.byte -> MapPtr -> option GoError * MapPtr.

Lemma setUrlAt_ok sc index s h :
  (index < length (UrlList (ScUrl sc)))%nat ->
  setUrlAt sc index s h =
  (Val (withUrl sc (mkUrl (<[index := s]> (UrlList (ScUrl sc)))
                          (HttpPort (ScUrl sc)) (TcpPort (ScUrl sc)))), []).
Proof.
  intros Hi. unfold setUrlAt. apply Nat.ltb_lt in Hi. by rewrite Hi.
Qed.

Lemma setupUrls_declared_found sc index scheme m declared h :
  m !! (if String.eqb scheme "https" then "PublicServerUrl" else "ServerUrl")
    = Some (AnyString declared) ->
  (index < length (UrlList (ScUrl sc)))%nat ->
  setupUrls_declared sc index scheme (Some m) h =
  (Val (inl (withUrl sc (mkUrl (<[index := declared]> (UrlList (ScUrl sc)))
                               (HttpPort (ScUrl sc)) (TcpPort (ScUrl sc))))), []).
Proof.
  intros Hm Hi. unfold setupUrls_declared, map_index.
  destruct (String.eqb scheme "https"); rewrite Hm; simpl;
    unfold bind; simpl; rewrite (setUrlAt_ok _ _ _ _ Hi); reflexivity.
Qed.

Lemma setupUrls_declared_missing sc index scheme m h :
  map_index m (if String.eqb scheme "https" then "PublicServerUrl" else "ServerUrl") = None ->
  exists e,
    setupUrls_declared sc index scheme m h = (Val (inr e), [])
    /\ GoStrings.Contains (err_msg e)
         (if String.eqb scheme "https" then "'PublicServerUrl'" else "'ServerUrl'") = true.
Proof.
  intros Hm. unfold setupUrls_declared.
  destruct (String.eqb scheme "https"); rewrite Hm; eexists; (split; [reflexivity|]);
    vm_compute; reflexivity.
Qed.

End SetupUrlFacts.

(** X6.  What [setupUrls] reports when the settings file of the node is
    of no use.  A file that does not parse gives the empty URL and no
    error, with the configuration untouched; a file that parses but lacks
    the declared URL of the scheme ([PublicServerUrl] for https,
    [ServerUrl] otherwise) gives an error that names the missing
    setting.  Neither case reaches the world. *)
Theorem setupUrls_unusable_settings (url_Parse : string -> GoError + URL)
    (Hostname : URL -> string) (URL_String : URL -> string)
    (json_Unmarshal : list Byte.byte -> MapPtr -> option GoError * MapPtr)
    (sc : ServerConfig) (index : nat) (scheme : string) (settings : option (gmap string Any))
    (holder : CertificateHolder) (h : list Event) :
  ClusterSetupZip sc !! nodeTag index = Some holder ->
  (forall e ptr,
     json_Unmarshal (SettingsJson holder) (Some settings) = (Some e, ptr) ->
     setupUrls url_Parse Hostname URL_String json_Unmarshal sc index scheme settings h
     = (Val (sc, pointee ptr settings, (EmptyString, None)), []))
  /\ (forall m,
        json_Unmarshal (SettingsJson holder) (Some settings) = (None, Some m) ->
        map_index m (if String.eqb scheme "https" then "PublicServerUrl" else "ServerUrl")
          = None ->
        exists e,
          setupUrls url_Parse Hostname URL_String json_Unmarshal sc index scheme settings h
          = (Val (sc, m, (EmptyString, Some e)), [])
          /\ GoStrings.Contains (err_msg e)
               (if String.eqb scheme "https" then "'PublicServerUrl'" else "'ServerUrl'")
             = true).
Proof.
  intros Hholder. split.
  - intros e ptr Hjson. unfold setupUrls. rewrite Hholder, Hjson. reflexivity.
  - intros m Hjson Hm. unfold setupUrls. rewrite Hholder, Hjson.
    destruct (setupUrls_declared_missing sc index scheme m h Hm) as (e & He & Hmsg).
    exists e. split; [|exact Hmsg]. unfold bind. rewrite He. reflexivity.
Qed.

Lemma setupUrls_unusable_settings_witness :
  setupUrls simple_Parse simple_Hostname simple_String (tableUnmarshal [])
            securedConfig 0 "https" None []
  = (Val (securedConfig, None, (EmptyString, None)), []).
Proof.
  eapply (proj1 (setupUrls_unusable_settings simple_Parse simple_Hostname simple_String
                   (tableUnmarshal []) securedConfig 0 "https" None _ [] _)
                _ (Some None)).
  Unshelve.
  3:{ vm_compute. reflexivity. }
  reflexivity.
Defined.

(** X7.  What [setupUrls] does with a settings file that declares the URL
    of the node.  The declared URL is stored at the node's index of the
    URL list, and the URL returned is derived from its host name and the
    HTTP port.  For https the two public URLs of the settings are replaced
    by the derived HTTP and TCP URLs and every other setting is left as
    parsed; for another scheme the settings are left as parsed. *)
Theorem setupUrls_declared_url (url_Parse : string -> GoError + URL)
    (Hostname : URL -> string) (URL_String : URL -> string)
    (json_Unmarshal : list Byte.byte -> MapPtr -> option GoError * MapPtr)
    (sc : ServerConfig) (index : nat) (scheme : string) (settings : option (gmap string Any))
    (holder : CertificateHolder) (m : gmap string Any) (declared : string) (u : URL)
    (h : list Event) :
  ClusterSetupZip sc !! nodeTag index = Some holder ->
  json_Unmarshal (SettingsJson holder) (Some settings) = (None, Some (Some m)) ->
  m !! (if String.eqb scheme "https" then "PublicServerUrl" else "ServerUrl")
    = Some (AnyString declared) ->
  (index < length (UrlList (ScUrl sc)))%nat ->
  url_Parse declared = inr u ->
  exists sc' m' httpUrl tcpUrl,
    setupUrls url_Parse Hostname URL_String json_Unmarshal sc index scheme settings h
    = (Val (sc', Some m', (httpUrl, None)), [])
    /\ UrlList (ScUrl sc') = <[index := declared]> (UrlList (ScUrl sc))
    /\ httpUrl = URL_String (mkURL scheme (maybeAddHttpPortToHost sc' (Hostname u)))
    /\ tcpUrl = URL_String (mkURL "tcp" (Hostname u +:+ ":"
                                         +:+ GoStrings.Itoa (TcpPort (ScUrl sc'))))
    /\ m' = (if String.eqb scheme "https"
             then <["PublicServerUrl.Tcp" := AnyString tcpUrl]>
                    (<["PublicServerUrl" := AnyString httpUrl]> m)
             else m).
Proof.
  intros Hholder Hjson Hm Hi Hparse.
  set (sc1 := withUrl sc (mkUrl (<[index := declared]> (UrlList (ScUrl sc)))
                                (HttpPort (ScUrl sc)) (TcpPort (ScUrl sc)))).
  assert (Hlist : UrlList (ScUrl (defaultPorts sc1)) = <[index := declared]> (UrlList (ScUrl sc))).
  { destruct (defaultPorts_ports sc1) as (_ & -> & _). reflexivity. }
  assert (Hlook : UrlList (ScUrl (defaultPorts sc1)) !! index = Some declared).
  { rewrite Hlist. by apply list_lookup_insert_eq. }
  exists (defaultPorts sc1).
  eexists _, _, _.
  split; [|split; [exact Hlist|split; [reflexivity|split; [reflexivity|reflexivity]]]].
  unfold setupUrls. rewrite Hholder, Hjson. unfold bind at 1.
  rewrite (setupUrls_declared_found sc index scheme m declared h Hm Hi).
  fold sc1. unfold bind at 1. rewrite GetUrlByIndex_unfold, Hlook, Hparse.
  destruct (String.eqb scheme "https"); reflexivity.
Qed.

Lemma setupUrls_declared_url_witness :
  exists sc' m' httpUrl tcpUrl,
    setupUrls simple_Parse simple_Hostname simple_String (tableUnmarshal knownDocuments)
              securedConfig 0 "https" None []
    = (Val (sc', Some m', (httpUrl, None)), [])
    /\ UrlList (ScUrl sc') = <[0%nat := "https://a.example.com"]> (UrlList (ScUrl securedConfig))
    /\ httpUrl = simple_String (mkURL "https"
                   (maybeAddHttpPortToHost sc'
                      (simple_Hostname (mkURL "https" "a.example.com"))))
    /\ tcpUrl = simple_String (mkURL "tcp"
                   (simple_Hostname (mkURL "https" "a.example.com") +:+ ":"
                      +:+ GoStrings.Itoa (TcpPort (ScUrl sc'))))
    /\ m' = (if String.eqb "https" "https"
             then <["PublicServerUrl.Tcp" := AnyString tcpUrl]>
                    (<["PublicServerUrl" := AnyString httpUrl]> settingsA)
             else settingsA).
Proof.
  eapply (setupUrls_declared_url simple_Parse simple_Hostname simple_String
            (tableUnmarshal knownDocuments) securedConfig 0 "https" None).
  - vm_compute. reflexivity.
  - vm_compute. reflexivity.
  - vm_compute. reflexivity.
  - simpl. lia.
  - vm_compute. reflexivity.
Defined.

(** X8.  The settings of a node after
    [ExtractSettingsAfterReadingZipPackage] has read a settings file that
    parses.  The server listens on every address at the configured HTTP
    and TCP ports, with https for a secured node and http for an unsecured
    one; the licence path and the setup mode are fixed; a secured node
    also gets the certificate path and the accepted EULA, which an
    unsecured node keeps as the file had them.  Every other setting of the
    file is kept, and no error is reported. *)
Theorem ExtractSettings_fixed_keys
    (json_Unmarshal : list Byte.byte -> MapPtr -> option GoError * MapPtr)
    (sc : ServerConfig) (index : nat) (settings : option (gmap string Any))
    (holder : CertificateHolder) (m : gmap string Any) (h : list Event) :
  ClusterSetupZip sc !! nodeTag index = Some holder ->
  json_Unmarshal (SettingsJson holder) (Some settings) = (None, Some (Some m)) ->
  exists m',
    ExtractSettingsAfterReadingZipPackage json_Unmarshal sc index settings h
    = (Val (Some m', None), [])
    /\ m' !! "ServerUrl"
       = Some (AnyString ((if Unsecured sc then "http" else "https") +:+ "://0.0.0.0:"
                          +:+ GoStrings.Itoa (HttpPort (ScUrl sc))))
    /\ m' !! "ServerUrl.Tcp"
       = Some (AnyString ("tcp://0.0.0.0:" +:+ GoStrings.Itoa (TcpPort (ScUrl sc))))
    /\ m' !! "License.Path" = Some (AnyString "/etc/ravendb/license.json")
    /\ m' !! "Setup.Mode" = Some (AnyString "None")
    /\ m' !! "Security.Certificate.Path"
       = (if Unsecured sc then m !! "Security.Certificate.Path"
          else Some (AnyString "/etc/ravendb/security/server.pfx"))
    /\ m' !! "License.Eula.Accepted"
       = (if Unsecured sc then m !! "License.Eula.Accepted" else Some (AnyBool true))
    /\ (forall k,
          k ∉ ["ServerUrl"; "ServerUrl.Tcp"; "License.Path"; "Setup.Mode";
               "Security.Certificate.Path"; "License.Eula.Accepted"] ->
          m' !! k = m !! k).
Proof.
  intros Hholder Hjson. unfold ExtractSettingsAfterReadingZipPackage.
  rewrite Hholder, Hjson.
  destruct (Unsecured sc); simpl negb; cbv iota.
  - eexists. split; [reflexivity|].
    repeat split;
      try (repeat (rewrite lookup_insert_ne by done); first [by rewrite lookup_insert_eq|done]).
    intros k Hk. repeat (rewrite lookup_insert_ne; [|intros <-; apply Hk; set_solver]).
    reflexivity.
  - eexists. split; [reflexivity|].
    repeat split;
      try (repeat (rewrite lookup_insert_ne by done); first [by rewrite lookup_insert_eq|done]).
    intros k Hk. repeat (rewrite lookup_insert_ne; [|intros <-; apply Hk; set_solver]).
    reflexivity.
Qed.

Lemma ExtractSettings_fixed_keys_witness :
  exists m',
    ExtractSettingsAfterReadingZipPackage (tableUnmarshal knownDocuments) securedConfig 0 None []
    = (Val (Some m', None), [])
    /\ m' !! "ServerUrl"
       = Some (AnyString ((if Unsecured securedConfig then "http" else "https") +:+ "://0.0.0.0:"
                          +:+ GoStrings.Itoa (HttpPort (ScUrl securedConfig))))
    /\ m' !! "ServerUrl.Tcp"
       = Some (AnyString ("tcp://0.0.0.0:" +:+ GoStrings.Itoa (TcpPort (ScUrl securedConfig))))
    /\ m' !! "License.Path" = Some (AnyString "/etc/ravendb/license.json")
    /\ m' !! "Setup.Mode" = Some (AnyString "None")
    /\ m' !! "Security.Certificate.Path"
       = (if Unsecured securedConfig then settingsA !! "Security.Certificate.Path"
          else Some (AnyString "/etc/ravendb/security/server.pfx"))
    /\ m' !! "License.Eula.Accepted"
       = (if Unsecured securedConfig then settingsA !! "License.Eula.Accepted"
          else Some (AnyBool true))
    /\ (forall k,
          k ∉ ["ServerUrl"; "ServerUrl.Tcp"; "License.Path"; "Setup.Mode";
               "Security.Certificate.Path"; "License.Eula.Accepted"] ->
          m' !! k = settingsA !! k).
Proof.
  eapply (ExtractSettings_fixed_keys (tableUnmarshal knownDocuments) securedConfig 0 None).
  - vm_compute. reflexivity.
  - vm_compute. reflexivity.
Defined.

(** ** The remote executor *)

Section ExecuteFacts.

Variable env : Env.

(** One turn of the loop of [execute]. *)
Lemma execute_loop_cons cmd rest onErr stdoutBuf conn h :
  execute_loop env (cmd :: rest) onErr stdoutBuf conn h =
  let cmdStr := "$ " +:+ cmd +:+ nl in
  let buf := stdoutBuf +:+ cmdStr +:+ cmdStr in
  match reply_err (env h (SshNewSession conn)) with
  | Some e => (Val (Some e, buf), [Call (SshNewSession conn)])
  | None =>
      let r := env (h ++ [Call (SshNewSession conn)]) (SshRun conn cmd) in
      let buf := buf +:+ reply_output r in
      match reply_err r with
      | Some e =>
          if negb (String.eqb onErr "") then
            let r2 := env ((h ++ [Call (SshNewSession conn)]) ++ [Call (SshRun conn cmd)])
                          (SshRun conn cmd) in
            (Val (Some (DeployError e (buf +:+ reply_output r2)), buf +:+ reply_output r2),
             ran conn cmd ++ [Call (SshRun conn cmd)])
          else (Val (Some (DeployError e buf), buf), ran conn cmd)
      | None =>
          (fst (execute_loop env rest onErr buf conn (h ++ ran conn cmd)),
           ran conn cmd ++ snd (execute_loop env rest onErr buf conn (h ++ ran conn cmd)))
      end
  end.
Proof.
  cbn [execute_loop]. unfold bind at 1. unfold call at 1. cbv zeta.
  destruct (reply_err (env h (SshNewSession conn))) as [e|] eqn:Es; [reflexivity|].
  unfold bind at 1. unfold call at 1.
  destruct (reply_err (env (h ++ [Call (SshNewSession conn)]) (SshRun conn cmd))) as [e|] eqn:Er.
  - destruct (negb (String.eqb onErr "")); reflexivity.
  - unfold ran. rewrite <- (app_assoc h). simpl.
    by destruct (execute_loop env rest onErr _ conn _).
Qed.

Lemma execute_loop_trace onErr conn : forall commands stdoutBuf h,
  match result (execute_loop env commands onErr stdoutBuf conn) h with
  | Val (None, _) =>
      trace (execute_loop env commands onErr stdoutBuf conn) h = ranAll conn commands
  | Val (Some e, _) =>
      exists k cmd, commands !! k = Some cmd /\
        (trace (execute_loop env commands onErr stdoutBuf conn) h
         = ranAll conn (take k commands) ++ [Call (SshNewSession conn)]
         \/ trace (execute_loop env commands onErr stdoutBuf conn) h
            = ranAll conn (take k commands) ++ ran conn cmd
              ++ (if String.eqb onErr "" then [] else [Call (SshRun conn cmd)])
            /\ err_type e = DeployErrorType)
  | Panic _ => False
  end.
Proof.
  induction commands as [|cmd rest IH]; intros stdoutBuf h; [reflexivity|].
  unfold result, trace. rewrite execute_loop_cons. cbv zeta.
  destruct (reply_err (env h (SshNewSession conn))) as [e|]; simpl.
  { exists 0%nat, cmd. split; [reflexivity|]. by left. }
  destruct (reply_err (env (h ++ [Call (SshNewSession conn)]) (SshRun conn cmd))) as [e|].
  { destruct (String.eqb onErr ""); simpl;
      exists 0%nat, cmd; (split; [reflexivity|]); right; done. }
  match goal with
  | |- context [execute_loop env rest onErr ?b conn ?h'] => specialize (IH b h')
  end.
  unfold result, trace in IH. simpl.
  destruct (execute_loop env rest onErr _ conn _) as [[[[e|] buf]|msg] t]; simpl in *.
  - destruct IH as (k & c & Hk & Ht). exists (S k), c. split; [exact Hk|].
    destruct Ht as [->|[-> He]]; [by left|by right].
  - by rewrite IH.
  - done.
Qed.

End ExecuteFacts.


Section TranscriptFacts.

Variable env : Env.


End TranscriptFacts.


(** Two commands on a host that runs whatever it is asked. *)
Example execute_example :
  execute allOk "10.0.0.1" ["sudo true"; "sudo id"] "" "" (mkSshClient "10.0.0.1:22") []
  = (Val (None, "10.0.0.1$ sudo true" +:+ nl +:+ "$ sudo true" +:+ nl
                +:+ "$ sudo id" +:+ nl +:+ "$ sudo id" +:+ nl),
     ranAll (mkSshClient "10.0.0.1:22") ["sudo true"; "sudo id"]).
Proof. vm_compute. reflexivity. Qed.

(** Three commands on a host that refuses the second: it is run twice,
    the third is not run, and the deploy error carries the transcript with
    what both runs printed. *)
Example execute_refused :
  let shown :=
    "10.0.0.1$ sudo true" +:+ nl +:+ "$ sudo true" +:+ nl
      +:+ "$ sudo false" +:+ nl +:+ "$ sudo false" +:+ nl
      +:+ "permission denied" +:+ nl +:+ "permission denied" +:+ nl in
  execute refusingHost "10.0.0.1" ["sudo true"; "sudo false"; "sudo id"] "exit 1" ""
          (mkSshClient "10.0.0.1:22") []
  = (Val (Some (DeployError exitStatus shown), shown),
     ranAll (mkSshClient "10.0.0.1:22") ["sudo true"; "sudo false"]
       ++ [Call (SshRun (mkSshClient "10.0.0.1:22") "sudo false")]).
Proof. vm_compute. reflexivity. Qed.

(** ** Listing and reading the files of a host *)

Lemma Split_no_sep (s : string) (sep : ascii) :
  GoStrings.HasByte sep s = false -> GoText.Split s sep = [s].
Proof.
  induction s as [|c s IH]; simpl; [reflexivity|].
  rewrite Ascii.eqb_sym. destruct (Ascii.eqb c sep); [discriminate|].
  intros H. by rewrite (IH H).
Qed.

Lemma Split_line (line rest : string) (sep : ascii) :
  GoStrings.HasByte sep line = false ->
  GoText.Split (line +:+ String sep rest) sep = line :: GoText.Split rest sep.
Proof.
  induction line as [|c line IH]; simpl.
  - intros _. by rewrite Ascii.eqb_refl.
  - rewrite Ascii.eqb_sym. destruct (Ascii.eqb c sep); [discriminate|].
    intros H. by rewrite (IH H).
Qed.

Lemma concat_empty_cons (x : string) (l : list string) :
  String.concat EmptyString (x :: l) = x +:+ String.concat EmptyString l.
Proof.
  destruct l as [|y l]; simpl; [by rewrite GoStringsFacts.app_empty_r|reflexivity].
Qed.

Lemma Split_unlines (lines : list string) (rest : string) :
  Forall (fun line => GoStrings.HasByte (ascii_of_nat 10) line = false) lines ->
  GoStrings.HasByte (ascii_of_nat 10) rest = false ->
  GoText.Split (unlines lines +:+ rest) (ascii_of_nat 10) = lines ++ [rest].
Proof.
  intros Hlines Hrest. induction Hlines as [|line lines Hline _ IH].
  - simpl. by apply Split_no_sep.
  - unfold unlines in *. cbn [map]. rewrite concat_empty_cons.
    rewrite !GoStringsFacts.app_assoc. unfold nl at 1.
    rewrite GoStringsFacts.app_String, GoStringsFacts.app_empty_l.
    rewrite (Split_line line _ _ Hline). by rewrite IH.
Qed.

(** X11.  [listFiles] returns the lines of the output of [find]: every
    line that ends in a line feed, in order, and nothing of what follows
    the last line feed (an output without line feed gives no file at
    all).  When the command fails, the error returned is made of its
    output alone. *)
Theorem listFiles_lines (env : Env) (conn : SshClient) (dir : string) (h : list Event) :
  reply_err (env h (SshNewSession conn)) = None ->
  let r := env (h ++ [Call (SshNewSession conn)]) (SshRun conn (findCommand dir)) in
  (forall lines rest,
     reply_err r = None ->
     reply_output r = unlines lines +:+ rest ->
     Forall (fun line => GoStrings.HasByte (ascii_of_nat 10) line = false) lines ->
     GoStrings.HasByte (ascii_of_nat 10) rest = false ->
     result (listFiles env conn dir) h = Val (lines, None))
  /\ (forall e,
        reply_err r = Some e ->
        result (listFiles env conn dir) h = Val ([], Some (errors_New (reply_output r)))).
Proof.
  intros Hs r. unfold result, listFiles, CombinedOutput, bind, call, ret. simpl.
  rewrite Hs. fold (findCommand dir). fold r. split.
  - intros lines rest Hr Hout Hlines Hrest. rewrite Hr, Hout. simpl.
    rewrite (Split_unlines lines rest Hlines Hrest).
    rewrite length_app. simpl. rewrite Nat.add_sub.
    by rewrite take_app_length.
  - intros e Hr. by rewrite Hr.
Qed.

Lemma listFiles_lines_witness :
  result (listFiles nodeHost (mkSshClient "10.0.0.1:22") "/etc/ravendb") []
  = Val (["/etc/ravendb/settings.json"; "/etc/ravendb/license.json"], None).
Proof.
  apply (proj1 (listFiles_lines nodeHost (mkSshClient "10.0.0.1:22") "/etc/ravendb" []
                  eq_refl)
               ["/etc/ravendb/settings.json"; "/etc/ravendb/license.json"] EmptyString).
  - reflexivity.
  - vm_compute. reflexivity.
  - repeat constructor.
  - reflexivity.
Defined.

Section RemoteFileFacts.

Variable env : Env.

Lemma readFileContents_unfold path stdoutBuf conn h :
  readFileContents env path stdoutBuf conn h =
  match reply_err (env h (SshNewSession conn)) with
  | Some e => (Val ([], Some e), [Call (SshNewSession conn)])
  | None =>
      let r := env (h ++ [Call (SshNewSession conn)]) (SshRun conn ("sudo cat " +:+ path)) in
      match reply_err r with
      | Some e =>
          (Val ([], Some (DeployError e ((stdoutBuf +:+ "sudo cat " +:+ path +:+ nl)
                                          +:+ reply_output r))),
           ran conn ("sudo cat " +:+ path))
      | None => (Val (String.list_byte_of_string (reply_output r), None),
                 ran conn ("sudo cat " +:+ path))
      end
  end.
Proof.
  unfold readFileContents, CombinedOutput, bind, call, ret. simpl.
  destruct (reply_err (env h (SshNewSession conn))); [reflexivity|]. simpl.
  by destruct (reply_err (env (h ++ [Call (SshNewSession conn)]) _)).
Qed.

(** A read that fails removes nothing; one that succeeds ran its command. *)
Lemma readFileContents_outcome path stdoutBuf conn h :
  match readFileContents env path stdoutBuf conn h with
  | (Val (bytes, None), t) =>
      t = ran conn ("sudo cat " +:+ path)
      /\ bytes = String.list_byte_of_string
                   (reply_output (env (h ++ [Call (SshNewSession conn)])
                                      (SshRun conn ("sudo cat " +:+ path))))
  | (Val (_, Some _), t) => Forall (fun ev => removes ev = false) t
  | (Panic _, _) => False
  end.
Proof.
  rewrite readFileContents_unfold. cbv zeta.
  destruct (reply_err (env h (SshNewSession conn))).
  { by repeat constructor. }
  destruct (reply_err (env (h ++ [Call (SshNewSession conn)]) _)).
  - by repeat constructor.
  - done.
Qed.

Lemma ranAll_removes conn commands :
  Forall (fun cmd => String.prefix "sudo rm " cmd = false) commands ->
  Forall (fun ev => removes ev = false) (ranAll conn commands).
Proof.
  intros H. induction H as [|cmd rest Hcmd _ IH]; [constructor|].
  unfold ranAll. simpl. by repeat constructor.
Qed.

(** What a failed [execute] of commands that remove nothing has sent. *)
Lemma execute_failure_removes publicIp commands onErr stdoutBuf conn h e buf t :
  Forall (fun cmd => String.prefix "sudo rm " cmd = false) commands ->
  execute env publicIp commands onErr stdoutBuf conn h = (Val (Some e, buf), t) ->
  Forall (fun ev => removes ev = false) t.
Proof.
  intros Hcmds E.
  pose proof (execute_loop_trace env onErr conn commands (stdoutBuf +:+ publicIp) h) as H.
  unfold execute in E. unfold result, trace in H. rewrite E in H. simpl in H.
  destruct H as (k & cmd & Hk & Ht).
  assert (Hc : String.prefix "sudo rm " cmd = false).
  { rewrite Forall_forall in Hcmds. apply Hcmds. by eapply list_elem_of_lookup_2. }
  assert (Hpre : Forall (fun ev => removes ev = false) (ranAll conn (take k commands))).
  { apply ranAll_removes. by apply Forall_take. }
  destruct Ht as [->|[-> _]].
  - apply Forall_app. split; [exact Hpre|]. by repeat constructor.
  - apply Forall_app. split; [exact Hpre|].
    destruct (String.eqb onErr ""); by repeat constructor.
Qed.

End RemoteFileFacts.

(** X12.  The outcomes of [extractServerKeyAndCertForStore].  When it
    succeeds, the six commands were run in order (two that write the key
    and the certificate out of the pfx, two that read them, two that
    remove them) and the holder carries what the two reads printed, and no
    pfx.  When it fails, the holder returned is empty, and either nothing
    was removed from the host (the failure came before the clean-up: the
    key written by the first command stays on the host) or the four
    commands before the clean-up had all been run. *)
Theorem extractServerKeyAndCertForStore_outcomes (env : Env) (sc : ServerConfig)
    (publicIP : string) (conn : SshClient) (stdoutBuf : string) (h : list Event) :
  let t := trace (extractServerKeyAndCertForStore env sc publicIP conn stdoutBuf) h in
  match result (extractServerKeyAndCertForStore env sc publicIP conn stdoutBuf) h with
  | Val (holder, None) =>
      t = ranAll conn (extractCommands ++ cleanupCommands)
      /\ holder =
         mkCertificateHolder []
           (String.list_byte_of_string
              (reply_output (env (h ++ ranAll conn (take 3 extractCommands)
                                    ++ [Call (SshNewSession conn)])
                                 (SshRun conn "sudo cat /etc/ravendb/security/server.crt"))))
           (String.list_byte_of_string
              (reply_output (env (h ++ ranAll conn (take 2 extractCommands)
                                    ++ [Call (SshNewSession conn)])
                                 (SshRun conn "sudo cat /etc/ravendb/security/server.key"))))
           [] []
  | Val (holder, Some _) =>
      holder = mkCertificateHolder [] [] [] [] []
      /\ (Forall (fun ev => removes ev = false) t
          \/ exists t', t = ranAll conn extractCommands ++ t')
  | Panic _ => False
  end.
Proof.
  cbv zeta. unfold result, trace, extractServerKeyAndCertForStore, bind, ret.
  pose proof (execute_loop_trace env "" conn (take 2 extractCommands)
                (stdoutBuf +:+ publicIP) h) as H1.
  pose proof (execute_failure_removes env publicIP (take 2 extractCommands) "" stdoutBuf conn h)
    as F1.
  unfold result, trace in H1. unfold execute in *.
  change (take 2 extractCommands) with
    ["sudo openssl pkcs12 -in " +:+ "/etc/ravendb/security/server.pfx"
       +:+ " -nocerts -nodes -out " +:+ "/etc/ravendb/security/server.key"
       +:+ " -password pass:";
     "sudo openssl pkcs12 -in " +:+ "/etc/ravendb/security/server.pfx"
       +:+ " -clcerts -nokeys -out " +:+ "/etc/ravendb/security/server.crt"
       +:+ " -password pass:"] in H1, F1.
  destruct (execute_loop env _ "" (stdoutBuf +:+ publicIP) conn h)
    as [[[[e1|] buf1]|msg] t1] eqn:E1; simpl in H1; [| |done].
  { simpl. split; [reflexivity|]. left. rewrite app_nil_r.
    apply (F1 e1 buf1 t1); [by repeat constructor|reflexivity]. }
  subst t1. clear F1.
  change (ranAll conn [_; _]) with (ranAll conn (take 2 extractCommands)).
  pose proof (readFileContents_outcome env "/etc/ravendb/security/server.key" buf1 conn
                (h ++ ranAll conn (take 2 extractCommands))) as H2.
  destruct (readFileContents env "/etc/ravendb/security/server.key" buf1 conn _)
    as [[[key [e2|]]|msg] t2] eqn:E2; [| |done].
  { simpl. split; [reflexivity|]. left. rewrite app_nil_r.
    repeat (constructor; [reflexivity|]). exact H2. }
  destruct H2 as [-> ->].
  pose proof (readFileContents_outcome env "/etc/ravendb/security/server.crt" buf1 conn
                ((h ++ ranAll conn (take 2 extractCommands))
                   ++ ran conn ("sudo cat " +:+ "/etc/ravendb/security/server.key"))) as H3.
  destruct (readFileContents env "/etc/ravendb/security/server.crt" buf1 conn _)
    as [[[crt [e3|]]|msg] t3] eqn:E3; [| |done].
  { simpl. split; [reflexivity|]. left. rewrite app_nil_r.
    repeat (constructor; [reflexivity|]). exact H3. }
  destruct H3 as [-> ->].
  match goal with
  | |- context [execute_loop env ?cmds "" ?b conn ?h'] =>
      pose proof (execute_loop_trace env "" conn cmds b h') as H4;
      unfold result, trace in H4;
      destruct (execute_loop env cmds "" b conn h') as [[[[e4|] buf4]|msg] t4] eqn:E4
  end; simpl in H4; [| |done].
  - simpl. split; [reflexivity|]. right. exists t4. rewrite app_nil_r. reflexivity.
  - simpl. subst t4. split.
    + rewrite app_nil_r. reflexivity.
    + f_equal.
      * do 3 f_equal. rewrite <- !app_assoc. reflexivity.
      * do 3 f_equal. rewrite <- !app_assoc. reflexivity.
Qed.

Section PurgeFacts.

Variable env : Env.

Lemma execute_loop_emits onErr conn : forall commands stdoutBuf,
  emits (fun e => is_remote_command e = true) (execute_loop env commands onErr stdoutBuf conn).
Proof.
  induction commands as [|cmd rest IH]; intros stdoutBuf; cbn [execute_loop].
  - apply emits_ret.
  - repeat (first [apply IH | emits_step]); reflexivity.
Qed.

Lemma execute_emits publicIp commands onErr stdoutBuf conn :
  emits (fun e => is_remote_command e = true) (execute env publicIp commands onErr stdoutBuf conn).
Proof. apply execute_loop_emits. Qed.

Lemma remote_commands_no_dial t :
  Forall (fun e => is_remote_command e = true) t ->
  dial_count t = 0%nat /\ Forall (fun e => is_sleep e = false) t.
Proof.
  intros H. induction H as [|e t He _ [IH1 IH2]]; [by split|].
  destruct e as [[]|]; try discriminate He; (split; [exact IH1|by constructor]).
Qed.

End PurgeFacts.

(** X13.  [purgeRavenDbInstance] dials the host once, without the
    retries of [ConnectToRemoteWithRetry], and never sleeps.  When the
    dial fails its error comes back as it is (without the text that marks
    an unreachable host) and nothing is run; otherwise the error of the
    purge command is what comes back. *)
Theorem purgeRavenDbInstance_dials_once (env : Env) (sc : ServerConfig) (publicIP : string)
    (h : list Event) :
  let t := trace (purgeRavenDbInstance env sc publicIP) h in
  (dial_count t <= 1)%nat
  /\ Forall (fun e => is_sleep e = false) t
  /\ (reply_err (env h (ParsePrivateKey (Pem (ScSSH sc)))) = None ->
      forall e,
        reply_err (env (h ++ [Call (ParsePrivateKey (Pem (ScSSH sc)))])
                       (SshDial (sshAddress sc publicIP))) = Some e ->
        purgeRavenDbInstance env sc publicIP h =
        (Val (Some e), [Call (ParsePrivateKey (Pem (ScSSH sc)));
                        Call (SshDial (sshAddress sc publicIP))])).
Proof.
  cbv zeta. unfold trace, purgeRavenDbInstance, bind, call, ret. simpl.
  fold (sshAddress sc publicIP).
  destruct (reply_err (env h (ParsePrivateKey (Pem (ScSSH sc))))) as [e0|].
  { simpl. split; [unfold dial_count; simpl; lia|]. split; [by repeat constructor|done]. }
  simpl.
  destruct (reply_err (env (h ++ [Call (ParsePrivateKey (Pem (ScSSH sc)))])
                           (SshDial (sshAddress sc publicIP)))) as [e1|].
  { simpl. split; [unfold dial_count; simpl; lia|]. split; [by repeat constructor|].
    intros _ e [= <-]. reflexivity. }
  pose proof (execute_emits env publicIP ["sudo apt-get -y purge ravendb"] "" ""
                (mkSshClient (sshAddress sc publicIP))
                ((h ++ [Call (ParsePrivateKey (Pem (ScSSH sc)))])
                   ++ [Call (SshDial (sshAddress sc publicIP))])) as He.
  unfold trace in He. apply remote_commands_no_dial in He. destruct He as [Hd Hs].
  destruct (execute env publicIP _ "" "" _ _) as [[[err buf]|msg] t]; simpl in *.
  - split; [unfold dial_count in *; simpl; rewrite app_nil_r; lia|].
    split; [|done]. rewrite app_nil_r. by repeat constructor.
  - split; [unfold dial_count in *; simpl; lia|].
    split; [|done]. by repeat constructor.
Qed.

Lemma purgeRavenDbInstance_dials_once_witness :
  purgeRavenDbInstance unreachableHost threeHosts "10.0.0.2" []
  = (Val (Some dialTimeout), [Call (ParsePrivateKey []); Call (SshDial "10.0.0.2:22")]).
Proof.
  apply (proj2 (proj2 (purgeRavenDbInstance_dials_once unreachableHost threeHosts
                         "10.0.0.2" []))); reflexivity.
Defined.

(** ** Reading the state of a node *)

Lemma result_bind {A B} (m : M A) (f : A -> M B) h b :
  result (bind m f) h = Val b ->
  exists a t, m h = (Val a, t) /\ result (f a) (h ++ t) = Val b.
Proof.
  unfold result, bind. destruct (m h) as [[a|msg] t1]; simpl; [|discriminate].
  intros H. exists a, t1. split; [reflexivity|]. by destruct (f a (h ++ t1)).
Qed.

(** Running backwards from the value a computation returned: through the
    binds and the case distinctions on its way. *)
Ltac returned H :=
  repeat first
    [ discriminate H
    | match type of H with
      | result (ret _) _ = Val _ =>
          let E := fresh "E" in
          assert (E := H); unfold result, ret in E; simpl in E;
          injection E as E; clear H; rename E into H
      end
    | match type of H with
      | result (bind _ _) _ = Val _ =>
          let a := fresh "a" in
          let t := fresh "t" in
          let Ha := fresh "Ha" in
          apply result_bind in H as (a & t & Ha & H)
      | result (match ?x with _ => _ end) _ = Val _ => destruct x eqn:?
      | result (if ?x then _ else _) _ = Val _ => destruct x eqn:?
      | result (let '(_, _) := ?p in _) _ = Val _ => destruct p eqn:?
      end ].

Section ReadServerFacts.

Variable env : Env.
Variable json_Unmarshal : list Byte.byte -> gmap string Any -> option GoError * gmap string Any.
Variable Sprintf_v : Any -> string.
Variable BuildVersion : list Event -> Z.

Lemma delete_found {V} (m : gmap string V) (k : string) :
  match m !! k with
  | Some _ => delete k m
  | None => m
  end = delete k m.
Proof. destruct (m !! k) eqn:E; [reflexivity|]. symmetry. by apply delete_id. Qed.

(** What the classification of the collected files leaves: the assets
    without the four files it takes out, settings that are all strings,
    and the two flags as they were. *)
Lemma ReadServer_classify_ok index ns ns' :
  ReadServer_classify json_Unmarshal Sprintf_v index ns = (ns', None) ->
  NsAssets ns' = delete "server.pfx" (delete "license.json" (delete "settings.json"
                   (delete "master.key" (NsAssets ns))))
  /\ (forall k v, NsSettings ns' !! k = Some v -> exists s, v = AnyString s)
  /\ NsUnsecured ns' = NsUnsecured ns
  /\ Failed ns' = Failed ns.
Proof.
  unfold ReadServer_classify. cbn [setAssets setSettings NsAssets NsSettings].
  set (a1 := delete "master.key" (NsAssets ns)).
  rewrite <- (delete_found a1 "settings.json").
  destruct (a1 !! "settings.json") as [file|].
  - destruct (json_Unmarshal file ∅) as [[e|] settings]; cbn; [discriminate|].
    set (a2 := delete "settings.json" a1).
    rewrite <- (delete_found a2 "license.json").
    destruct (a2 !! "license.json") as [lic|]; cbn.
    + set (a3 := delete "license.json" a2).
      rewrite <- (delete_found a3 "server.pfx").
      destruct (a3 !! "server.pfx"); cbn; intros [= <-]; cbn;
        (split; [reflexivity|split; [|done]]);
        intros k v Hk; apply lookup_fmap_Some in Hk as (x & <- & _); by eexists.
    + rewrite <- (delete_found a2 "server.pfx").
      destruct (a2 !! "server.pfx"); cbn; intros [= <-]; cbn;
        (split; [reflexivity|split; [|done]]);
        intros k v Hk; apply lookup_fmap_Some in Hk as (x & <- & _); by eexists.
  - cbn. rewrite <- (delete_found a1 "license.json").
    destruct (a1 !! "license.json") as [lic|]; cbn.
    + set (a3 := delete "license.json" a1).
      rewrite <- (delete_found a3 "server.pfx").
      destruct (a3 !! "server.pfx"); cbn; intros [= <-]; cbn;
        (split; [reflexivity|split; [|done]]);
        intros k v Hk; rewrite fmap_empty in Hk; by rewrite lookup_empty in Hk.
    + rewrite <- (delete_found a1 "server.pfx").
      destruct (a1 !! "server.pfx"); cbn; intros [= <-]; cbn;
        (split; [reflexivity|split; [|done]]);
        intros k v Hk; rewrite fmap_empty in Hk; by rewrite lookup_empty in Hk.
Qed.

Lemma ReadServer_assets_flags conn stdoutBuf : forall files ns h ns' err,
  result (ReadServer_assets env conn stdoutBuf files ns) h = Val (ns', err) ->
  NsUnsecured ns' = NsUnsecured ns /\ Failed ns' = Failed ns.
Proof.
  induction files as [|file rest IH]; intros ns h ns' err H; cbn [ReadServer_assets] in H.
  - returned H. by simplify_eq.
  - returned H.
    + by simplify_eq.
    + apply IH in H. exact H.
Qed.

(** A successful [ReadServer] went through the classification of the
    collected files and ended with the copy of the declared lists. *)
Lemma ReadServer_success sc publicIP index h ns :
  result (ReadServer env json_Unmarshal Sprintf_v BuildVersion sc publicIP index) h
    = Val (ns, None) ->
  exists collected classified version,
    ReadServer_classify json_Unmarshal Sprintf_v index collected = (classified, None)
    /\ ns = ReadServer_declared sc (setHost (setVersion classified version) publicIP)
    /\ NsUnsecured collected = false /\ Failed collected = false.
Proof.
  unfold ReadServer. intros H. returned H. subst.
  match goal with
  | H1 : ReadServer_assets _ _ _ _ (setAssets zeroNodeState _) _ = _,
    H2 : ReadServer_assets _ _ _ _ _ _ = (Val (?n, None), _) |- _ =>
      apply (f_equal fst) in H1, H2; simpl in H1, H2;
      apply ReadServer_assets_flags in H1, H2; simpl in H1; destruct H1, H2
  end.
  eexists _, _, _. split; [eassumption|]. split; [reflexivity|]. split; congruence.
Qed.

Lemma ReadServer_declared_lists sc ns :
  NsDatabases (ReadServer_declared sc ns) = Databases sc
  /\ NsDatabasesToDelete (ReadServer_declared sc ns) = DatabasesToDelete sc
  /\ NsIndexesToDelete (ReadServer_declared sc ns) = IndexesToDelete_ sc.
Proof.
  unfold ReadServer_declared. cbn. repeat split.
  - induction (Databases sc) as [|[] l IH]; [reflexivity|]. cbn. by rewrite IH.
  - induction (DatabasesToDelete sc) as [|[] l IH]; [reflexivity|]. cbn. by rewrite IH.
  - induction (IndexesToDelete_ sc) as [|[] l IH]; [reflexivity|]. cbn. by rewrite IH.
Qed.

End ReadServerFacts.

(** X14.  The assets of a state that [ReadServer] read hold none of the
    files it classifies: neither the master key of the node, nor its
    settings file, its licence or its certificate. *)
Theorem ReadServer_assets_hold_no_secret (env : Env)
    (json_Unmarshal : list Byte.byte -> gmap string Any -> option GoError * gmap string Any)
    (Sprintf_v : Any -> string) (BuildVersion : list Event -> Z)
    (sc : ServerConfig) (publicIP : string) (index : nat) (h : list Event) (ns : NodeState) :
  result (ReadServer env json_Unmarshal Sprintf_v BuildVersion sc publicIP index) h
    = Val (ns, None) ->
  NsAssets ns !! "master.key" = None
  /\ NsAssets ns !! "settings.json" = None
  /\ NsAssets ns !! "license.json" = None
  /\ NsAssets ns !! "server.pfx" = None.
Proof.
  intros H. apply ReadServer_success in H as (collected & classified & version & Hc & -> & _).
  apply ReadServer_classify_ok in Hc as (Ha & _). cbn. rewrite Ha.
  repeat split; repeat first [by rewrite lookup_delete_eq | rewrite lookup_delete_ne by done].
Qed.

Lemma ReadServer_assets_hold_no_secret_witness :
  NsAssets nodeStateA !! "master.key" = None
  /\ NsAssets nodeStateA !! "settings.json" = None
  /\ NsAssets nodeStateA !! "license.json" = None
  /\ NsAssets nodeStateA !! "server.pfx" = None.
Proof.
  apply (ReadServer_assets_hold_no_secret nodeHost (tableUnmarshalInto knownDocuments) showAny
           (fun _ => 54100) securedConfig "10.0.0.1" 0 []).
  vm_compute. reflexivity.
Defined.

(** X15.  What a state that [ReadServer] read says of the declarations.
    Its databases, databases to delete and indexes to delete are those of
    the configuration, whatever the node holds; its host is the address
    that was read; and it is never marked unsecured nor failed. *)
Theorem ReadServer_echoes_configuration (env : Env)
    (json_Unmarshal : list Byte.byte -> gmap string Any -> option GoError * gmap string Any)
    (Sprintf_v : Any -> string) (BuildVersion : list Event -> Z)
    (sc : ServerConfig) (publicIP : string) (index : nat) (h : list Event) (ns : NodeState) :
  result (ReadServer env json_Unmarshal Sprintf_v BuildVersion sc publicIP index) h
    = Val (ns, None) ->
  NsDatabases ns = Databases sc
  /\ NsDatabasesToDelete ns = DatabasesToDelete sc
  /\ NsIndexesToDelete ns = IndexesToDelete_ sc
  /\ NsHost ns = publicIP
  /\ NsUnsecured ns = false
  /\ Failed ns = false.
Proof.
  intros H.
  apply ReadServer_success in H as (collected & classified & version & Hc & -> & Hu & Hf).
  apply ReadServer_classify_ok in Hc as (_ & _ & Hu' & Hf').
  destruct (ReadServer_declared_lists sc (setHost (setVersion classified version) publicIP))
    as (Hd & Hdd & Hi).
  split; [exact Hd|]. split; [exact Hdd|]. split; [exact Hi|].
  cbn. split; [reflexivity|]. split; congruence.
Qed.

Lemma ReadServer_echoes_configuration_witness :
  NsDatabases nodeStateA = Databases securedConfig
  /\ NsDatabasesToDelete nodeStateA = DatabasesToDelete securedConfig
  /\ NsIndexesToDelete nodeStateA = IndexesToDelete_ securedConfig
  /\ NsHost nodeStateA = "10.0.0.1"
  /\ NsUnsecured nodeStateA = false
  /\ Failed nodeStateA = false.
Proof.
  apply (ReadServer_echoes_configuration nodeHost (tableUnmarshalInto knownDocuments) showAny
           (fun _ => 54100) securedConfig "10.0.0.1" 0 []).
  vm_compute. reflexivity.
Defined.

(** X16.  Every setting of a state that [ReadServer] read is a string,
    whatever the settings file of the node held. *)
Theorem ReadServer_settings_are_strings (env : Env)
    (json_Unmarshal : list Byte.byte -> gmap string Any -> option GoError * gmap string Any)
    (Sprintf_v : Any -> string) (BuildVersion : list Event -> Z)
    (sc : ServerConfig) (publicIP : string) (index : nat) (h : list Event) (ns : NodeState) :
  result (ReadServer env json_Unmarshal Sprintf_v BuildVersion sc publicIP index) h
    = Val (ns, None) ->
  forall k v, NsSettings ns !! k = Some v -> exists s, v = AnyString s.
Proof.
  intros H. apply ReadServer_success in H as (collected & classified & version & Hc & -> & _).
  apply ReadServer_classify_ok in Hc as (_ & Hs & _). exact Hs.
Qed.

Lemma ReadServer_settings_are_strings_witness :
  NsSettings nodeStateA !! "DataDir" = Some (AnyString "/var/lib/ravendb")
  /\ exists s, AnyString "/var/lib/ravendb" = AnyString s.
Proof.
  split; [reflexivity|].
  refine (ReadServer_settings_are_strings nodeHost (tableUnmarshalInto knownDocuments) showAny
            (fun _ => 54100) securedConfig "10.0.0.1" 0 [] nodeStateA _ "DataDir" _ _);
    vm_compute; reflexivity.
Defined.

(** X17.  On a host whose SSH port never answers, [ReadServer] gives up
    after the six dials of [ConnectToRemoteWithRetry]: it returns the zero
    state and an error whose text carries the mark of an unreachable host,
    the one [readRavenDbInstances] looks for. *)
Theorem ReadServer_unreachable (env : Env)
    (json_Unmarshal : list Byte.byte -> gmap string Any -> option GoError * gmap string Any)
    (Sprintf_v : Any -> string) (BuildVersion : list Event -> Z)
    (sc : ServerConfig) (publicIP : string) (index : nat) (h : list Event) :
  reply_err (env h (ParsePrivateKey (Pem (ScSSH sc)))) = None ->
  (forall j, (j <= NUMBER_OF_RETRIES)%nat ->
     reply_err (nth_reply env (h ++ [Call (ParsePrivateKey (Pem (ScSSH sc)))])
                          (SshDial (sshAddress sc publicIP)) 2 j) <> None) ->
  exists e,
    result (ReadServer env json_Unmarshal Sprintf_v BuildVersion sc publicIP index) h
      = Val (zeroNodeState, Some e)
    /\ GoStrings.Contains (err_msg e) "Unable to SSH to" = true
    /\ dial_count (trace (ReadServer env json_Unmarshal Sprintf_v BuildVersion
                            sc publicIP index) h) = 6%nat.
Proof.
  intros Hkey Hdial.
  set (h1 := h ++ [Call (ParsePrivateKey (Pem (ScSSH sc)))]) in *.
  assert (Hc : ConnectToRemoteWithRetry env sc publicIP None h1 =
               (Val (None, Some (errors_New
                  ("Unable to SSH to " +:+ sshAddress sc publicIP +:+ " because "
                   +:+ match reply_err (nth_reply env h1 (SshDial (sshAddress sc publicIP)) 2 5)
                       with Some e => err_msg e | None => EmptyString end))),
                attempts (SshDial (sshAddress sc publicIP)) 2 5
                  ++ [Call (SshDial (sshAddress sc publicIP))])).
  { unfold ConnectToRemoteWithRetry. fold (sshAddress sc publicIP).
    rewrite (ConnectToRemoteWithRetry_loop_after env (sshAddress sc publicIP) 5
               (S NUMBER_OF_RETRIES) 0 None h1);
      [|unfold NUMBER_OF_RETRIES; lia|unfold NUMBER_OF_RETRIES; lia
       |intros j Hj; apply Hdial; unfold NUMBER_OF_RETRIES; lia].
    change (S NUMBER_OF_RETRIES - 5)%nat with 1%nat. change (0 + 5)%nat with 5%nat.
    pose proof (Hdial 5%nat ltac:(unfold NUMBER_OF_RETRIES; lia)) as H5.
    unfold nth_reply in *.
    destruct (reply_err (env (h1 ++ attempts (SshDial (sshAddress sc publicIP)) 2 5)
                             (SshDial (sshAddress sc publicIP)))) as [e|] eqn:E; [|done].
    rewrite (ConnectToRemoteWithRetry_loop_last env (sshAddress sc publicIP) 0 5 None _ e E);
      [reflexivity|unfold NUMBER_OF_RETRIES; lia]. }
  eexists. unfold result, trace, ReadServer.
  rewrite (bind_val _ _ h (env h (ParsePrivateKey (Pem (ScSSH sc))))
             [Call (ParsePrivateKey (Pem (ScSSH sc)))] eq_refl).
  rewrite Hkey. fold h1. rewrite (bind_val _ _ h1 _ _ Hc). cbn [fst snd].
  split; [reflexivity|]. split.
  - exact (GoStringsFacts.Contains_prefix "Unable to SSH to" _).
  - reflexivity.
Qed.

Lemma ReadServer_unreachable_witness :
  exists e,
    result (ReadServer unreachableHost (tableUnmarshalInto knownDocuments) showAny
              (fun _ => 54100) threeHosts "10.0.0.2" 1) []
      = Val (zeroNodeState, Some e)
    /\ GoStrings.Contains (err_msg e) "Unable to SSH to" = true
    /\ dial_count (trace (ReadServer unreachableHost (tableUnmarshalInto knownDocuments) showAny
                            (fun _ => 54100) threeHosts "10.0.0.2" 1) []) = 6%nat.
Proof.
  apply ReadServer_unreachable.
  - reflexivity.
  - intros j _. discriminate.
Defined.

(** ** Creating a database *)

Section CreateDatabaseFacts.

Variable env : Env.

(** A topology query that is answered at once. *)
Lemma getClusterTopology_answered h :
  reply_err (env h topologyQuery) = None ->
  getClusterTopology env h = (Val (env h topologyQuery), [Call topologyQuery]).
Proof.
  intros H. unfold getClusterTopology, executeWithRetries. change NUMBER_OF_RETRIES with 5%nat.
  erewrite bind_val; [|apply executeWithRetries_loop_stop; unfold topologyQuery in H; by rewrite H].
  unfold topologyQuery in H. rewrite H. simpl. by rewrite ?app_nil_r.
Qed.

(** The wait of [createDatabase] while the members are not all there. *)
Lemma createDatabase_wait_mismatch sc : forall n h,
  (forall i, (i < n)%nat ->
     reply_err (nth_reply env h topologyQuery 5 i) = None
     /\ length (reply_members (nth_reply env h topologyQuery 5 i))
        <> length (UrlList (ScUrl sc))) ->
  createDatabase_wait env sc n h = (Val None, attempts topologyQuery 5 n).
Proof.
  unfold nth_reply.
  induction n as [|n IH]; intros h H; [reflexivity|].
  destruct (H 0%nat ltac:(lia)) as [H0 Hm]. simpl in H0, Hm. rewrite app_nil_r in H0, Hm.
  cbn [createDatabase_wait].
  rewrite (bind_val _ _ h _ _ (getClusterTopology_answered h H0)). rewrite H0.
  apply Nat.eqb_neq in Hm. rewrite Hm. change (negb false) with true. cbv iota.
  rewrite (bind_val _ _ (h ++ [Call topologyQuery]) tt [Sleep 5] eq_refl).
  rewrite <- app_assoc. simpl app.
  rewrite IH.
  - reflexivity.
  - intros i Hi. rewrite attempts_snoc. apply (H (S i)). lia.
Qed.

Lemma createDatabase_wait_match sc n h :
  reply_err (env h topologyQuery) = None ->
  length (reply_members (env h topologyQuery)) = length (UrlList (ScUrl sc)) ->
  createDatabase_wait env sc (S n) h = (Val None, [Call topologyQuery]).
Proof.
  intros H0 Hm. cbn [createDatabase_wait].
  rewrite (bind_val _ _ h _ _ (getClusterTopology_answered h H0)). rewrite H0.
  apply Nat.eqb_eq in Hm. rewrite Hm. simpl. by rewrite ?app_nil_r.
Qed.

(** The retry loop begins with its operation. *)
Lemma executeWithRetries_begins op h :
  exists t, trace (executeWithRetries env op) h = Call (ServerSend op) :: t.
Proof.
  unfold executeWithRetries. change NUMBER_OF_RETRIES with 5%nat.
  cbn [executeWithRetries_loop]. rewrite trace_bind. simpl. by eexists.
Qed.

End CreateDatabaseFacts.

(** X18.  [createDatabase] reports a concurrency error of the creation as
    a success: when the cluster has all its members and answers the
    creation with an error of that type whose text does not say that the
    database already exists, the call returns no error after the one
    attempt. *)
Theorem createDatabase_swallows_concurrency_error (env : Env) (sc : ServerConfig)
    (dbRecord : DatabaseRecord) (repFactor : Z) (h : list Event) (e : GoError) :
  reply_err (env h topologyQuery) = None ->
  length (reply_members (env h topologyQuery)) = length (UrlList (ScUrl sc)) ->
  reply_err (env (h ++ [Call topologyQuery])
                 (ServerSend (CreateDatabaseOperation dbRecord repFactor))) = Some e ->
  err_type e = ConcurrencyError ->
  errors_As (Some e) NoLeaderError = false ->
  GoStrings.Contains (err_msg e) "already exists!" = false ->
  createDatabase env sc dbRecord repFactor h =
  (Val None, [Call topologyQuery; Call (ServerSend (CreateDatabaseOperation dbRecord repFactor))]).
Proof.
  intros H0 Hm He Hty Hnl Hmsg. unfold createDatabase. change NUMBER_OF_RETRIES with 5%nat.
  rewrite (bind_val _ _ h _ _ (createDatabase_wait_match env sc 4 h H0 Hm)).
  unfold executeWithRetries. change NUMBER_OF_RETRIES with 5%nat.
  erewrite bind_val; [|apply executeWithRetries_loop_stop; by rewrite He].
  rewrite He, Hmsg, Hty. reflexivity.
Qed.

Lemma createDatabase_swallows_concurrency_error_witness :
  createDatabase busyCluster (oneNodeConfig [] []) (recordWithMembers "orders" ["A"]) 0 [] =
  (Val None, [Call topologyQuery;
              Call (ServerSend (CreateDatabaseOperation (recordWithMembers "orders" ["A"]) 0))]).
Proof.
  apply (createDatabase_swallows_concurrency_error busyCluster (oneNodeConfig [] [])
           (recordWithMembers "orders" ["A"]) 0 [] concurrentWrite); reflexivity.
Defined.

(** X19.  The wait of [createDatabase] is bounded: when the cluster
    answers five topology queries in a row without having as many members
    as the configuration has URLs, the creation is sent all the same,
    after the five queries and five sleeps of 5 seconds. *)
Theorem createDatabase_wait_is_bounded (env : Env) (sc : ServerConfig)
    (dbRecord : DatabaseRecord) (repFactor : Z) (h : list Event) :
  (forall i, (i < NUMBER_OF_RETRIES)%nat ->
     reply_err (nth_reply env h topologyQuery 5 i) = None
     /\ length (reply_members (nth_reply env h topologyQuery 5 i))
        <> length (UrlList (ScUrl sc))) ->
  exists t,
    trace (createDatabase env sc dbRecord repFactor) h =
    attempts topologyQuery 5 5
      ++ Call (ServerSend (CreateDatabaseOperation dbRecord repFactor)) :: t.
Proof.
  intros H. unfold trace at 1. unfold createDatabase.
  rewrite (bind_val _ _ h None _ (createDatabase_wait_mismatch env sc NUMBER_OF_RETRIES h H)).
  cbn [snd].
  match goal with
  | |- context [snd (bind ?m ?f ?h')] => change (snd (bind m f h')) with (trace (bind m f) h')
  end.
  rewrite trace_bind.
  destruct (executeWithRetries_begins env (CreateDatabaseOperation dbRecord repFactor)
              (h ++ attempts topologyQuery 5 NUMBER_OF_RETRIES)) as [t ->].
  eexists. reflexivity.
Qed.

Lemma createDatabase_wait_is_bounded_witness :
  exists t,
    trace (createDatabase formingCluster (twoNodeConfig [])
             (recordWithMembers "orders" ["A"; "B"]) 0) [] =
    attempts topologyQuery 5 5
      ++ Call (ServerSend (CreateDatabaseOperation (recordWithMembers "orders" ["A"; "B"]) 0))
         :: t.
Proof.
  apply createDatabase_wait_is_bounded.
  intros i _. split; [reflexivity|]. simpl. lia.
Defined.

(** ** The databases of a run *)

Section CreationFacts.

Variable env : Env.
Variable ToUpper : string -> string.
Variable TrimSpace : string -> string.

(** The history at which an event of a bind was sent. *)
Lemma accepted_creation_bind {A B} (m : M A) (f : A -> M B) h i rec :
  accepted_creation env h (trace (bind m f) h) i rec ->
  accepted_creation env h (trace m h) i rec
  \/ exists a, result m h = Val a /\ (length (trace m h) <= i)%nat
               /\ accepted_creation env (h ++ trace m h) (trace (f a) (h ++ trace m h))
                    (i - length (trace m h)) rec.
Proof.
  rewrite trace_bind. intros (repFactor & Hi & Hr).
  destruct (decide (i < length (trace m h))%nat) as [Hlt|Hge].
  - left. exists repFactor. rewrite lookup_app_l in Hi by done.
    rewrite take_app_le in Hr by lia. by split.
  - right. rewrite lookup_app_r in Hi by lia.
    rewrite take_app_ge in Hr by lia. rewrite app_assoc in Hr.
    destruct (result m h) as [a|msg]; [|(cbn in Hi; discriminate Hi)].
    exists a. split; [reflexivity|]. split; [lia|]. by exists repFactor.
Qed.

(** A computation none of whose events is a creation. *)
Lemma no_creation {A} (m : M A) h i rec :
  emits (fun e => database_create e = false) m ->
  ~ accepted_creation env h (trace m h) i rec.
Proof.
  intros Hm (repFactor & Hi & _). specialize (Hm h). rewrite Forall_lookup in Hm.
  by specialize (Hm _ _ Hi).
Qed.

Lemma executeWithRetries_loop_accepted op : forall n last h i rec,
  accepted_creation env h (trace (executeWithRetries_loop env n op last) h) i rec ->
  S i = length (trace (executeWithRetries_loop env n op last) h)
  /\ exists r, result (executeWithRetries_loop env n op last) h = Val r /\ reply_err r = None.
Proof.
  induction n as [|n IH]; intros last h i rec (repFactor & Hi & Hr).
  { cbn in Hi. discriminate Hi. }
  destruct (errors_As (reply_err (env h (ServerSend op))) NoLeaderError) eqn:Hnl.
  - unfold trace, result in *.
    rewrite (executeWithRetries_loop_retry env n op last h Hnl) in *. cbn [fst snd] in *.
    destruct i as [|[|i]]; simpl in Hi, Hr.
    + injection Hi as Hop. subst op. rewrite app_nil_r in Hr. by rewrite Hr in Hnl.
    + discriminate Hi.
    + destruct (IH (env h (ServerSend op)) (h ++ [Call (ServerSend op); Sleep 5]) i rec)
        as [Hlen Hres].
      { exists repFactor. split; [exact Hi|]. by rewrite <- app_assoc. }
      split; [simpl; by rewrite <- Hlen|exact Hres].
  - unfold trace, result in *.
    rewrite (executeWithRetries_loop_stop env n op last h Hnl) in *. cbn [fst snd] in *.
    destruct i as [|i]; [|(cbn in Hi; discriminate Hi)].
    simpl in Hi, Hr. injection Hi as Hop. subst op. rewrite app_nil_r in Hr.
    split; [reflexivity|]. by eexists.
Qed.

Lemma createDatabase_wait_emits sc n :
  emits (fun e => database_create e = false) (createDatabase_wait env sc n).
Proof.
  induction n as [|n IH]; cbn [createDatabase_wait]; [apply emits_ret|].
  apply emits_bind; [by apply getClusterTopology_emits|].
  intros r. repeat emits_step; done.
Qed.

(** A creation that the cluster accepts ends [createDatabase], without error. *)
Lemma createDatabase_accepted sc dbRecord repFactor h i rec :
  accepted_creation env h (trace (createDatabase env sc dbRecord repFactor) h) i rec ->
  S i = length (trace (createDatabase env sc dbRecord repFactor) h)
  /\ result (createDatabase env sc dbRecord repFactor) h = Val None
  /\ rec = dbRecord.
Proof.
  intros H.
  assert (Hrec : rec = dbRecord).
  { destruct H as (f & Hi & _).
    pose proof (createDatabase_emits env
                  (fun e => forall r' f', e = Call (ServerSend (CreateDatabaseOperation r' f'))
                                          -> r' = dbRecord) sc dbRecord repFactor) as He.
    specialize (He ltac:(done) ltac:(done) ltac:(by intros ? ? [= ->]) h).
    rewrite Forall_lookup in He. exact (He _ _ Hi _ _ eq_refl). }
  split; [|split; [|exact Hrec]].
  - unfold createDatabase in *.
    apply accepted_creation_bind in H as [H|(w & Hw & Hlen & H)].
    { by apply no_creation in H; [|apply createDatabase_wait_emits]. }
    rewrite trace_bind, Hw. destruct w as [e|].
    { exfalso. destruct H as (f & Hi & _). cbn in Hi. discriminate Hi. }
    apply accepted_creation_bind in H as [H|(r & _ & _ & H)].
    + apply executeWithRetries_loop_accepted in H as [Hl (r & Hr & Hok)].
      rewrite trace_bind. unfold executeWithRetries. rewrite Hr, Hok.
      unfold executeWithRetries in Hl. rewrite !length_app, <- Hl.
      change (length (trace (ret None) _)) with 0%nat. lia.
    + exfalso. destruct H as (f & Hi & _).
      destruct (reply_err r) as [e|]; [|cbn in Hi; discriminate Hi].
      destruct (GoStrings.Contains (err_msg e) "already exists!"); [cbn in Hi; discriminate Hi|].
      destruct (negb (bool_decide (err_type e = ConcurrencyError))); cbn in Hi; discriminate Hi.
  - unfold createDatabase in *.
    apply accepted_creation_bind in H as [H|(w & Hw & Hlen & H)].
    { by apply no_creation in H; [|apply createDatabase_wait_emits]. }
    unfold result in Hw |- *. unfold trace in H. unfold bind at 1.
    destruct (createDatabase_wait env sc NUMBER_OF_RETRIES h) as [rw tw].
    cbn [fst snd] in *. subst rw. destruct w as [e|].
    { exfalso. destruct H as (f & Hi & _). cbn in Hi. discriminate Hi. }
    fold (trace (r <- executeWithRetries env (CreateDatabaseOperation dbRecord repFactor);;
                 match reply_err r with
                 | Some e =>
                     if GoStrings.Contains (err_msg e) "already exists!" then ret (Some e)
                     else if negb (bool_decide (err_type e = ConcurrencyError)) then ret (Some e)
                     else ret None
                 | None => ret None
                 end) (h ++ tw)) in H.
    apply accepted_creation_bind in H as [H|(r & _ & _ & H)].
    + apply executeWithRetries_loop_accepted in H as [Hl (r & Hr & Hok)].
      unfold executeWithRetries, result in *. unfold bind.
      destruct (executeWithRetries_loop env NUMBER_OF_RETRIES _ okReply (h ++ tw)) as [r' te].
      cbn [fst snd] in *. subst r'. by rewrite Hok.
    + exfalso. destruct H as (f & Hi & _).
      destruct (reply_err r) as [e|]; [|cbn in Hi; discriminate Hi].
      destruct (GoStrings.Contains (err_msg e) "already exists!"); [cbn in Hi; discriminate Hi|].
      destruct (negb (bool_decide (err_type e = ConcurrencyError))); cbn in Hi; discriminate Hi.
Qed.

End CreationFacts.

Lemma result_bind_eq {A B} (m : M A) (f : A -> M B) h :
  result (bind m f) h =
  match result m h with
  | Val a => result (f a) (h ++ trace m h)
  | Panic msg => Panic msg
  end.
Proof.
  unfold result, trace, bind. destruct (m h) as [[a|msg] t1]; simpl; [|reflexivity].
  by destruct (f a (h ++ t1)).
Qed.

Section CreateDatabasesFacts.

Variable env : Env.
Variable ToUpper : string -> string.
Variable TrimSpace : string -> string.

Lemma ends_bind_r {A B} (m : M A) (f : A -> M B) h i a R :
  result m h = Val a -> (length (trace m h) <= i)%nat ->
  ends_with (f a) (h ++ trace m h) (i - length (trace m h)) R ->
  ends_with (bind m f) h i R.
Proof.
  intros Ha Hlen [Hl Hr]. unfold ends_with.
  rewrite trace_bind, result_bind_eq, Ha, length_app. split; [lia|exact Hr].
Qed.

Lemma ends_bind_l {A B} (m : M A) (f : A -> M B) h i a R :
  S i = length (trace m h) -> result m h = Val a ->
  f a (h ++ trace m h) = (R, []) ->
  ends_with (bind m f) h i R.
Proof.
  intros Hl Ha Hf. unfold ends_with. rewrite trace_bind, result_bind_eq, Ha.
  unfold trace at 2, result. rewrite Hf. simpl. by rewrite app_nil_r.
Qed.

(** A stage that creates nothing is passed before an accepted creation. *)
Lemma accepted_creation_later {A B} (m : M A) (f : A -> M B) h i rec :
  emits (fun e => database_create e = false) m ->
  accepted_creation env h (trace (bind m f) h) i rec ->
  exists a, result m h = Val a /\ (length (trace m h) <= i)%nat
            /\ accepted_creation env (h ++ trace m h) (trace (f a) (h ++ trace m h))
                 (i - length (trace m h)) rec.
Proof.
  intros Hm H. apply accepted_creation_bind in H as [H|H]; [|exact H].
  by apply no_creation in H.
Qed.

Lemma accepted_creation_nil h i rec (t : list Event) :
  t = [] -> ~ accepted_creation env h t i rec.
Proof. intros -> (f & Hi & _). cbn in Hi. discriminate Hi. Qed.

Lemma modifyDatabase_emits_class (P : Event -> Prop) dbRecord :
  P (Sleep 5) ->
  P (Call (ExecuteCommand (RecDatabaseName dbRecord) GetDatabaseTopologyCommand)) ->
  (forall names tags, P (Call (ServerSend (DeleteDatabasesOperation names true tags)))) ->
  (forall name node, P (Call (ServerSend (OperationAddDatabaseNode name node)))) ->
  emits P (modifyDatabase env ToUpper dbRecord).
Proof.
  intros Hs Hc Hd Ha. unfold modifyDatabase. apply emits_bind; [by apply emits_call|].
  intros r. destruct (reply_nodes r); [|apply emits_ret].
  destruct (RecTopology dbRecord); [|apply emits_panic].
  destruct (modifyDatabase_loop ToUpper l [] (Members d)) as [rm members].
  apply emits_bind.
  - destruct rm; [apply emits_ret|].
    apply emits_bind; [by apply executeWithRetries_emits_class|intros; apply emits_ret].
  - intros err. destruct err; [apply emits_ret|].
    eapply emits_weaken; [|apply addDatabaseNode_emits].
    intros e [->|(n & _ & ->)]; [exact Hs|apply Ha].
Qed.

Lemma createDatabases_distribute_emits (P : Event -> Prop) dbs :
  P (Sleep 5) ->
  (forall name nodes key, P (Call (ServerSend (OperationDistributeSecretKey name nodes key)))) ->
  emits P (createDatabases_distribute env TrimSpace dbs).
Proof.
  intros Hs Hd. induction dbs as [|db rest IH]; cbn [createDatabases_distribute];
    [apply emits_ret|].
  destruct (hasKey TrimSpace db); [|exact IH].
  apply emits_bind.
  - unfold distributeSecretKey. apply emits_bind;
      [by apply executeWithRetries_emits_class|intros; apply emits_ret].
  - intros err. destruct err; [apply emits_ret|exact IH].
Qed.

(** The creation loop ends at the first creation that the cluster
    accepts: with a panic for a database with key, without error for one
    without. *)
Lemma createDatabases_create_accepted sc : forall dbs h i rec,
  accepted_creation env h (trace (createDatabases_create env ToUpper TrimSpace sc dbs) h) i rec ->
  ends_with (createDatabases_create env ToUpper TrimSpace sc dbs) h i
            (if Encrypted rec
             then Panic "invalid memory address or nil pointer dereference"
             else Val None).
Proof.
  induction dbs as [|db rest IH]; intros h i rec H.
  { by apply accepted_creation_nil in H. }
  cbn [createDatabases_create] in *.
  destruct (hasKey TrimSpace db).
  - apply accepted_creation_bind in H as [H|(err & Herr & Hlen & H)].
    + apply createDatabase_accepted in H as (Hl & Hr & ->).
      by eapply ends_bind_l.
    + eapply ends_bind_r; [exact Herr|exact Hlen|].
      destruct err as [e|]; [|by apply accepted_creation_nil in H].
      destruct (GoStrings.Contains (err_msg e) "already exists!");
        [|by apply accepted_creation_nil in H].
      apply accepted_creation_later in H as (err' & Herr' & Hlen' & H);
        [|by apply modifyDatabase_emits_class].
      eapply ends_bind_r; [exact Herr'|exact Hlen'|].
      destruct err'; [by apply accepted_creation_nil in H|].
      by apply IH.
  - apply accepted_creation_bind in H as [H|(err & Herr & Hlen & H)].
    + apply createDatabase_accepted in H as (Hl & Hr & ->).
      by eapply ends_bind_l.
    + eapply ends_bind_r; [exact Herr|exact Hlen|].
      destruct err as [e|]; [|by apply accepted_creation_nil in H].
      destruct (GoStrings.Contains (err_msg e) "already exists!");
        [|by apply accepted_creation_nil in H].
      apply accepted_creation_later in H as (err' & Herr' & Hlen' & H);
        [|by apply modifyDatabase_emits_class].
      eapply ends_bind_r; [exact Herr'|exact Hlen'|].
      destruct err'; [by apply accepted_creation_nil in H|].
      by apply IH.
Qed.

End CreateDatabasesFacts.

(** X20.  [createDatabases] ends at the first creation that the cluster
    accepts: that request is the last of the run, so the databases
    declared after it are neither created nor compared with the cluster.
    For a database without key the run returns no error; for a database
    with key it panics, on the nil error that the source dereferences. *)
Theorem createDatabases_stops_after_creation (env : Env) (ToUpper TrimSpace : string -> string)
    (sc : ServerConfig) (h : list Event) (i : nat) (rec : DatabaseRecord) :
  accepted_creation env h (trace (createDatabases env ToUpper TrimSpace sc) h) i rec ->
  S i = length (trace (createDatabases env ToUpper TrimSpace sc) h)
  /\ result (createDatabases env ToUpper TrimSpace sc) h =
     (if Encrypted rec
      then Panic "invalid memory address or nil pointer dereference"
      else Val None).
Proof.
  unfold createDatabases. intros H.
  apply accepted_creation_later in H as (err & Herr & Hlen & H);
    [|by apply createDatabases_distribute_emits].
  eapply ends_bind_r; [exact Herr|exact Hlen|].
  destruct err; [by apply accepted_creation_nil in H|].
  by apply createDatabases_create_accepted.
Qed.

Lemma createDatabases_stops_after_creation_witness :
  S 1 = length (trace (createDatabases (healthyCluster ["A"]) GoStrings.ToUpper
                         GoStrings.TrimSpace (oneNodeConfig ordersAndInvoices [])) [])
  /\ result (createDatabases (healthyCluster ["A"]) GoStrings.ToUpper GoStrings.TrimSpace
               (oneNodeConfig ordersAndInvoices [])) [] =
     (if Encrypted (mkDatabaseRecord "orders" ∅ false
                      (Some (mkDatabaseTopology ["A"] 1 false)))
      then Panic "invalid memory address or nil pointer dereference"
      else Val None).
Proof.
  apply createDatabases_stops_after_creation.
  exists 0. split; reflexivity.
Defined.

Section KeyDistributionFacts.

Variable env : Env.
Variable ToUpper : string -> string.
Variable TrimSpace : string -> string.

Lemma createDatabases_create_emits (P : Event -> Prop) sc : forall dbs,
  P (Sleep 5) -> P (Call topologyQuery) ->
  (forall rec f, P (Call (ServerSend (CreateDatabaseOperation rec f)))) ->
  (forall name, P (Call (ExecuteCommand name GetDatabaseTopologyCommand))) ->
  (forall names tags, P (Call (ServerSend (DeleteDatabasesOperation names true tags)))) ->
  (forall name node, P (Call (ServerSend (OperationAddDatabaseNode name node)))) ->
  emits P (createDatabases_create env ToUpper TrimSpace sc dbs).
Proof.
  intros dbs Hs Ht Hc He Hd Ha.
  induction dbs as [|db rest IH]; cbn [createDatabases_create]; [apply emits_ret|].
  destruct (hasKey TrimSpace db).
  - apply emits_bind; [by apply createDatabase_emits|].
    intros err. destruct err as [e|]; [|apply emits_panic].
    destruct (GoStrings.Contains (err_msg e) "already exists!"); [|apply emits_ret].
    apply emits_bind; [by apply modifyDatabase_emits_class|].
    intros err. destruct err; [apply emits_ret|exact IH].
  - apply emits_bind; [by apply createDatabase_emits|].
    intros err. destruct err as [e|]; [|apply emits_ret].
    destruct (GoStrings.Contains (err_msg e) "already exists!"); [|apply emits_ret].
    apply emits_bind; [by apply modifyDatabase_emits_class|].
    intros err. destruct err; [apply emits_ret|exact IH].
Qed.

End KeyDistributionFacts.

(** X21.  [createDatabases] sends the keys first: every distribution of a
    key precedes every other request of the run, be it a topology query, a
    creation or a call of the modify fallback.  (A key that cannot be
    distributed ends the run before any database is created.) *)
Theorem createDatabases_distributes_keys_first (env : Env) (ToUpper TrimSpace : string -> string)
    (sc : ServerConfig) (h : list Event) (i j : nat) (e1 e2 : Event) :
  trace (createDatabases env ToUpper TrimSpace sc) h !! i = Some e1 ->
  trace (createDatabases env ToUpper TrimSpace sc) h !! j = Some e2 ->
  key_distribution e1 = true ->
  key_distribution e2 = false -> is_sleep e2 = false ->
  (i < j)%nat.
Proof.
  unfold createDatabases. rewrite trace_bind. intros Hi Hj H1 H2 Hs.
  pose proof (createDatabases_distribute_emits env TrimSpace
                (fun e => is_sleep e = true \/ key_distribution e = true) (Databases sc)
                ltac:(by left) ltac:(by right) h) as Hd.
  rewrite Forall_lookup in Hd.
  assert (Hc : Forall (fun e => key_distribution e = false)
                 match result (createDatabases_distribute env TrimSpace (Databases sc)) h with
                 | Val a =>
                     trace match a with
                           | Some e => ret (Some e)
                           | None => createDatabases_create env ToUpper TrimSpace sc (Databases sc)
                           end
                           (h ++ trace (createDatabases_distribute env TrimSpace (Databases sc)) h)
                 | Panic _ => []
                 end).
  { destruct (result _ h) as [[e|]|]; [constructor| |constructor].
    by apply createDatabases_create_emits. }
  rewrite Forall_lookup in Hc.
  destruct (decide (i < length (trace (createDatabases_distribute env TrimSpace (Databases sc)) h))%nat)
    as [Hlt|Hge].
  - destruct (decide (j < length (trace (createDatabases_distribute env TrimSpace
                                          (Databases sc)) h))%nat) as [Hjlt|Hjge]; [|lia].
    rewrite lookup_app_l in Hj by done.
    destruct (Hd _ _ Hj) as [Hsl|Hk]; congruence.
  - rewrite lookup_app_r in Hi by lia. specialize (Hc _ _ Hi). congruence.
Qed.

Lemma createDatabases_distributes_keys_first_witness :
  let t := trace (createDatabases (healthyCluster ["A"]) GoStrings.ToUpper GoStrings.TrimSpace
                    (oneNodeConfig encryptedDatabases [])) [] in
  t !! 1%nat = Some (Call (ServerSend (OperationDistributeSecretKey "invoices" ["A"]
                                         "a2V5LXR3bw==")))
  /\ t !! 3%nat = Some (Call (ServerSend (CreateDatabaseOperation
                                            (databaseRecordOf (mkDatabase "orders" ∅ ["A"]
                                                                 "a2V5LW9uZQ==" [])) 0)))
  /\ (1 < 3)%nat.
Proof.
  cbv zeta. split; [reflexivity|]. split; [reflexivity|].
  apply (createDatabases_distributes_keys_first (healthyCluster ["A"]) GoStrings.ToUpper
           GoStrings.TrimSpace (oneNodeConfig encryptedDatabases []) [] 1 3
           (Call (ServerSend (OperationDistributeSecretKey "invoices" ["A"] "a2V5LXR3bw==")))
           (Call (ServerSend (CreateDatabaseOperation
                                (databaseRecordOf (mkDatabase "orders" ∅ ["A"]
                                                     "a2V5LW9uZQ==" [])) 0))));
    reflexivity.
Defined.

(** ** The indexes and the deletions of a run *)

Section DeletionFacts.

Variable env : Env.







End DeletionFacts.

(** The puts of [createIndexes] *)




Section IndexPutFacts.

Variable env : Env.



End IndexPutFacts.



(** Three indexes in two databases: the third put carries the maps of all
    three. *)
Example createIndexes_three_indexes :
  createIndexes allOk (oneNodeConfig indexedDatabases []) []
  = (Val None,
     [ putIndex "orders"
         (mkIndex "ByDate" ["from o in docs.Orders select new { o.Date }"] "" ∅)
         ["from o in docs.Orders select new { o.Date }"];
       putIndex "orders"
         (mkIndex "ByCustomer" ["from o in docs.Orders select new { o.Customer }"] "" ∅)
         ["from o in docs.Orders select new { o.Date }";
          "from o in docs.Orders select new { o.Customer }"];
       putIndex "invoices"
         (mkIndex "ByTotal" ["from i in docs.Invoices select new { i.Total }"] "" ∅)
         ["from o in docs.Orders select new { o.Date }";
          "from o in docs.Orders select new { o.Customer }";
          "from i in docs.Invoices select new { i.Total }"] ]).
Proof. vm_compute. reflexivity. Qed.



(** Two deletions declared, the cluster without leader at the first. *)
Example deleteDatabases_no_leader :
  deleteDatabases (failing_first 1 noLeaderErr)
    (mkServerConfig (mkPackage "5.4.100" "") ["10.0.0.1"] ∅ ∅ (mkUrl [] 0 0) ∅ false
                    (mkSSH "ubuntu" [] 0) "healthcheck" []
                    [mkDatabaseToDelete "old" true; mkDatabaseToDelete "older" true] []) []
  = (Val (Some noLeaderErr),
     [Call (ServerSend (DeleteDatabasesOperation ["old"] true []))]).
Proof. vm_compute. reflexivity. Qed.

(** ** The state shown for the databases *)

Section RenderingFacts.

Variable argon2_IDKey :
  list Byte.byte -> list Byte.byte -> Z -> Z -> Z -> Z -> list Byte.byte.

Lemma encryptionKeyHash_enough plainText entropy :
  (16 <= length entropy)%nat ->
  encryptionKeyHash argon2_IDKey plainText entropy =
  (Val (shownHash argon2_IDKey plainText (take 16 entropy)), drop 16 entropy).
Proof.
  intros H. rewrite <- (take_drop 16 entropy) at 1.
  apply encryptionKeyHash_draws_salt. rewrite length_take. lia.
Qed.

Lemma encryptionKeyHash_short plainText entropy :
  (length entropy < 16)%nat ->
  encryptionKeyHash argon2_IDKey plainText entropy = (Panic "unexpected EOF", entropy).
Proof.
  intros H. unfold encryptionKeyHash, generateFromPlainText, generateRandomBytes.
  cbn [SaltLength]. apply Nat.leb_gt in H. by rewrite H.
Qed.

Lemma flattenDatabases_loop_enough : forall databases tfs entropy,
  (16 * length databases <= length entropy)%nat ->
  Rendering.flattenDatabases_loop argon2_IDKey databases tfs entropy =
  (Val (tfs ++ zip_with (fun db salt =>
                           Rendering.flatDatabase db (shownHash argon2_IDKey (DbKey db) salt))
                        databases (salts (length databases) entropy)),
   drop (16 * length databases) entropy).
Proof.
  induction databases as [|db rest IH]; intros tfs entropy H.
  { simpl. by rewrite app_nil_r. }
  cbn [Rendering.flattenDatabases_loop length salts zip_with]. simpl length in H.
  rewrite encryptionKeyHash_enough by lia.
  rewrite IH by (rewrite length_drop; lia).
  rewrite <- app_assoc, drop_drop. do 2 f_equal. lia.
Qed.

Lemma flattenDatabases_loop_short : forall databases tfs entropy,
  (length entropy < 16 * length databases)%nat ->
  exists rest,
    Rendering.flattenDatabases_loop argon2_IDKey databases tfs entropy
    = (Panic "unexpected EOF", rest).
Proof.
  induction databases as [|db rest IH]; intros tfs entropy H; [simpl in H; lia|].
  cbn [Rendering.flattenDatabases_loop]. simpl length in H.
  destruct (decide (length entropy < 16)%nat) as [Hs|Hs].
  - rewrite encryptionKeyHash_short by done. by eexists.
  - rewrite encryptionKeyHash_enough by lia. apply IH. rewrite length_drop. lia.
Qed.

End RenderingFacts.

(** X25.  [flattenDatabases] shows the declared databases in order, each
    with its name, settings, nodes and indexes and with the hash of its
    key, and takes 16 fresh bytes of the random source for every database,
    with or without key.  When the source cannot deliver them the process
    ends. *)
Theorem flattenDatabases_draws_a_salt_per_database
    (argon2_IDKey : list Byte.byte -> list Byte.byte -> Z -> Z -> Z -> Z -> list Byte.byte)
    (databases : list Database) (entropy : list Byte.byte) :
  ((16 * length databases <= length entropy)%nat ->
   Rendering.flattenDatabases argon2_IDKey databases entropy =
   (Val (zip_with (fun db salt =>
                     Rendering.flatDatabase db (shownHash argon2_IDKey (DbKey db) salt))
                  databases (salts (length databases) entropy)),
    drop (16 * length databases) entropy))
  /\ ((length entropy < 16 * length databases)%nat ->
      exists rest,
        Rendering.flattenDatabases argon2_IDKey databases entropy
        = (Panic "unexpected EOF", rest)).
Proof.
  unfold Rendering.flattenDatabases. split.
  - intros H. by rewrite flattenDatabases_loop_enough.
  - apply flattenDatabases_loop_short.
Qed.

Lemma flattenDatabases_draws_a_salt_per_database_witness :
  Rendering.flattenDatabases toyKdf ordersAndInvoices
    (bytesOf "0123456789abcdef" ++ bytesOf "fedcba9876543210" ++ bytesOf "rest") =
  (Val (zip_with (fun db salt => Rendering.flatDatabase db (shownHash toyKdf (DbKey db) salt))
                 ordersAndInvoices
                 (salts (length ordersAndInvoices)
                        (bytesOf "0123456789abcdef" ++ bytesOf "fedcba9876543210"
                           ++ bytesOf "rest"))),
   drop (16 * length ordersAndInvoices)
        (bytesOf "0123456789abcdef" ++ bytesOf "fedcba9876543210" ++ bytesOf "rest")).
Proof.
  apply (proj1 (flattenDatabases_draws_a_salt_per_database toyKdf ordersAndInvoices _)).
  simpl. lia.
Defined.

Lemma Hex_EncodeToString_length (src : list Byte.byte) :
  String.length (Hex.EncodeToString src) = (2 * length src)%nat.
Proof. induction src as [|b rest IH]; simpl; [reflexivity|]. rewrite IH. lia. Qed.

Lemma Hex_EncodeToString_digits (src : list Byte.byte) :
  all_chars is_hex_digit (Hex.EncodeToString src) = true.
Proof.
  induction src as [|b rest IH]; [reflexivity|].
  rewrite Hex_EncodeToString_cons. cbn [all_chars]. rewrite IH.
  by destruct b.
Qed.

(** X26.  The hash that [encryptionKeyHash] shows is a text of 64
    hexadecimal digits in lower case, whatever the key, as long as the
    derivation returns the 32 bytes it is asked for and the random source
    delivers a salt. *)
Theorem encryptionKeyHash_shows_64_hex_digits
    (argon2_IDKey : list Byte.byte -> list Byte.byte -> Z -> Z -> Z -> Z -> list Byte.byte)
    (plainText : string) (entropy : list Byte.byte) :
  (forall password salt time memory threads keyLen,
     length (argon2_IDKey password salt time memory threads keyLen) = Z.to_nat keyLen) ->
  (16 <= length entropy)%nat ->
  exists shown,
    fst (encryptionKeyHash argon2_IDKey plainText entropy) = Val shown
    /\ String.length shown = 64%nat
    /\ all_chars is_hex_digit shown = true.
Proof.
  intros Hkdf Hlen. rewrite encryptionKeyHash_enough by done.
  eexists. split; [reflexivity|]. unfold shownHash. split.
  - rewrite Hex_EncodeToString_length, Hkdf. reflexivity.
  - apply Hex_EncodeToString_digits.
Qed.

Lemma sizedKdf_length password salt time memory threads keyLen :
  length (sizedKdf password salt time memory threads keyLen) = Z.to_nat keyLen.
Proof.
  unfold sizedKdf. rewrite length_take, !length_app, length_replicate. lia.
Qed.

Lemma encryptionKeyHash_shows_64_hex_digits_witness :
  exists shown,
    fst (encryptionKeyHash sizedKdf "secret" (bytesOf "0123456789abcdef")) = Val shown
    /\ String.length shown = 64%nat
    /\ all_chars is_hex_digit shown = true.
Proof.
  apply encryptionKeyHash_shows_64_hex_digits.
  - apply sizedKdf_length.
  - simpl. lia.
Defined.

(** ** Validating the package *)

Lemma packageArchitectures_suffix (arc val : string) :
  packageArchitectures !! arc = Some val -> val ∈ packageSuffixes.
Proof.
  unfold packageArchitectures, packageSuffixes. intros H.
  repeat (apply lookup_insert_Some in H as [[_ <-]|[_ H]]; [set_solver|]).
  apply lookup_singleton_Some in H as [_ <-]. set_solver.
Qed.

(** X27.  [validatePackage] settles the architecture: validating a
    configuration that was validated changes nothing more and, the download
    site answering as before, gives the same verdict, as long as lowering
    the case of a package suffix does not turn it into an architecture name
    and no suffix is blank. *)
Theorem validatePackage_idempotent (ToLower TrimSpace : string -> string)
    (http_Head : string -> GoError + Z) (sc : ServerConfig) :
  Forall (fun suffix => packageArchitectures !! ToLower suffix = None
                        /\ TrimSpace suffix <> EmptyString) packageSuffixes ->
  let validated := validatePackage ToLower TrimSpace http_Head sc in
  validatePackage ToLower TrimSpace http_Head (fst validated) = validated.
Proof.
  intros Hsuf. rewrite Forall_forall in Hsuf. cbv zeta.
  assert (Hnb : forall s, TrimSpace s <> EmptyString ->
                          (String.length (TrimSpace s) =? 0)%nat = false).
  { intros s Hs. destruct (TrimSpace s); [done|reflexivity]. }
  assert (Hstable : forall sc', Arch (ScPackage sc') ∈ packageSuffixes ->
            validatePackage ToLower TrimSpace http_Head sc' =
            match http_Head (packageLink sc') with
            | inl err =>
                (sc', Some (errors_New ("unable to download the RavenDB version: "
                                        +:+ Version (ScPackage sc') +:+ ", from: "
                                        +:+ packageLink sc' +:+ " because of:" +:+ err_msg err)))
            | inr statusCode =>
                if negb (statusCode =? 200) then
                  (sc', Some (errors_New (packageLink sc'
                                          +:+ " is not reachable. HTTP status code: "
                                          +:+ GoStrings.Itoa statusCode
                                          +:+ ". Please check the input version:"
                                          +:+ Version (ScPackage sc') +:+ ". Url used was:"
                                          +:+ packageLink sc')))
                else (sc', None)
            end).
  { intros sc' Hin. destruct (Hsuf _ Hin) as [Hl Ht].
    unfold validatePackage. rewrite Hl, (Hnb _ Ht). reflexivity. }
  assert (Hfst : forall sc', fst (match http_Head (packageLink sc') with
            | inl err =>
                (sc', Some (errors_New ("unable to download the RavenDB version: "
                                        +:+ Version (ScPackage sc') +:+ ", from: "
                                        +:+ packageLink sc' +:+ " because of:" +:+ err_msg err)))
            | inr statusCode =>
                if negb (statusCode =? 200) then
                  (sc', Some (errors_New (packageLink sc'
                                          +:+ " is not reachable. HTTP status code: "
                                          +:+ GoStrings.Itoa statusCode
                                          +:+ ". Please check the input version:"
                                          +:+ Version (ScPackage sc') +:+ ". Url used was:"
                                          +:+ packageLink sc')))
                else (sc', None)
            end) = sc').
  { intros sc'. destruct (http_Head (packageLink sc')) as [err|code]; [reflexivity|].
    by destruct (negb (code =? 200)). }
  unfold validatePackage at 2 3.
  destruct (packageArchitectures !! ToLower (Arch (ScPackage sc))) as [val|] eqn:El.
  - apply packageArchitectures_suffix in El. destruct (Hsuf _ El) as [_ Ht].
    cbn [setArch ScPackage Arch]. rewrite (Hnb _ Ht).
    rewrite Hfst. by apply Hstable.
  - destruct (String.length (TrimSpace (Arch (ScPackage sc))) =? 0)%nat eqn:Eb.
    + rewrite Hfst. apply Hstable. cbn. apply list_elem_of_In. simpl. auto.
    + rewrite Hfst. unfold validatePackage. by rewrite El, Eb.
Qed.

Lemma validatePackage_idempotent_witness :
  validatePackage GoText.ToLower GoStrings.TrimSpace everyPackage
    (fst (validatePackage GoText.ToLower GoStrings.TrimSpace everyPackage capitalsConfig))
  = validatePackage GoText.ToLower GoStrings.TrimSpace everyPackage capitalsConfig.
Proof.
  apply validatePackage_idempotent.
  repeat constructor; vm_compute; congruence.
Defined.

(** An architecture named in capitals is taken for the one it names. *)
Example validatePackage_capitals :
  Arch (ScPackage (fst (validatePackage GoText.ToLower GoStrings.TrimSpace everyPackage
                          capitalsConfig)))
  = "-0_amd64.deb".
Proof. vm_compute. reflexivity. Qed.

(** ** An archive that cannot be read *)

Lemma extractFiles_readable (f : ZipFile) (c : CertificateHolder) :
  readable f -> fst (extractFiles f c) = None.
Proof.
  intros [bytes Hb]. unfold extractFiles. rewrite Hb.
  repeat match goal with |- context [if ?b then _ else _] => destruct b end; reflexivity.
Qed.

Lemma OpenZipFile_loop_unreadable f post e : forall pre m0,
  Forall readable pre -> FileData f = inl e ->
  OpenZipFile_loop (pre ++ f :: post) m0 = (None, Some e).
Proof.
  induction pre as [|g pre IH]; intros m0 Hpre Hf.
  - cbn [app OpenZipFile_loop]. unfold extractFiles at 1. rewrite Hf. reflexivity.
  - inversion Hpre as [|? ? Hg Hrest]; subst.
    cbn [app OpenZipFile_loop]. cbv zeta.
    match goal with
    | |- context [extractFiles g ?c] =>
        pose proof (extractFiles_readable g c Hg) as Hx;
        destruct (extractFiles g c) as [err holder]
    end.
    simpl in Hx. subst err. by apply IH.
Qed.

(** X28.  The first entry of the archive that cannot be read ends
    [OpenZipFile]: it returns the error of that entry and no bundle at
    all, not even those of the entries read before it.  An archive that
    cannot be opened gives the error of the opening. *)
Theorem OpenZipFile_unreadable_entry (sc : ServerConfig) (pre post : list ZipFile)
    (f : ZipFile) (e : GoError) :
  Forall readable pre -> FileData f = inl e ->
  OpenZipFile sc (inr (pre ++ f :: post)) = (None, Some e)
  /\ forall e', OpenZipFile sc (inl e') = (None, Some e').
Proof.
  intros Hpre Hf. split; [|reflexivity].
  unfold OpenZipFile. by apply OpenZipFile_loop_unreadable.
Qed.

Lemma OpenZipFile_unreadable_entry_witness :
  OpenZipFile securedConfig (inr damagedArchive) = (None, Some badChecksum).
Proof.
  apply (proj1 (OpenZipFile_unreadable_entry securedConfig
                  [mkZipFile "A/server.pfx" (inr (bytesOf "PFX-A"))]
                  [mkZipFile "license.json" (inr (bytesOf "LICENSE"))]
                  (mkZipFile "A/settings.json" (inl badChecksum)) badChecksum
                  ltac:(repeat constructor; by eexists) eq_refl)).
Defined.

(** ** The errors of a fleet read *)

Section FleetErrorFacts.

Variable ReadServer : ServerConfig -> string -> nat -> NodeState * option GoError.
Variable sc : ServerConfig.

Lemma readRavenDbInstances_loop_errors : forall hosts idx nodeStateArray errorsChanel,
  exists nodeStateArray' errs,
    readRavenDbInstances_loop ReadServer sc hosts idx (nodeStateArray, errorsChanel)
      = (nodeStateArray', errorsChanel ++ errs)
    /\ length nodeStateArray' = length nodeStateArray
    /\ forall e, In e errs <->
                 exists j host, hosts !! j = Some host
                                /\ snd (ReadServer sc host (idx + j)) = Some e
                                /\ GoStrings.Contains (err_msg e) "Unable to SSH to" = false.
Proof.
  induction hosts as [|host rest IH]; intros idx arr errs.
  - exists arr, []. rewrite app_nil_r. split; [reflexivity|]. split; [reflexivity|].
    intros e. split; [intros []|]. by intros (j & h & Hj & _).
  - cbn [readRavenDbInstances_loop]. unfold readTask.
    destruct (ReadServer sc host idx) as [ns err] eqn:E.
    assert (Hshift : forall (P : nat -> string -> Prop),
              (exists j h, (host :: rest) !! j = Some h /\ P j h)
              <-> P 0%nat host \/ exists j h, rest !! j = Some h /\ P (S j) h).
    { intros P. split.
      - intros ([|j] & h & Hj & HP); [injection Hj as <-; by left|right; by exists j, h].
      - intros [HP|(j & h & Hj & HP)]; [by exists 0%nat, host|by exists (S j), h]. }
    destruct err as [e0|].
    + destruct (GoStrings.Contains (err_msg e0) "Unable to SSH to") eqn:Hm.
      * destruct (IH (S idx) arr errs) as (arr' & errs' & -> & Hlen & Hin).
        exists arr', errs'. split; [reflexivity|]. split; [exact Hlen|].
        intros e. rewrite Hin.
        rewrite (Hshift (fun j h => snd (ReadServer sc h (idx + j)) = Some e
                                      /\ GoStrings.Contains (err_msg e) "Unable to SSH to"
                                         = false)).
        rewrite Nat.add_0_r, E. simpl. split.
        -- intros (j & h & Hj & Hr). right. exists j, h.
           rewrite ?Nat.add_succ_r in *; cbn [Nat.add] in *; exact (conj Hj Hr).
        -- intros [[[= ->] Hc]|(j & h & Hj & Hr)]; [congruence|].
           exists j, h. rewrite ?Nat.add_succ_r in *; cbn [Nat.add] in *; exact (conj Hj Hr).
      * destruct (IH (S idx) (<[idx := ns]> arr) (errs ++ [e0]))
          as (arr' & errs' & -> & Hlen & Hin).
        exists arr', (e0 :: errs'). rewrite <- app_assoc. split; [reflexivity|].
        split; [by rewrite Hlen, length_insert|].
        intros e. simpl. rewrite Hin.
        rewrite (Hshift (fun j h => snd (ReadServer sc h (idx + j)) = Some e
                                      /\ GoStrings.Contains (err_msg e) "Unable to SSH to"
                                         = false)).
        rewrite Nat.add_0_r, E. simpl. split.
        -- intros [->|(j & h & Hj & Hr)]; [by left|right].
           exists j, h. rewrite ?Nat.add_succ_r in *; cbn [Nat.add] in *; exact (conj Hj Hr).
        -- intros [[[= ->] Hc]|(j & h & Hj & Hr)]; [by left|right].
           exists j, h. rewrite ?Nat.add_succ_r in *; cbn [Nat.add] in *; exact (conj Hj Hr).
    + destruct (IH (S idx) (<[idx := ns]> arr) errs) as (arr' & errs' & -> & Hlen & Hin).
      exists arr', errs'. split; [reflexivity|].
      split; [by rewrite Hlen, length_insert|].
      intros e. rewrite Hin.
      rewrite (Hshift (fun j h => snd (ReadServer sc h (idx + j)) = Some e
                                    /\ GoStrings.Contains (err_msg e) "Unable to SSH to"
                                       = false)).
      rewrite Nat.add_0_r, E. simpl. split.
      * intros (j & h & Hj & Hr). right. exists j, h.
        rewrite ?Nat.add_succ_r in *; cbn [Nat.add] in *; exact (conj Hj Hr).
      * intros [[[=] _]|(j & h & Hj & Hr)].
        exists j, h. rewrite ?Nat.add_succ_r in *; cbn [Nat.add] in *; exact (conj Hj Hr).
Qed.

End FleetErrorFacts.

(** X29.  [readRavenDbInstances] fails exactly when the read of some host
    fails otherwise than by the host being unreachable.  It then returns
    no state at all, not even of the hosts that were read, and the error
    merges the errors of exactly those hosts; otherwise it returns one
    state per host and no error. *)
Theorem readRavenDbInstances_reports_other_errors
    (ReadServer : ServerConfig -> string -> nat -> NodeState * option GoError)
    (sc : ServerConfig) :
  match readRavenDbInstances ReadServer sc with
  | (Some nodes, None) =>
      length nodes = length (Hosts sc) /\ forall e, ~ failed_otherwise ReadServer sc e
  | (None, Some errs) =>
      errs <> [] /\ forall e, In e errs <-> failed_otherwise ReadServer sc e
  | _ => False
  end.
Proof.
  unfold readRavenDbInstances, failed_otherwise.
  destruct (readRavenDbInstances_loop_errors ReadServer sc (Hosts sc) 0
              (replicate (length (Hosts sc)) zeroNodeState) [])
    as (nodes & errs & -> & Hlen & Hin).
  simpl. destruct errs as [|e0 errs]; simpl.
  - rewrite length_replicate in Hlen. split; [exact Hlen|].
    intros e He. by apply (Hin e).
  - split; [done|]. intros e. exact (Hin e).
Qed.

(** Three hosts, the second with settings that do not parse: no state
    comes back, only that error. *)
Example readRavenDbInstances_broken_settings :
  readRavenDbInstances secondBroken threeHosts = (None, Some [brokenSettings]).
Proof. reflexivity. Qed.

(** ** The identifier [Deploy] returns *)

Section DeployResultFacts.

Variable env : Env.
Variable ToUpper : string -> string.
Variable TrimSpace : string -> string.

(** What [executeWithRetries] returns is the answer to one of its attempts. *)
Lemma executeWithRetries_loop_answer op : forall n last h r,
  result (executeWithRetries_loop env n op last) h = Val r ->
  (n = 0%nat /\ r = last)
  \/ exists k, (k < n)%nat /\ r = nth_reply env h (ServerSend op) 5 k
               /\ forall i, (i < k)%nat ->
                            no_leader (nth_reply env h (ServerSend op) 5 i) = true.
Proof.
  induction n as [|n IH]; intros last h r H.
  - left. split; [reflexivity|]. unfold result in H. simpl in H. congruence.
  - right. cbn [executeWithRetries_loop] in H.
    apply result_bind in H as (r0 & t0 & Hcall & H).
    unfold call in Hcall. injection Hcall as <- <-.
    destruct (reply_err (env h (ServerSend op))) eqn:Herr.
    + destruct (negb (errors_As (reply_err (env h (ServerSend op))) NoLeaderError)) eqn:Hnl;
        rewrite <- ?Herr in H; rewrite ?Hnl in H; cbn [andb] in H.
      * unfold result, ret in H. simpl in H. injection H as <-.
        exists 0%nat. split; [lia|]. unfold nth_reply. simpl. rewrite app_nil_r.
        split; [reflexivity|]. intros i Hi. lia.
      * apply result_bind in H as ([] & t1 & Hsleep & H).
        unfold sleep in Hsleep. injection Hsleep as <-.
        apply IH in H as [[-> ->]|(k & Hk & -> & Hfirst)].
        -- exists 0%nat. split; [lia|]. unfold nth_reply. simpl. rewrite app_nil_r.
           split; [reflexivity|]. intros i Hi. lia.
        -- exists (S k). split; [lia|]. unfold nth_reply. simpl.
           rewrite <- !app_assoc. split; [reflexivity|].
           intros [|i] Hi.
           ++ unfold no_leader. simpl. rewrite app_nil_r.
              by apply negb_false_iff in Hnl.
           ++ specialize (Hfirst i ltac:(lia)). unfold nth_reply in Hfirst.
              by rewrite <- !app_assoc in Hfirst.
    + unfold result, ret in H. simpl in H. injection H as <-.
      exists 0%nat. split; [lia|]. unfold nth_reply. simpl. rewrite app_nil_r.
      split; [reflexivity|]. intros i Hi. lia.
Qed.

Lemma getClusterTopology_answer h r :
  result (getClusterTopology env) h = Val r ->
  reply_err r = None ->
  exists k, (k < NUMBER_OF_RETRIES)%nat
            /\ r = nth_reply env h topologyQuery 5 k
            /\ forall i, (i < k)%nat -> no_leader (nth_reply env h topologyQuery 5 i) = true.
Proof.
  unfold getClusterTopology, executeWithRetries. intros H Hok.
  apply result_bind in H as (r0 & t0 & Hrun & H).
  assert (result (executeWithRetries_loop env NUMBER_OF_RETRIES OperationGetClusterTopology
                    okReply) h = Val r0) as Hres by (unfold result; by rewrite Hrun).
  apply executeWithRetries_loop_answer in Hres as [[Hn _]|(k & Hk & Hr & Hfirst)]; [discriminate Hn|].
  destruct (reply_err r0) eqn:Herr.
  - unfold result, ret in H. simpl in H. injection H as <-. discriminate Hok.
  - unfold result, ret in H. simpl in H. injection H as <-. by exists k.
Qed.

Lemma orReturn_step (m : M (option GoError)) k h id (e : option GoError) :
  result (bind m (fun err => orReturn err k)) h = Val (id, e) ->
  (id = EmptyString /\ e <> None)
  \/ exists t, m h = (Val None, t) /\ result k (h ++ t) = Val (id, e).
Proof.
  intros H. apply result_bind in H as (err & t & Hm & H).
  destruct err as [e0|]; simpl in H.
  - left. unfold result, ret in H. simpl in H. by injection H as <- <-.
  - right. by exists t.
Qed.

Lemma Deploy_phases_returned sc clusterTopology h id e :
  result (Deploy_phases env ToUpper TrimSpace sc clusterTopology) h = Val (id, e) ->
  match e with
  | Some _ => id = EmptyString
  | None => id = reply_topologyID clusterTopology
  end.
Proof.
  unfold Deploy_phases. intros H.
  repeat (apply orReturn_step in H as [[-> He]|(? & _ & H)];
          [by destruct e|]).
  unfold result, ret in H. simpl in H. by injection H as <- <-.
Qed.

(** X30.  When [Deploy] returns an error the identifier it returns is
    empty.  When it returns none, the identifier is the topology
    identifier of the first answer to the topology query that was not a
    missing leader: the one the cluster gave right after the store was
    opened, before the healthcheck and every change of a database. *)
Theorem Deploy_returns_first_topology_id (sc : ServerConfig) (parallel : bool)
    (h : list Event) (id : string) (err : option GoError) :
  result (Deploy env ToUpper TrimSpace sc parallel) h = Val (id, err) ->
  match err with
  | Some _ => id = EmptyString
  | None =>
      exists holder k,
        ClusterSetupZip sc !! CREDENTIALS_FOR_SECURE_STORE_FIELD_NAME = Some holder
        /\ (k < NUMBER_OF_RETRIES)%nat
        /\ (forall i, (i < k)%nat ->
                      no_leader (nth_reply env (h ++ [Call (GetStore holder)])
                                   topologyQuery 5 i) = true)
        /\ reply_err (nth_reply env (h ++ [Call (GetStore holder)]) topologyQuery 5 k) = None
        /\ id = reply_topologyID
                  (nth_reply env (h ++ [Call (GetStore holder)]) topologyQuery 5 k)
  end.
Proof.
  unfold Deploy. intros H.
  destruct (ClusterSetupZip sc !! CREDENTIALS_FOR_SECURE_STORE_FIELD_NAME) as [holder|];
    [|discriminate H].
  apply result_bind in H as (store & t & Hstore & H).
  unfold call in Hstore. injection Hstore as <- <-.
  destruct (reply_err (env h (GetStore holder))); simpl in H.
  { unfold result, ret in H. simpl in H. by injection H as <- <-. }
  apply result_bind in H as (clusterTopology & t & Htopo & H).
  assert (result (getClusterTopology env) (h ++ [Call (GetStore holder)])
          = Val clusterTopology) as Hres by (unfold result; by rewrite Htopo).
  destruct (reply_err clusterTopology) eqn:Hok; simpl in H.
  { unfold result, ret in H. simpl in H. by injection H as <- <-. }
  apply Deploy_phases_returned in H.
  destruct err; [exact H|].
  destruct (getClusterTopology_answer _ _ Hres Hok) as (k & Hk & Hr & Hfirst).
  exists holder, k. rewrite <- Hr. by repeat split.
Qed.

End DeployResultFacts.

Lemma Deploy_returns_first_topology_id_witness :
  result (Deploy electingCluster GoStrings.ToUpper GoStrings.TrimSpace
            (oneNodeConfig [] []) false) [] = Val ("topology-1", None)
  /\ exists holder k,
       ClusterSetupZip (oneNodeConfig [] []) !! CREDENTIALS_FOR_SECURE_STORE_FIELD_NAME
         = Some holder
       /\ (k < NUMBER_OF_RETRIES)%nat
       /\ (forall i, (i < k)%nat ->
                     no_leader (nth_reply electingCluster ([] ++ [Call (GetStore holder)])
                                  topologyQuery 5 i) = true)
       /\ reply_err (nth_reply electingCluster ([] ++ [Call (GetStore holder)])
                       topologyQuery 5 k) = None
       /\ "topology-1" = reply_topologyID
                           (nth_reply electingCluster ([] ++ [Call (GetStore holder)])
                              topologyQuery 5 k).
Proof.
  split; [reflexivity|].
  apply (Deploy_returns_first_topology_id electingCluster GoStrings.ToUpper
           GoStrings.TrimSpace (oneNodeConfig [] []) false [] "topology-1" None).
  reflexivity.
Defined.
